(** * PDF-Research-Scraper: the acquisition pipeline of [scrape_pdfs.py] and
      the topic fan-out of [app.py], embedded and verified.

    The development follows the two source files.  Python values that come
    from JSON are modelled by the type [json]; Python exceptions by the type
    [exn] and the result type [py_result]; the services the program talks to
    (Unpaywall and the HTTP download; Crossref and the worker pool) by the
    records [env] and [services]; the file system by a finite map from paths
    to file contents. *)

From Stdlib Require Import ZArith List Ascii String Bool Lia.
From Stdlib Require Import Strings.Byte.
From stdpp Require Import base decidable option list gmap sets strings pretty.

#[local] Set Warnings "-register-all".
Local Open Scope string_scope.
Local Open Scope Z_scope.

(** ** Python strings

    A Python [str] is a Rocq [string]: one [ascii] stands for one character
    of the Python string. *)

Module PyStr.

Fixpoint map (f : ascii → ascii) (s : string) : string :=
  match s with
  | EmptyString => EmptyString
  | String c s' => String (f c) (map f s')
  end.

(** [s[:n]] *)
Definition slice_to (n : nat) (s : string) : string := substring 0 n s.

(** [s.endswith(suffix)] *)
Definition endswith (s suffix : string) : bool :=
  let n := String.length s in
  let k := String.length suffix in
  if (k <=? n)%nat then String.eqb (substring (n - k) k s) suffix else false.

(** [s.startswith(p)] *)
Definition startswith (s p : string) : bool := String.prefix p s.

(** [c in s] for a one-character string [c] *)
Fixpoint contains_char (c : ascii) (s : string) : bool :=
  match s with
  | EmptyString => false
  | String c' s' => if Ascii.eqb c c' then true else contains_char c s'
  end.

(** [sep.join(parts)] *)
Fixpoint join (sep : string) (parts : list string) : string :=
  match parts with
  | [] => EmptyString
  | [p] => p
  | p :: rest => p +:+ sep +:+ join sep rest
  end.

(** [c * n] *)
Fixpoint repeat (c : ascii) (n : nat) : string :=
  match n with
  | O => EmptyString
  | S n' => String c (repeat c n')
  end.

(** The letters A to Z, and the capital letters of Latin-1 (192 to 222,
    the multiplication sign 215 apart), have a lower case 32 further. *)
Definition lower_char (c : ascii) : ascii :=
  let n := nat_of_ascii c in
  if ((65 <=? n) && (n <=? 90)
      || (192 <=? n) && (n <=? 222) && negb (n =? 215))%nat
  then ascii_of_nat (n + 32) else c.

(** [s.lower()] *)
Definition lower (s : string) : string := map lower_char s.

Definition truthy (s : string) : bool :=
  match s with EmptyString => false | _ => true end.

(** The one-character strings of [s], as iteration over a [str] yields
    them. *)
Fixpoint chars (s : string) : list string :=
  match s with
  | EmptyString => []
  | String c s' => String c EmptyString :: chars s'
  end.

End PyStr.

(** ** [sanitize_filename] *)

(** The character class of the pattern of [re.sub]: backslash, slash, star,
    question mark, colon, double quote (code 34), angle brackets and bar. *)
Definition hostile_chars : list ascii :=
  ["\"; "/"; "*"; "?"; ":"; "034"; "<"; ">"; "|"]%char.

Definition is_hostile (c : ascii) : bool :=
  existsb (Ascii.eqb c) hostile_chars.

(** [re.sub] with that class and the replacement [_]: every character of
    the class becomes an underscore. *)
Definition re_sub_hostile (s : string) : string :=
  PyStr.map (λ c, if is_hostile c then "_"%char else c) s.

Definition sanitize_filename (s : string) : string :=
  let s := re_sub_hostile s in
  PyStr.slice_to 200 s.

(** ** Python values and exceptions

    What [r.json()] returns: [None], booleans, integers, strings, lists and
    dictionaries with string keys (a dictionary is the list of its entries,
    each key once).  Floating-point numbers are left out. *)

Inductive json : Type :=
| JNull
| JBool (b : bool)
| JNum (n : Z)
| JStr (s : string)
| JList (l : list json)
| JDict (d : list (string * json)).

(** The classes of the exceptions met; [OSError] stands for the errors of
    the calls of [os] and [tempfile] ([FileNotFoundError],
    [FileExistsError], [PermissionError]), [ArgumentParserError] is the
    class [app.py] declares. *)
Inductive exn_kind : Type :=
| AttributeError | TypeError | IndexError | KeyError | ValueError
| RequestException | OSError | ArgumentParserError.

(** An exception: its class and the text [str(e)] gives. *)
Record exn : Type := Exn { exn_class : exn_kind; exn_str : string }.

Inductive py_result (A : Type) : Type :=
| Returned (a : A)
| Raised (e : exn).
Arguments Returned {A} a.
Arguments Raised {A} e.

#[global] Instance py_result_ret : MRet py_result := λ A a, Returned a.
#[global] Instance py_result_bind : MBind py_result := λ A B k m,
  match m with
  | Returned a => k a
  | Raised e => Raised e
  end.

Module Py.

Definition type_name (v : json) : string :=
  match v with
  | JNull => "NoneType"
  | JBool _ => "bool"
  | JNum _ => "int"
  | JStr _ => "str"
  | JList _ => "list"
  | JDict _ => "dict"
  end.

(** [bool(v)] *)
Definition truthy (v : json) : bool :=
  match v with
  | JNull => false
  | JBool b => b
  | JNum n => negb (n =? 0)
  | JStr s => PyStr.truthy s
  | JList l => match l with [] => false | _ => true end
  | JDict d => match d with [] => false | _ => true end
  end.

Definition no_attribute (v : json) (attr : string) : exn :=
  Exn AttributeError
    ("'" +:+ type_name v +:+ "' object has no attribute '" +:+ attr +:+ "'").

Fixpoint dict_lookup (d : list (string * json)) (k : string) : option json :=
  match d with
  | [] => None
  | (k', v) :: d' => if String.eqb k' k then Some v else dict_lookup d' k
  end.

(** [v.get(k, dflt)]; only a dictionary has the method. *)
Definition get (v : json) (k : string) (dflt : json) : py_result json :=
  match v with
  | JDict d => Returned (default dflt (dict_lookup d k))
  | _ => Raised (no_attribute v "get")
  end.

(** [v[k]] for a string key [k]. *)
Definition getitem (v : json) (k : string) : py_result json :=
  match v with
  | JDict d =>
      match dict_lookup d k with
      | Some x => Returned x
      | None => Raised (Exn KeyError ("'" +:+ k +:+ "'"))
      end
  | JList _ =>
      Raised (Exn TypeError "list indices must be integers or slices, not str")
  | JStr _ =>
      Raised (Exn TypeError "string indices must be integers, not 'str'")
  | _ =>
      Raised (Exn TypeError ("'" +:+ type_name v +:+ "' object is not subscriptable"))
  end.

(** [v[0]] *)
Definition index0 (v : json) : py_result json :=
  match v with
  | JList (x :: _) => Returned x
  | JList [] => Raised (Exn IndexError "list index out of range")
  | JStr (String c _) => Returned (JStr (String c EmptyString))
  | JStr EmptyString => Raised (Exn IndexError "string index out of range")
  | JDict _ => Raised (Exn KeyError "0")
  | _ =>
      Raised (Exn TypeError ("'" +:+ type_name v +:+ "' object is not subscriptable"))
  end.

(** The values a [for] loop over [v] visits. *)
Definition iter (v : json) : py_result (list json) :=
  match v with
  | JList l => Returned l
  | JStr s => Returned (JStr <$> PyStr.chars s)
  | JDict d => Returned ((λ kv, JStr kv.1) <$> d)
  | _ =>
      Raised (Exn TypeError ("'" +:+ type_name v +:+ "' object is not iterable"))
  end.

(** [a or b], with [b] evaluated only when [a] is falsy. *)
Definition or_else (a : json) (b : py_result json) : py_result json :=
  if truthy a then Returned a else b.

(** [v == s] for a string [s]. *)
Definition eq_str (v : json) (s : string) : bool :=
  match v with
  | JStr s' => String.eqb s' s
  | _ => false
  end.

(** [v not in l] for a list [l] of strings. *)
Definition not_in_strs (v : json) (l : list string) : bool :=
  negb (existsb (eq_str v) l).

End Py.

(** ** The outside world of one item

    - [unpaywall_get url] is what the [try] block of
      [get_pdf_url_from_unpaywall] obtains from [requests.get],
      [raise_for_status] and [r.json()]: the decoded body, or the exception
      one of the three raised;
    - [http_get url] is the streamed download: the request fails (transport
      error or error status), or it delivers chunks and then either ends or
      breaks;
    - [can_open path] tells whether [open(path, "wb")] succeeds.

    Files are regular files that the process may delete: [os.remove] on an
    existing path succeeds, so the [except: pass] around it is never
    entered.  Pacing ([time.sleep]) and the progress bar have no effect on
    the values computed and are left out. *)

Inductive stream_end : Type := StreamComplete | StreamBroken.

Inductive http_response : Type :=
| HttpFailed
| HttpBody (chunks : list (list byte)) (ending : stream_end).

Record env : Type := Env {
  unpaywall_get : string → py_result json;
  http_get : string → http_response;
  can_open : string → bool
}.

#[global] Instance byte_eq_decision : EqDecision byte := byte_eq_dec.

Abbreviation filesystem := (gmap string (list byte)).

(** [os.path.join(a, b)] of [posixpath]. *)
Definition path_join (a b : string) : string :=
  if PyStr.startswith b "/" then b
  else if negb (PyStr.truthy a) || PyStr.endswith a "/" then a +:+ b
  else a +:+ "/" +:+ b.

Definition path_exists (p : string) (fs : filesystem) : bool :=
  bool_decide (is_Some (fs !! p)).

Definition os_remove (p : string) (fs : filesystem) : filesystem := delete p fs.

(** [b'%PDF'] *)
Definition pdf_magic : list byte := [x25; x50; x44; x46].

Definition PREFERRED_PUBLISHERS : list string :=
  ["Springer"; "IEEE"; "Scopus"; "Elsevier"].

Definition UNPAYWALL_API (doi email : string) : string :=
  "https://api.unpaywall.org/v2/" +:+ doi +:+ "?email=" +:+ email.

(** The command line of [scrape_pdfs.py], as [argparse] delivers it
    ([--pause] only sets a delay and is left out). *)
Record arguments : Type := Arguments {
  arg_keywords : string;
  arg_email : string;
  arg_max : Z;
  arg_outdir : string;
  arg_start_date : string;
  arg_end_date : string;
  arg_filter_publishers : bool
}.

Section ItemPipeline.

(** [urllib.parse.quote_plus] on a string, and [str] of a list or a
    dictionary, are Python's own and are taken as given. *)
Variable quote_plus : string → string.
Variable repr_container : json → string.
Variable w : env.

(** [str(v)], which is also what an f-string puts for [{v}]. *)
Definition py_str (v : json) : string :=
  match v with
  | JNull => "None"
  | JBool true => "True"
  | JBool false => "False"
  | JNum n => pretty n
  | JStr s => s
  | JList _ | JDict _ => repr_container v
  end.

(** [quote_plus(doi)]: only a string is accepted. *)
Definition py_quote_plus (doi : json) : py_result string :=
  match doi with
  | JStr s => Returned (quote_plus s)
  | _ => Raised (Exn TypeError "quote_from_bytes() expected bytes")
  end.

(** [pdf_url.lower()] *)
Definition py_lower (v : json) : py_result string :=
  match v with
  | JStr s => Returned (PyStr.lower s)
  | _ => Raised (Py.no_attribute v "lower")
  end.

(** [loc.get("url_for_pdf") or loc.get("url")] *)
Definition location_url (loc : json) : py_result json :=
  a ← Py.get loc "url_for_pdf" JNull;
  Py.or_else a (Py.get loc "url" JNull).

(** The [if data.get("best_oa_location")] block: [Some u] when the function
    returns [u] from it, [None] when control falls through to the loop. *)
Definition best_location_url (data : json) : py_result (option json) :=
  best ← Py.get data "best_oa_location" JNull;
  if Py.truthy best then
    loc ← Py.getitem data "best_oa_location";
    pdf_url ← location_url loc;
    is_pdf ← (if Py.truthy pdf_url
              then l ← py_lower pdf_url; Returned (PyStr.endswith l ".pdf")
              else Returned false);
    if is_pdf : bool then Returned (Some pdf_url)
    else if Py.truthy pdf_url then Returned (Some pdf_url)
    else Returned None
  else Returned None.

(** The loop over [data.get("oa_locations", [])]; [JNull] is the [None]
    returned when the loop ends. *)
Fixpoint first_location_url (locs : list json) : py_result json :=
  match locs with
  | [] => Returned JNull
  | loc :: rest =>
      pdf_url ← location_url loc;
      if Py.truthy pdf_url then Returned pdf_url
      else first_location_url rest
  end.

(** The body of the [try]. *)
Definition unpaywall_try (url : string) : py_result json :=
  data ← unpaywall_get w url;
  b ← best_location_url data;
  match b with
  | Some pdf_url => Returned pdf_url
  | None =>
      locs ← Py.get data "oa_locations" (JList []);
      locs ← Py.iter locs;
      first_location_url locs
  end.

Definition get_pdf_url_from_unpaywall (doi : json) (email : string)
  : py_result json :=
  safe_doi ← py_quote_plus doi;
  let url := UNPAYWALL_API safe_doi email in
  match unpaywall_try url with
  | Returned pdf_url => Returned pdf_url
  | Raised _ => Returned JNull
  end.

(** The [for chunk in r.iter_content(...)] loop: the file written so far
    and [downloaded_size]. *)
Fixpoint write_chunks (chunks : list (list byte)) (f : list byte)
    (downloaded_size : Z) : list byte * Z :=
  match chunks with
  | [] => (f, downloaded_size)
  | chunk :: rest =>
      match chunk with
      | [] => write_chunks rest f downloaded_size
      | _ => write_chunks rest (f ++ chunk)
               (downloaded_size + Z.of_nat (length chunk))
      end
  end.

(** The [except] clause of [download_file]. *)
Definition download_failed (dest_path : string) (fs : filesystem)
  : bool * filesystem :=
  (false, if path_exists dest_path fs then os_remove dest_path fs else fs).

(** [requests.get] refuses a URL that is not a string. *)
Definition open_stream (url : json) : http_response :=
  match url with
  | JStr u => http_get w u
  | _ => HttpFailed
  end.

Definition download_file (url : json) (dest_path : string) (fs : filesystem)
  : bool * filesystem :=
  match open_stream url with
  | HttpFailed => download_failed dest_path fs
  | HttpBody chunks ending =>
      if can_open w dest_path then
        let '(f, downloaded_size) := write_chunks chunks [] 0 in
        let fs := <[dest_path := f]> fs in
        match ending with
        | StreamBroken => download_failed dest_path fs
        | StreamComplete =>
            if downloaded_size <? 1024 then download_failed dest_path fs
            else (true, fs)
        end
      else download_failed dest_path fs
  end.

Definition is_valid_pdf (file_path : string) (fs : filesystem) : bool :=
  match fs !! file_path with
  | Some f => let header := take 4 f in bool_decide (header = pdf_magic)
  | None => false
  end.

(** [os.path.getsize]; the path exists wherever it is called. *)
Definition getsize (p : string) (fs : filesystem) : Z :=
  match fs !! p with
  | Some f => Z.of_nat (length f)
  | None => 0
  end.

(** The first element of [item.get(key)] when that is truthy, the empty
    string otherwise. *)
Definition first_of (item : json) (key : string) : py_result json :=
  present ← Py.get item key JNull;
  if Py.truthy present then
    l ← Py.get item key (JList [JStr EmptyString]);
    Py.index0 l
  else Returned (JStr EmptyString).

Definition publication_date (item : json) : py_result string :=
  a ← Py.get item "published-print" JNull;
  b ← Py.or_else a (Py.get item "published-online" JNull);
  pub_date_parts ← Py.or_else b (Py.get item "created" JNull);
  if Py.truthy pub_date_parts then
    present ← Py.get pub_date_parts "date-parts" JNull;
    if Py.truthy present then
      parts ← Py.get pub_date_parts "date-parts" JNull;
      dp ← Py.index0 parts;
      xs ← Py.iter dp;
      Returned (PyStr.join "-" (py_str <$> xs))
    else Returned "unknown"
  else Returned "unknown".

(** What [process_item] reads from the item before it decides anything. *)
Record item_fields : Type := ItemFields {
  f_doi : json;
  f_title : json;
  f_journal : json;
  f_pub_date : string;
  f_publisher : json
}.

Definition read_item (item : json) : py_result item_fields :=
  doi ← Py.get item "DOI" JNull;
  title ← first_of item "title";
  journal ← first_of item "container-title";
  pub_date ← publication_date item;
  publisher ← Py.get item "publisher" (JStr EmptyString);
  Returned (ItemFields doi title journal pub_date publisher).

(** [f"{pub_date} - {journal} - {title}.pdf"] *)
Definition unsanitized_name (i : item_fields) : string :=
  f_pub_date i +:+ " - " +:+ py_str (f_journal i) +:+ " - "
    +:+ py_str (f_title i) +:+ ".pdf".

(** The part of [process_item] after the download. *)
Definition validate_download (success : bool) (pdf_url : json)
    (dest_path : string) (fs : filesystem)
  : (bool * string) * filesystem :=
  if success && path_exists dest_path fs then
    if negb (is_valid_pdf dest_path fs) then
      ((false, "Downloaded file is not a valid PDF from: " +:+ py_str pdf_url),
       os_remove dest_path fs)
    else
      let file_size := getsize dest_path fs in
      if file_size <? 1024 then
        ((false, "Downloaded file is too small from: " +:+ py_str pdf_url),
         os_remove dest_path fs)
      else ((true, "Saved: " +:+ dest_path), fs)
  else if success then
    ((false, "Download completed but file not found: " +:+ py_str pdf_url), fs)
  else ((false, "Failed to download PDF from: " +:+ py_str pdf_url), fs).

(** The fetch of one item: the download, then the checks of [process_item]
    on what was written. *)
Definition fetch_and_validate (pdf_url : json) (dest_path : string)
    (fs : filesystem) : (bool * string) * filesystem :=
  let '(success, fs) := download_file pdf_url dest_path fs in
  validate_download success pdf_url dest_path fs.

(** The body of the [try] of [process_item]. *)
Definition process_item_try (item : json) (email outdir : string)
    (args : arguments) (fs : filesystem)
  : py_result (bool * string) * filesystem :=
  match read_item item with
  | Raised e => (Raised e, fs)
  | Returned i =>
      let doi := f_doi i in
      let publisher := f_publisher i in
      if arg_filter_publishers args
         && Py.not_in_strs publisher PREFERRED_PUBLISHERS then
        (Returned (false, "Skipping " +:+ py_str doi +:+ " - Publisher "
                          +:+ py_str publisher +:+ " not in preferred list"), fs)
      else if negb (Py.truthy doi) then (Returned (false, "No DOI found"), fs)
      else
        match get_pdf_url_from_unpaywall doi email with
        | Raised e => (Raised e, fs)
        | Returned pdf_url =>
            if negb (Py.truthy pdf_url) then
              (Returned (false, "No OA PDF reported by Unpaywall for DOI: "
                                +:+ py_str doi), fs)
            else
              let fn := sanitize_filename (unsanitized_name i) in
              let dest_path := path_join outdir fn in
              let '(outcome, fs) := fetch_and_validate pdf_url dest_path fs in
              (Returned outcome, fs)
        end
  end.

(** How the messages of the failures of [process_item] start, in the order
    of the source. *)
Definition failure_messages : list string :=
  ["Skipping ";
   "No DOI found";
   "No OA PDF reported by Unpaywall for DOI: ";
   "Downloaded file is not a valid PDF from: ";
   "Downloaded file is too small from: ";
   "Download completed but file not found: ";
   "Failed to download PDF from: ";
   "Error processing item: "].

(** [process_item]: the [try] and its [except Exception]. *)
Definition process_item (item : json) (email outdir : string)
    (args : arguments) (fs : filesystem)
  : py_result (bool * string) * filesystem :=
  match process_item_try item email outdir args fs with
  | (Returned outcome, fs) => (Returned outcome, fs)
  | (Raised e, fs) =>
      (Returned (false, "Error processing item: " +:+ exn_str e), fs)
  end.

End ItemPipeline.

(** ** The resolver, in the words of the specification

    A response of Unpaywall as the specification describes it: an optional
    best open-access location and a list of locations, each with an optional
    direct-PDF URL and an optional generic URL. *)

Record oa_location : Type := OaLocation {
  url_for_pdf : option string;
  url : option string
}.

Record oa_record : Type := OaRecord {
  best_oa_location : option oa_location;
  oa_locations : list oa_location
}.

Definition json_of_url (u : option string) : json :=
  match u with
  | Some s => JStr s
  | None => JNull
  end.

Definition json_of_location (l : oa_location) : json :=
  JDict [("url_for_pdf", json_of_url (url_for_pdf l));
         ("url", json_of_url (url l))].

(** The body of the response; [other] holds the fields the resolver does
    not read. *)
Definition json_of_record (other : list (string * json)) (r : oa_record)
  : json :=
  JDict (("best_oa_location",
          match best_oa_location r with
          | Some l => json_of_location l
          | None => JNull
          end)
         :: ("oa_locations", JList (json_of_location <$> oa_locations r))
         :: other).

(** A URL is available when it is present and not empty. *)
Definition available (u : option string) : option string :=
  match u with
  | Some s => if PyStr.truthy s then Some s else None
  | None => None
  end.

Fixpoint first_available (us : list (option string)) : option string :=
  match us with
  | [] => None
  | u :: rest =>
      match available u with
      | Some s => Some s
      | None => first_available rest
      end
  end.

(** The URLs of a location, the direct-PDF URL first. *)
Definition location_urls (l : oa_location) : list (option string) :=
  [url_for_pdf l; url l].

(** Follows the words of the specification: the direct-PDF URL of the best
    location, then the generic URL of that location, then the first
    available URL among the other reported locations; none when the lookup
    failed or no location is reported. *)
Definition resolvePdfUrl (lookup : option oa_record) : option string :=
  match lookup with
  | None => None
  | Some r =>
      first_available
        (match best_oa_location r with
         | Some l => location_urls l
         | None => []
         end ++ concat (location_urls <$> oa_locations r))
  end.

(** ** The acquisition scheduler: [main] of [scrape_pdfs.py] *)

(** What a set of DOIs tells apart: Python's [True] and [1] are equal and
    hash alike, lists and dictionaries cannot be hashed. *)
Inductive hkey : Type := KNone | KNum (n : Z) | KStr (s : string).

#[global] Instance hkey_eq_decision : EqDecision hkey.
Proof. solve_decision. Defined.

#[global] Instance hkey_countable : Countable hkey :=
  inj_countable'
    (λ k, match k with
          | KNone => inl ()
          | KNum n => inr (inl n)
          | KStr s => inr (inr s)
          end)
    (λ x, match x with
          | inl _ => KNone
          | inr (inl n) => KNum n
          | inr (inr s) => KStr s
          end)
    (λ k, match k with KNone | KNum _ | KStr _ => eq_refl end).

(** The key under which [doi in seen_dois] and [seen_dois.add(doi)] find
    [doi]. *)
Definition hash_key (doi : json) : py_result hkey :=
  match doi with
  | JNull => Returned KNone
  | JBool b => Returned (KNum (if b then 1 else 0))
  | JNum n => Returned (KNum n)
  | JStr s => Returned (KStr s)
  | JList _ | JDict _ =>
      Raised (Exn TypeError ("unhashable type: '" +:+ Py.type_name doi +:+ "'"))
  end.

(** A future of the pool: the item handed to [process_item], and the number
    of the submission, which tells futures apart. *)
Record future : Type := Future { fut_id : Z; fut_item : json }.

(** What [future.result(timeout=120)] gives. *)
Inductive fut_outcome : Type :=
| FutReturned (success : bool) (message : string)
| FutTimeout
| FutRaised (e : exn).

Record crossref_params : Type := CrossrefParams {
  p_filter : string;
  p_rows : Z;
  p_offset : Z;
  p_query : string
}.

(** The services a run of [main] talks to: the Crossref request (the body
    [r.json()] decodes, or the exception raised), the completion of each
    future, and the creation of a directory that has a name (it succeeds
    when the directory is there already, and raises for a file of that
    name, a missing permission and the like). *)
Record services : Type := Services {
  crossref_get : crossref_params → py_result json;
  future_result : future → fut_outcome;
  makedirs : string → py_result ()
}.

(** [os.makedirs(outdir, exist_ok=True)]: the empty path is refused. *)
Definition os_makedirs (sv : services) (outdir : string) : py_result () :=
  if PyStr.truthy outdir then makedirs sv outdir
  else Raised (Exn OSError "[Errno 2] No such file or directory: ''").

Definition query_crossref (sv : services) (query start_date end_date : string)
    (rows offset : Z) (filter_publishers : bool) : json :=
  let filter_parts :=
    ["from-pub-date:" +:+ start_date;
     "until-pub-date:" +:+ end_date;
     "type:journal-article"] in
  let filter_parts :=
    if filter_publishers then
      let publisher_filter :=
        PyStr.join " OR "
          ((λ pub, "publisher-name:" +:+ pub) <$> PREFERRED_PUBLISHERS) in
      (filter_parts ++ ["(" +:+ publisher_filter +:+ ")"])%list
    else filter_parts in
  let params :=
    CrossrefParams (PyStr.join "," filter_parts) rows offset query in
  match crossref_get sv params with
  | Returned body => body
  | Raised _ => JNull
  end.

(** The variables of [main], and two records of what the run did: the
    searches issued (offset and attempts at the time of each) and the
    submissions to the pool, both latest first. *)
Record sched : Type := Sched {
  offset : Z;
  downloaded : Z;
  seen_dois : gset hkey;
  attempts : Z;
  futures : list (future * json);
  searches : list (Z * Z);
  submitted : list (future * json)
}.

Definition initial : sched := Sched 0 0 ∅ 0 [] [] [].

Definition per_page : Z := 20.

(** [futures.remove((future, doi))]: the first entry for that future. *)
Fixpoint remove_future (f : future) (l : list (future * json))
  : list (future * json) :=
  match l with
  | [] => []
  | (f', doi) :: l' =>
      if fut_id f' =? fut_id f then l' else (f', doi) :: remove_future f l'
  end.

Section Scheduler.

Variable sv : services.
Variable args : arguments.

(** [executor.submit(process_item, item, email, outdir, args)] with the
    bookkeeping around it. *)
Definition submit (item doi : json) (k : hkey) (st : sched) : sched :=
  let seen := {[k]} ∪ seen_dois st in
  let attempts := attempts st + 1 in
  let fut := (Future attempts item, doi) in
  Sched (offset st) (downloaded st) seen attempts
        (futures st ++ [fut])%list (searches st) (fut :: submitted st).

(** The loop [for item in items]. *)
Fixpoint submit_items (items : list json) (st : sched)
  : py_result () * sched :=
  match items with
  | [] => (Returned (), st)
  | item :: rest =>
      if Z.of_nat (length (futures st)) >=? arg_max args - downloaded st + 10
      then (Returned (), st)
      else
        match Py.get item "DOI" JNull with
        | Raised e => (Raised e, st)
        | Returned doi =>
            if negb (Py.truthy doi) then submit_items rest st
            else
              match hash_key doi with
              | Raised e => (Raised e, st)
              | Returned k =>
                  if bool_decide (k ∈ seen_dois st) then submit_items rest st
                  else submit_items rest (submit item doi k st)
              end
        end
  end.

(** One turn of the loop over the futures: the result is awaited, a
    success is counted, and in every branch the future leaves the list. *)
Definition settle (f : future) (st : sched) : sched :=
  let downloaded :=
    match future_result sv f with
    | FutReturned true _ => downloaded st + 1
    | _ => downloaded st
    end in
  Sched (offset st) downloaded (seen_dois st) (attempts st)
        (remove_future f (futures st)) (searches st) (submitted st).

(** The loop [for future, doi in list(futures)], over the copy [pending]. *)
Fixpoint collect (pending : list (future * json)) (st : sched) : sched :=
  match pending with
  | [] => st
  | (f, _) :: rest =>
      let st := settle f st in
      if downloaded st >=? arg_max args then st else collect rest st
  end.

(** The last loop: the futures left are awaited and successes counted. *)
Fixpoint drain (remaining : list (future * json)) (downloaded : Z) : Z :=
  match remaining with
  | [] => downloaded
  | (f, _) :: rest =>
      match future_result sv f with
      | FutReturned true _ => drain rest (downloaded + 1)
      | _ => drain rest downloaded
      end
  end.

Definition max_attempts : Z := arg_max args * 3.

Definition loop_condition (st : sched) : bool :=
  (downloaded st <? arg_max args)
  && (attempts st <? max_attempts)
  && (offset st <? max_attempts * 5).

Definition note_search (st : sched) : sched :=
  Sched (offset st) (downloaded st) (seen_dois st) (attempts st)
        (futures st) ((offset st, attempts st) :: searches st) (submitted st).

Definition next_page (st : sched) : sched :=
  Sched (offset st + per_page) (downloaded st) (seen_dois st) (attempts st)
        (futures st) (searches st) (submitted st).

(** The [while] loop; [None] when [fuel] turns do not finish it. *)
Fixpoint while_loop (fuel : nat) (st : sched)
  : option (py_result () * sched) :=
  if loop_condition st then
    match fuel with
    | O => None
    | S fuel =>
        let st := note_search st in
        let resp :=
          query_crossref sv (arg_keywords args) (arg_start_date args)
            (arg_end_date args) per_page (offset st)
            (arg_filter_publishers args) in
        if negb (Py.truthy resp) then Some (Returned (), st)
        else
          match (message ← Py.get resp "message" (JDict []);
                 Py.get message "items" (JList [])) with
          | Raised e => Some (Raised e, st)
          | Returned items =>
              if negb (Py.truthy items) then Some (Returned (), st)
              else
                match Py.iter items with
                | Raised e => Some (Raised e, st)
                | Returned items =>
                    match submit_items items st with
                    | (Raised e, st) => Some (Raised e, st)
                    | (Returned _, st) =>
                        let st := next_page st in
                        let st := collect (futures st) st in
                        while_loop fuel st
                    end
                end
          end
    end
  else Some (Returned (), st).

End Scheduler.

(** How a call of [main] ends: the message about the email and a plain
    return; the line [Finished. Downloaded n PDF(s) to outdir], followed by
    the shortfall warning or not; or an exception nobody catches. *)
Inductive main_result : Type :=
| InvalidEmail
| Finished (reported : Z) (warning : bool)
| Uncaught (e : exn).

(** [ThreadPoolExecutor(max_workers=n)] *)
Definition ThreadPoolExecutor (max_workers : Z) : py_result () :=
  if max_workers <=? 0
  then Raised (Exn ValueError "max_workers must be greater than 0")
  else Returned ().

Definition main (sv : services) (fuel : nat) (args : arguments)
  : option (main_result * sched) :=
  let email := arg_email args in
  if negb (PyStr.truthy email) || negb (PyStr.contains_char "@" email) then
    Some (InvalidEmail, initial)
  else
    let outdir := arg_outdir args in
    match os_makedirs sv outdir with
    | Raised e => Some (Uncaught e, initial)
    | Returned _ =>
        let max_workers := Z.min (arg_max args) 5 in
        match ThreadPoolExecutor max_workers with
        | Raised e => Some (Uncaught e, initial)
        | Returned _ =>
            match while_loop sv args fuel initial with
            | None => None
            | Some (Raised e, st) => Some (Uncaught e, st)
            | Some (Returned _, st) =>
                let downloaded := drain sv (futures st) (downloaded st) in
                Some (Finished downloaded (downloaded <? arg_max args), st)
            end
        end
    end.

(** ** The topic fan-out of [app.py] *)

(** [os.listdir(d)]: the names of the files directly in [d]. *)
Definition dir_prefix (d : string) : string :=
  if negb (PyStr.truthy d) || PyStr.endswith d "/" then d else d +:+ "/".

Definition entry_name (d p : string) : option string :=
  let pre := dir_prefix d in
  if PyStr.startswith p pre then
    let name := substring (String.length pre)
                  (String.length p - String.length pre) p in
    if PyStr.truthy name && negb (PyStr.contains_char "/" name)
    then Some name else None
  else None.

Definition listdir (d : string) (fs : filesystem) : list string :=
  omap (entry_name d) (map_to_list fs).*1.

Definition is_pdf_name (file : string) : bool := PyStr.endswith file ".pdf".

(** [process_topics_and_scrape]: the files counted for a topic,
    [[f for f in os.listdir(temp_dir) if f.endswith('.pdf')]]. *)
Definition pdf_files (temp_dir : string) (fs : filesystem) : list string :=
  List.filter is_pdf_name (listdir temp_dir fs).

Definition pdf_count (temp_dir : string) (fs : filesystem) : Z :=
  Z.of_nat (length (pdf_files temp_dir fs)).

(** [shutil.move(src, dst)] of a file; a missing source raises, and
    [run_scraper] prints the error and goes on. *)
Definition shutil_move (src dst : string) (fs : filesystem) : filesystem :=
  match fs !! src with
  | Some f => <[dst := f]> (delete src fs)
  | None => fs
  end.

(** [run_scraper]: the files of a topic directory moved to the job's
    directory, and the loop that moves them. *)
Definition moved_files (output_dir : string) (fs : filesystem) : list string :=
  List.filter is_pdf_name (listdir output_dir fs).

Definition move_pdfs (output_dir main_temp_dir : string) (fs : filesystem)
  : filesystem :=
  fold_left
    (λ fs file,
       shutil_move (path_join output_dir file) (path_join main_temp_dir file) fs)
    (moved_files output_dir fs) fs.

(** [run_scraper]: the topics of a job (never none), and the target handed
    to each. *)
Definition job_topics (description : json) (topics_keywords : list (string * json))
  : list (string * json) :=
  match topics_keywords with
  | [] => [("main_topic", description)]
  | _ => topics_keywords
  end.

Definition max_pdfs_per_topic (max_pdfs : Z) (topics_keywords : list (string * json))
  : Z :=
  let num_topics := Z.of_nat (length topics_keywords) in
  let num_topics := if num_topics =? 0 then 1 else num_topics in
  Z.max 5 (max_pdfs / num_topics).

Section TopicFanOut.

Variable repr_container : json → string.
(** The directory [tempfile.mkdtemp(prefix=...)] makes, by prefix. *)
Variable mkdtemp : string → string.

(** [process_topics_and_scrape]: the arguments [parse_args] returns for one
    topic, once the directory is made and the list is accepted; the run of
    a topic with its failures is [topic_run]. *)
Definition topic_arguments (email : string) (max_pdfs_per_topic : Z)
    (topic : string) (keywords : json) : arguments :=
  let temp_dir := mkdtemp ("topic_" +:+ topic +:+ "_") in
  Arguments (py_str repr_container keywords) email max_pdfs_per_topic
            temp_dir "2024-01-01" "2025-12-31" false.

(** [run_scraper]: the arguments of the runs of [main] of one job, were
    every topic to reach its run; [job_runs] tells which do. *)
Definition job_arguments (description : json) (email : string) (max_pdfs : Z)
    (topics_keywords : list (string * json)) : list arguments :=
  let topics_keywords := job_topics description topics_keywords in
  let per_topic := max_pdfs_per_topic max_pdfs topics_keywords in
  (λ '(topic, keywords), topic_arguments email per_topic topic keywords)
    <$> topics_keywords.

(** The sum of the targets of a job. *)
Definition total_target (l : list arguments) : Z :=
  foldr (λ a acc, arg_max a + acc) 0 l.

End TopicFanOut.


(** ** What the scheduler maintains *)

(** The keys of the DOIs submitted so far. *)
Definition submitted_keys (st : sched) : list (py_result hkey) :=
  (λ fd, hash_key fd.2) <$> submitted st.

(** No key was submitted twice, the set [seen_dois] holds exactly the keys
    submitted, and every submission carries the DOI of its item, which is
    not missing and can be hashed. *)
Definition dedup_invariant (st : sched) : Prop :=
  NoDup (submitted_keys st)
  ∧ (∀ k, k ∈ seen_dois st ↔ Returned k ∈ submitted_keys st)
  ∧ Forall (λ fd, Py.get (fut_item fd.1) "DOI" JNull = Returned fd.2
                  ∧ Py.truthy fd.2 = true
                  ∧ ∃ k, hash_key fd.2 = Returned k)
           (submitted st).

(** Every search was issued below the attempt bound and below the offset
    bound of the loop condition. *)
Definition search_invariant (args : arguments) (st : sched) : Prop :=
  0 ≤ offset st
  ∧ Forall (λ s, 0 ≤ s.1 < max_attempts args * 5 ∧ s.2 < max_attempts args)
           (searches st).

(** The turns of the [while] loop still possible from a state. *)
Definition turns_left (args : arguments) (st : sched) : nat :=
  Z.to_nat (max_attempts args * 5 - offset st).

(** At the head of the [while] loop, no future is pending unless the target
    is met, and the successes counted plus the futures pending stay within
    the target and the buffer of ten. *)
Definition pending_invariant (args : arguments) (st : sched) : Prop :=
  (futures st = [] ∨ arg_max args ≤ downloaded st)
  ∧ 0 ≤ downloaded st
  ∧ downloaded st + Z.of_nat (length (futures st)) ≤ arg_max args + 10.

(** ** More of what the scheduler maintains *)

(** The exceptions the loop of [main] can meet: a value without [get], a
    value that cannot be iterated, a DOI that cannot be hashed. *)
Definition lookup_error (e : exn) : Prop :=
  exn_class e = AttributeError ∨ exn_class e = TypeError.

(** How a turn of the [while] loop can end early: by [break], or by one of
    those exceptions. *)
Definition early_exit (r : py_result ()) : Prop :=
  match r with
  | Returned _ => True
  | Raised e => lookup_error e
  end.

(** The futures whose [process_item] returned a success. *)
Definition succeeded (sv : services) (fd : future * json) : bool :=
  match future_result sv fd.1 with
  | FutReturned true _ => true
  | _ => false
  end.

Definition successes (sv : services) (l : list (future * json)) : Z :=
  Z.of_nat (length (List.filter (succeeded sv) l)).

(** The offsets of [n] searches, the latest first. *)
Definition page_offsets (n : nat) : list Z :=
  (λ i : nat, per_page * Z.of_nat i) <$> rev (seq 0 n).

(** A body of Crossref of the expected shape: nothing at all, or an object
    whose [message], when present, is an object whose [items], when present,
    is a list of objects, each with a DOI that is a string, or without. *)
Definition schema_doi (v : json) : bool :=
  match v with
  | JNull | JStr _ => true
  | _ => false
  end.

Definition schema_item (item : json) : bool :=
  match item with
  | JDict d => schema_doi (default JNull (Py.dict_lookup d "DOI"))
  | _ => false
  end.

Definition schema_body (body : json) : bool :=
  match body with
  | JNull => true
  | JDict d =>
      match default (JDict []) (Py.dict_lookup d "message") with
      | JDict m =>
          match default (JList []) (Py.dict_lookup m "items") with
          | JList items => forallb schema_item items
          | _ => false
          end
      | _ => false
      end
  | _ => false
  end.

Definition schema_services (sv : services) : Prop :=
  ∀ p body, crossref_get sv p = Returned body → schema_body body = true.

(** ** Keyword expansion: [generate_keywords_from_description] of [app.py]
       and [generate_search_keywords_from_description] of [scrape_pdfs.py] *)

Module PyText.

(** [re.sub] of the pattern [c+] (one character, repeated) by [repl]: every
    maximal run of [c] becomes [repl].  [in_run] tells that the character
    before was [c]. *)
Fixpoint sub_runs (c : ascii) (repl : string) (in_run : bool) (s : string)
  : string :=
  match s with
  | EmptyString => EmptyString
  | String x s' =>
      if Ascii.eqb x c then
        if in_run then sub_runs c repl true s'
        else repl +:+ sub_runs c repl true s'
      else String x (sub_runs c repl false s')
  end.

Definition re_sub_runs (c : ascii) (repl s : string) : string :=
  sub_runs c repl false s.

(** [s.lstrip(chars)], [s.rstrip(chars)] and [s.strip(chars)], the
    characters to strip given by a test. *)
Fixpoint lstrip (strip_it : ascii → bool) (s : string) : string :=
  match s with
  | EmptyString => EmptyString
  | String x s' => if strip_it x then lstrip strip_it s' else s
  end.

Fixpoint rstrip (strip_it : ascii → bool) (s : string) : string :=
  match s with
  | EmptyString => EmptyString
  | String x s' =>
      match rstrip strip_it s' with
      | EmptyString => if strip_it x then EmptyString else String x EmptyString
      | t => String x t
      end
  end.

Definition strip (strip_it : ascii → bool) (s : string) : string :=
  rstrip strip_it (lstrip strip_it s).

(** The characters [str.strip()] removes: tab to carriage return, the four
    separators 28 to 31, the space, and 133 and 160 of Latin-1. *)
Definition is_space (c : ascii) : bool :=
  let n := nat_of_ascii c in
  ((9 <=? n) && (n <=? 13) || (28 <=? n) && (n <=? 32)
   || (n =? 133) || (n =? 160))%nat.

(** The characters [strip(', ')] removes. *)
Definition comma_or_space (c : ascii) : bool :=
  Ascii.eqb c "," || Ascii.eqb c " ".

Definition newline : ascii := "010".

(** [first], the head of [s], when there is one; [last], its last
    character. *)
Definition first (s : string) : option ascii := String.get 0 s.

Fixpoint last (s : string) : option ascii :=
  match s with
  | EmptyString => None
  | String x EmptyString => Some x
  | String _ s' => last s'
  end.

(** [c] twice in a row somewhere in [s]. *)
Fixpoint doubled (c : ascii) (s : string) : bool :=
  match s with
  | String x (String y _ as s') =>
      Ascii.eqb x c && Ascii.eqb y c || doubled c s'
  | _ => false
  end.

End PyText.

(** [x in v] for a string [x]: a key of a dictionary, an element of a list,
    a part of a string. *)
Definition py_contains (v : json) (x : string) : py_result bool :=
  match v with
  | JDict d => Returned (bool_decide (is_Some (Py.dict_lookup d x)))
  | JList l => Returned (existsb (λ y, Py.eq_str y x) l)
  | JStr s => Returned (bool_decide (is_Some (index 0 x s)))
  | _ =>
      Raised (Exn TypeError
                ("argument of type '" +:+ Py.type_name v +:+ "' is not iterable"))
  end.

(** [len(v)] *)
Definition py_len (v : json) : py_result Z :=
  match v with
  | JStr s => Returned (Z.of_nat (String.length s))
  | JList l => Returned (Z.of_nat (length l))
  | JDict d => Returned (Z.of_nat (length d))
  | _ =>
      Raised (Exn TypeError
                ("object of type '" +:+ Py.type_name v +:+ "' has no len()"))
  end.

(** [v.strip()] *)
Definition py_strip (v : json) : py_result string :=
  match v with
  | JStr s => Returned (PyText.strip PyText.is_space s)
  | _ => Raised (Py.no_attribute v "strip")
  end.

(** [result["candidates"][0]["content"]["parts"][0]["text"].strip()] *)
Definition candidate_text (result : json) : py_result string :=
  candidates ← Py.getitem result "candidates";
  candidate ← Py.index0 candidates;
  content ← Py.getitem candidate "content";
  parts ← Py.getitem content "parts";
  part ← Py.index0 parts;
  text ← Py.getitem part "text";
  py_strip text.

(** The keywords made of a text that is no JSON: newlines become commas,
    runs of commas one comma, and commas and spaces at the ends go. *)
Definition plain_keywords (response_text : string) : string :=
  let keywords := PyText.re_sub_runs PyText.newline ", " response_text in
  let keywords := PyText.re_sub_runs "," "," keywords in
  PyText.strip PyText.comma_or_space keywords.

(** What [json.loads] does with a string: the value parsed, the
    [JSONDecodeError] of a text that is no JSON, or another exception (a
    [ValueError] for a number of too many digits, a [RecursionError]). *)
Inductive loads_outcome : Type :=
| Loaded (v : json)
| JSONDecodeError
| LoadsRaised (e : exn).

Section KeywordExpansion.

(** [json.loads] is Python's own and taken as given.  [gemini_post] is the
    request for a description: the body [response.json()] decodes, or the
    exception [requests.post], [raise_for_status] or the decoding raised. *)
Variable json_loads : string → loads_outcome.
Variable gemini_post : json → py_result json.

Definition main_topic (keywords : json) : json :=
  JDict [("main_topic", keywords)].

(** The body of the [try] of [generate_keywords_from_description]. *)
Definition generate_keywords_try (description : json) : py_result json :=
  result ← gemini_post description;
  has ← py_contains result "candidates";
  nonempty ← (if has : bool
              then c ← Py.getitem result "candidates";
                   n ← py_len c; Returned (0 <? n)
              else Returned false);
  if nonempty : bool then
    response_text ← candidate_text result;
    match json_loads response_text with
    | Loaded topics_keywords => Returned topics_keywords
    | JSONDecodeError =>
        let keywords := plain_keywords response_text in
        if PyStr.truthy keywords then Returned (main_topic (JStr keywords))
        else Returned (main_topic description)
    | LoadsRaised e => Raised e
    end
  else Returned (main_topic description).

Definition generate_keywords_from_description (description : json) : json :=
  match generate_keywords_try description with
  | Returned topics_keywords => topics_keywords
  | Raised _ => main_topic description
  end.

(** [generate_search_keywords_from_description] of [scrape_pdfs.py]. *)
Definition generate_search_keywords_from_description (description : json)
  : json :=
  match (result ← gemini_post description; candidate_text result) with
  | Returned keywords => JStr keywords
  | Raised _ => description
  end.

End KeywordExpansion.

(** ** The delivery of [run_scraper] *)

(** What [run_scraper] reads of the result of a topic:
    [result.get('output_dir', '')] and [result.get('pdf_count', 0)]. *)
Record topic_result := TopicResult {
  res_output_dir : string;
  res_pdf_count : Z
}.

(** The result [process_topics_and_scrape] stores for a topic whose run
    returned, with the files counted then, and for a topic whose run
    raised. *)
Definition topic_done (temp_dir : string) (fs : filesystem) : topic_result :=
  TopicResult temp_dir (pdf_count temp_dir fs).

Definition topic_failed : topic_result := TopicResult EmptyString 0.

(** [total_pdf_count], the count the job reports. *)
Definition total_pdf_count (all_results : list topic_result) : Z :=
  fold_left (λ total result, total + res_pdf_count result) all_results 0.

(** The loop that moves the PDFs of every topic directory to the directory
    of the job.  Directories are not files of their own here: one that does
    not exist lists nothing, and nothing is moved from it.  As for
    [path_join], the file system is a POSIX one: a move to a name that
    exists replaces the file. *)
Definition deliver (all_results : list topic_result) (main_temp_dir : string)
    (fs : filesystem) : filesystem :=
  fold_left
    (λ fs result,
       let output_dir := res_output_dir result in
       if PyStr.truthy output_dir then move_pdfs output_dir main_temp_dir fs
       else fs)
    all_results fs.

(** ** The job registry of [app.py] *)

(** What [run_scraper] stores when it ends: the record of a completed job,
    or that of an error. *)
Inductive job_outcome :=
| JobCompleted (output_dir log : string) (pdf_count requested_count : Z)
| JobError (error log : string).

Inductive job :=
| JobRunning
| JobEnded (outcome : job_outcome).

(** [str(len(jobs) + 1)] *)
Definition new_job_id (registry : gmap string job) : string :=
  pretty (size registry + 1)%nat.

(** The dictionary [jobs], and the runs of [run_scraper] handed to the pool
    that have not stored their outcome yet.  Each request is handled as a
    whole, one after the other; the runs end between requests, in any
    order. *)
Record server := Server {
  jobs : gmap string job;
  pending : list string
}.

Definition start_scraping (s : server) : string * server :=
  let job_id := new_job_id (jobs s) in
  (job_id, Server (<[job_id := JobRunning]> (jobs s)) (job_id :: pending s)).

Definition run_scraper_ends (job_id : string) (outcome : job_outcome)
    (s : server) : server :=
  Server (<[job_id := JobEnded outcome]> (jobs s))
         (filter (λ x, x ≠ job_id) (pending s)).

(** [get_status]: the record of the job, or nothing (404). *)
Definition get_status (job_id : string) (s : server) : option job :=
  jobs s !! job_id.

Inductive step : server → server → Prop :=
| step_start s : step s (start_scraping s).2
| step_end s job_id outcome :
    job_id ∈ pending s → step s (run_scraper_ends job_id outcome s).

Definition started : server := Server ∅ [].

Definition reachable (s : server) : Prop := rtc step started s.

(** What the registry maintains: the ids are the numbers from 1 to the
    number of jobs, and the jobs shown as running are those whose run is
    pending. *)
Definition registry_invariant (s : server) : Prop :=
  (∀ job_id, is_Some (jobs s !! job_id)
             ↔ ∃ i : nat, (1 ≤ i ≤ size (jobs s))%nat ∧ job_id = pretty i)
  ∧ (∀ job_id, job_id ∈ pending s ↔ jobs s !! job_id = Some JobRunning)
  ∧ NoDup (pending s).

(** ** The run of a topic: [process_topics_and_scrape] of [app.py] *)

Section TopicRuns.

Variable repr_container : json → string.
(** [tempfile.mkdtemp(prefix=...)]: the directory made, or the exception
    raised (for a prefix that names a directory that does not exist, and
    the like). *)
Variable mkdtemp : string → py_result string.
(** How [argparse] reads a string that begins with a dash and follows an
    option: as the value of the option (a negative number, say), or as an
    option of its own. *)
Variable dash_value : string → bool.

(** A string [argparse] takes as the value of the option before it: one
    that does not begin with a dash always is. *)
Definition takes_value (s : string) : bool :=
  negb (PyStr.startswith s "-") || dash_value s.

Definition expected_one_argument (name : string) : exn :=
  Exn ArgumentParserError
    ("argument " +:+ name +:+ ": expected one argument").

(** [parser.parse_args(arg_list)] for the list [process_topics_and_scrape]
    builds: every option is followed by its value; the number, the dates
    and the pause are always read as values. *)
Definition parse_args (keywords email : string) (max : Z) (outdir : string)
  : py_result arguments :=
  if negb (takes_value keywords)
  then Raised (expected_one_argument "--keywords/-k")
  else if negb (takes_value email)
  then Raised (expected_one_argument "--email/-e")
  else if negb (takes_value outdir)
  then Raised (expected_one_argument "--outdir/-o")
  else Returned (Arguments keywords email max outdir
                   "2024-01-01" "2025-12-31" false).

(** The body of the [try] of one topic, up to the call of [main]: the
    arguments [main] is called with, or the exception that ends the topic
    before, which is stored as its error. *)
Definition topic_run (email : string) (max_pdfs_per_topic : Z)
    (topic : string) (keywords : json) : py_result arguments :=
  temp_dir ← mkdtemp ("topic_" +:+ topic +:+ "_");
  parse_args (py_str repr_container keywords) email max_pdfs_per_topic temp_dir.

(** The topics of a job, each with the arguments of its run of [main] or
    the exception that kept it from running. *)
Definition job_runs (description : json) (email : string) (max_pdfs : Z)
    (topics_keywords : list (string * json))
  : list (string * py_result arguments) :=
  let topics_keywords := job_topics description topics_keywords in
  let per_topic := max_pdfs_per_topic max_pdfs topics_keywords in
  (λ '(topic, keywords),
     (topic, topic_run email per_topic topic keywords))
    <$> topics_keywords.

End TopicRuns.

(** ** From the request to the runs of [main] *)

Section Requests.

Variable json_loads : string → loads_outcome.
Variable gemini_post : json → py_result json.
Variable repr_container : json → string.
Variable mkdtemp : string → py_result string.
Variable dash_value : string → bool.

(** [start_scraping]: the keywords of the request are replaced by what
    [generate_keywords_from_description] makes of them, and [run_scraper]
    reads its description there. *)
Definition request_keywords (keywords : json) : json :=
  generate_keywords_from_description json_loads gemini_post keywords.

(** [run_scraper]: the topics of the job. *)
Definition run_scraper_topics (description : json) : json :=
  let topics_keywords :=
    generate_keywords_from_description json_loads gemini_post description in
  if Py.truthy topics_keywords then topics_keywords
  else main_topic description.

(** [run_scraper]: the topics and the arguments of the runs of [main] it
    starts.  The length of topics that are a number or a truth value
    raises; topics that are a string or a list have a length and no
    [items], which [process_topics_and_scrape] reports, and no run is
    started. *)
Definition run_scraper_runs (description : json) (email : string) (max_pdfs : Z)
  : py_result (list (string * py_result arguments)) :=
  let topics_keywords := run_scraper_topics description in
  _ ← py_len topics_keywords;
  match topics_keywords with
  | JDict d =>
      Returned (job_runs repr_container mkdtemp dash_value description email
                  max_pdfs d)
  | _ => Returned []
  end.

End Requests.

(** ** What the resolver can return *)

(** The values a location offers: its [url_for_pdf] and its [url]. *)
Definition offered_by (loc v : json) : Prop :=
  Py.get loc "url_for_pdf" JNull = Returned v
  ∨ Py.get loc "url" JNull = Returned v.

(** The locations of a body: the best one, and those the loop visits. *)
Definition location_of (data loc : json) : Prop :=
  Py.getitem data "best_oa_location" = Returned loc
  ∨ ∃ locs, (l ← Py.get data "oa_locations" (JList []); Py.iter l)
            = Returned locs
            ∧ loc ∈ locs.

(** ** The resolver on the bodies the specification describes *)

(** The URL a field of a location holds: absent, null or a string. *)
Definition url_of_json (v : option json) : option (option string) :=
  match v with
  | None | Some JNull => Some None
  | Some (JStr s) => Some (Some s)
  | Some _ => None
  end.

(** The location a dictionary stands for, whatever else it holds and in
    whatever order. *)
Definition location_of_json (loc : json) : option oa_location :=
  match loc with
  | JDict d =>
      a ← url_of_json (Py.dict_lookup d "url_for_pdf");
      b ← url_of_json (Py.dict_lookup d "url");
      Some (OaLocation a b)
  | _ => None
  end.

Fixpoint locations_of_json (locs : list json) : option (list oa_location) :=
  match locs with
  | [] => Some []
  | loc :: rest =>
      l ← location_of_json loc;
      ls ← locations_of_json rest;
      Some (l :: ls)
  end.

(** The record a body stands for: a dictionary whose [best_oa_location],
    when present and not null, is a location, and whose [oa_locations],
    when present, is a list of locations; its other fields are free. *)
Definition record_of_json (data : json) : option oa_record :=
  match data with
  | JDict d =>
      best ← match Py.dict_lookup d "best_oa_location" with
             | None | Some JNull => Some None
             | Some loc => Some <$> location_of_json loc
             end;
      locs ← match Py.dict_lookup d "oa_locations" with
             | None => Some []
             | Some (JList l) => locations_of_json l
             | Some _ => None
             end;
      Some (OaRecord best locs)
  | _ => None
  end.

(** ** A search without items *)

(** [resp.get("message", {}).get("items", [])] *)
Definition page_items (resp : json) : py_result json :=
  message ← Py.get resp "message" (JDict []);
  Py.get message "items" (JList []).

(** What ends the loop of [main] at a search: no answer, or an answer
    without items. *)
Definition empty_page (resp : json) : Prop :=
  Py.truthy resp = false
  ∨ ∃ items, page_items resp = Returned items ∧ Py.truthy items = false.

(** ** The download and the checks among the other workers *)

(** [main] runs [process_item] in up to five workers on one directory, and
    two works can have one file name.  [others] is what the other workers
    do to the file system between the end of the download of a call and
    its checks (a failed download of theirs removes the file, a download
    to the same name replaces it); the checks are taken as one step, and
    the download as running on its own. *)
Definition fetch_and_validate_among (repr_container : json → string) (w : env)
    (others : filesystem → filesystem) (pdf_url : json) (dest_path : string)
    (fs : filesystem) : (bool * string) * filesystem :=
  let '(success, fs) := download_file w pdf_url dest_path fs in
  validate_download repr_container success pdf_url dest_path (others fs).

(** ** Sample inputs

    Concrete items, responses and services, used below to run the
    definitions. *)

Definition sample_repr : json → string := λ _, "[...]".

Definition sample_args : arguments :=
  Arguments "open access" "reader@example.org" 20 "out"
            "2024-01-01" "2025-12-31" false.

Definition sample_item : json :=
  JDict [("DOI", JStr "10.1000/x");
         ("title", JList [JStr "A study"]);
         ("container-title", JList [JStr "Journal"]);
         ("published-print", JDict [("date-parts", JList [JList [JNum 2024; JNum 5]])]);
         ("publisher", JStr "Springer")].

(** A body of 1024 bytes that starts with the signature, and one of 600. *)
Definition sample_pdf : list byte := pdf_magic ++ replicate 1020 x00.
Definition short_pdf : list byte := pdf_magic ++ replicate 596 x00.
(** A page of HTML of 1024 bytes. *)
Definition sample_html : list byte := replicate 1024 x3c.

Definition sample_lookup : json :=
  JDict [("best_oa_location",
          JDict [("url_for_pdf", JStr "https://example.org/paper.pdf");
                 ("url", JStr "https://example.org/paper")]);
         ("oa_locations", JList [])].

Definition env_with (body : list (list byte)) (ending : stream_end) : env :=
  Env (λ _, Returned sample_lookup) (λ _, HttpBody body ending) (λ _, true).

Definition sample_dest : string := "out/2024-5 - Journal - A study.pdf".

(** An item that is no dictionary, and one whose DOI is a number. *)
Definition malformed_item : json := JList [JStr "10.1000/x"].
Definition numeric_doi_item : json := JDict [("DOI", JNum 5)].

(** A run of the scheduler: one page of Crossref with the given items, then
    empty pages, and every future returning the given outcome. *)
Definition doi_item (doi : string) : json := JDict [("DOI", JStr doi)].

Definition page_of (items : list json) : json :=
  JDict [("message", JDict [("items", JList items)])].

Definition one_page_services (items : list json) (outcome : fut_outcome)
  : services :=
  Services (λ p, Returned (page_of (if p_offset p =? 0 then items else [])))
           (λ _, outcome) (λ _, Returned ()).

Definition args_with_max (n : Z) : arguments :=
  Arguments "open access" "reader@example.org" n "out"
            "2024-01-01" "2025-12-31" false.

(** Two works, both downloadable, and a request for one PDF. *)
Definition two_items : list json := [doi_item "10.1/a"; doi_item "10.1/b"].

(** A page that lists one work twice, and a work without DOI. *)
Definition repeated_items : list json :=
  [doi_item "10.1/a"; doi_item "10.1/a"; JDict [("title", JList [JStr "T"])];
   doi_item "10.1/b"].

(** Services whose every page lists the same single work, which cannot be
    downloaded. *)
Definition same_page_services : services :=
  Services (λ _, Returned (page_of [doi_item "10.1/a"]))
           (λ _, FutReturned false "No OA PDF reported by Unpaywall for DOI: 10.1/a")
           (λ _, Returned ()).

Definition final_state (run : option (main_result * sched)) : sched :=
  match run with
  | Some (_, st) => st
  | None => initial
  end.

Definition stalled_run : option (main_result * sched) :=
  main same_page_services 10 (args_with_max 4).

Definition overshoot_run : option (main_result * sched) :=
  main (one_page_services two_items (FutReturned true "Saved")) 5
       (args_with_max 1).

Definition repeated_run : option (main_result * sched) :=
  main (one_page_services repeated_items (FutReturned false "Failed")) 5
       (args_with_max 3).

(** A job of three topics, and one of two. *)
Definition sample_mkdtemp : string → string := λ prefix, "/tmp/" +:+ prefix.

Definition three_topics : list (string * json) :=
  [("imaging", JStr "CNN, dermatology");
   ("datasets", JStr "India, dark skin");
   ("reviews", JStr "literature review")].

Definition two_topics : list (string * json) :=
  [("imaging", JStr "CNN, dermatology");
   ("datasets", JStr "India, dark skin")].

(** A work whose title has [.pdf] in it, placed so that the name cut at 200
    characters ends there; and a work with a long plain title. *)
Definition pdf_title_item : json :=
  JDict [("DOI", JStr "10.1000/y");
         ("title", JList [JStr (PyStr.repeat "a" 183 +:+ ".pdf supplement")])].

Definition long_title_item : json :=
  JDict [("DOI", JStr "10.1000/z");
         ("title", JList [JStr (PyStr.repeat "b" 200)])].

Definition fields_of (item : json) : item_fields :=
  match read_item sample_repr item with
  | Returned i => i
  | Raised _ => ItemFields JNull JNull JNull EmptyString JNull
  end.

Definition saved_by (item : json) : py_result (bool * string) * filesystem :=
  process_item (λ s, s) sample_repr (env_with [sample_pdf] StreamComplete)
    item "reader@example.org" "out" sample_args ∅.

(** Twelve works that all download, and a request for one PDF. *)
Definition twelve_items : list json :=
  (λ n : nat, doi_item ("10.1/" +:+ pretty n)) <$> seq 0 12.

Definition flooded_run : option (main_result * sched) :=
  main (one_page_services twelve_items (FutReturned true "Saved")) 5
       (args_with_max 1).

(** A file system that already holds a valid PDF at [sample_dest]. *)
Definition fs_with_earlier : filesystem := {[sample_dest := sample_pdf]}.

(** Responses of Unpaywall: a best location with a landing page only; no
    best location and a second listed location with a URL; a body that is
    no object. *)
Definition landing_page_lookup : json :=
  JDict [("best_oa_location",
          JDict [("url_for_pdf", JNull); ("url", JStr "https://example.org/landing")]);
         ("oa_locations", JList [])].

Definition second_location_lookup : json :=
  JDict [("best_oa_location", JNull);
         ("oa_locations",
          JList [JDict [("url_for_pdf", JNull); ("url", JNull)];
                 JDict [("url_for_pdf", JStr "https://mirror.example.org/b.pdf")]])].

Definition lookup_env (answer : py_result json) : env :=
  Env (λ _, answer) (λ _, HttpFailed) (λ _, true).

(** Five works on the first page, of which those with the DOIs 10.1/0,
    10.1/1 and 10.1/2 download. *)
Definition five_items : list json :=
  (λ n : nat, doi_item ("10.1/" +:+ pretty n)) <$> seq 0 5.

Definition three_good_services : services :=
  Services
    (λ p, Returned (page_of (if p_offset p =? 0 then five_items else [])))
    (λ f, if Z.leb (fut_id f) 3 then FutReturned true "Saved"
          else FutReturned false "No OA PDF reported by Unpaywall")
    (λ _, Returned ()).

(** Services whose Crossref request fails, and services whose first page
    holds an item that is no object. *)
Definition failing_services : services :=
  Services (λ _, Raised (Exn RequestException "503 Server Error"))
           (λ _, FutTimeout) (λ _, Returned ()).

Definition malformed_page_services : services :=
  Services (λ _, Returned (page_of [JStr "10.1/a"])) (λ _, FutTimeout)
           (λ _, Returned ()).

(** The body of [sample_pdf] delivered in three chunks, one of them empty. *)
Definition sample_pdf_chunks : list (list byte) :=
  [take 512 sample_pdf; []; drop 512 sample_pdf].

(** A second work with the date, journal and title of [sample_item]. *)
Definition sample_item_twin : json :=
  JDict [("DOI", JStr "10.1000/x-reprint");
         ("title", JList [JStr "A study"]);
         ("container-title", JList [JStr "Journal"]);
         ("published-print", JDict [("date-parts", JList [JList [JNum 2024; JNum 5]])]);
         ("publisher", JStr "Elsevier")].

(** A work whose print date has no date parts, and whose online date is
    complete. *)
Definition shadowed_date_fields : list (string * json) :=
  [("DOI", JStr "10.1000/w");
   ("published-print", JDict [("date-time", JStr "2024-05-01T00:00:00Z")]);
   ("published-online", JDict [("date-parts", JList [JList [JNum 2024; JNum 4; JNum 30]])])].

(** A body of the text service whose first candidate holds plain text, and
    a [json.loads] that rejects everything. *)
Definition plain_text : string :=
  "  deep learning" +:+ String PyText.newline "CNN,,India "
  +:+ String PyText.newline EmptyString.

Definition plain_text_body : json :=
  JDict [("candidates",
          JList [JDict [("content",
                         JDict [("parts",
                                 JList [JDict [("text", JStr plain_text)]])])]])].

Definition no_json : string → loads_outcome := λ _, JSONDecodeError.

(** Two topic directories after their runs: both hold the paper named
    Deep, the first one more, and a file that is no PDF. *)
Definition two_topic_files : filesystem :=
  <["/tmp/topic_a/2024 - J - Deep.pdf" := sample_pdf]>
    (<["/tmp/topic_a/2024 - J - Skin.pdf" := sample_pdf]>
       (<["/tmp/topic_a/notes.txt" := sample_html]>
          (<["/tmp/topic_b/2024 - J - Deep.pdf" := sample_pdf]> ∅))).

(** The printed form of a dictionary with one string, as Python gives it. *)
Definition one_entry_repr : json → string := λ v,
  match v with
  | JDict [(k, JStr s)] => "{'" +:+ k +:+ "': '" +:+ s +:+ "'}"
  | _ => "{...}"
  end.

Definition service_down : json → py_result json :=
  λ _, Raised (Exn RequestException "down").

(** A body whose best location offers a number, and whose list offers a
    URL. *)
Definition numeric_url_lookup : json :=
  JDict [("best_oa_location", JDict [("url_for_pdf", JNum 7)]);
         ("oa_locations",
          JList [JDict [("url_for_pdf", JStr "https://e.org/a.pdf")]])].

(** A [mkdtemp] that always makes its directory, and an [argparse] that
    takes no string with a leading dash as a value. *)
Definition made_mkdtemp : string → py_result string :=
  λ prefix, Returned ("/tmp/" +:+ prefix).

Definition no_dash_value : string → bool := λ _, false.

(** Services that answer every search with a page without items. *)
Definition empty_page_services : services :=
  one_page_services [] FutTimeout.

(** Services under which no directory can be made. *)
Definition readonly_services : services :=
  Services (λ _, Returned (page_of [doi_item "10.1/a"])) (λ _, FutTimeout)
           (λ _, Raised (Exn OSError "[Errno 13] Permission denied: 'out'")).

(** A body of Unpaywall as the service sends it, with more fields than the
    resolver reads: the best location has only a landing page, the list
    has a PDF. *)
Definition full_lookup : json :=
  JDict [("doi", JStr "10.1000/x");
         ("is_oa", JBool true);
         ("oa_locations",
          JList [JDict [("host_type", JStr "repository");
                        ("url", JStr "https://repo.example.org/x");
                        ("url_for_pdf", JStr "https://repo.example.org/x.pdf")]]);
         ("best_oa_location",
          JDict [("host_type", JStr "publisher");
                 ("url_for_pdf", JNull);
                 ("version", JStr "publishedVersion");
                 ("url", JStr "https://publisher.example.org/x")])].
(** * Properties *)

(** ** Strings *)

Section StringFacts.

Local Open Scope nat_scope.

Lemma length_map f s : String.length (PyStr.map f s) = String.length s.
Proof. induction s as [|c s IH]; simpl; congruence. Qed.

Lemma get_map f s i : String.get i (PyStr.map f s) = f <$> String.get i s.
Proof.
  revert i; induction s as [|c s IH]; intros [|i]; simpl; auto.
Qed.

Lemma length_slice_to n s :
  String.length (PyStr.slice_to n s) = Nat.min n (String.length s).
Proof.
  unfold PyStr.slice_to.
  revert s; induction n as [|n IH]; intros [|c s]; simpl; auto.
Qed.

Lemma get_slice_to n s i :
  String.get i (PyStr.slice_to n s) = if i <? n then String.get i s else None.
Proof.
  unfold PyStr.slice_to.
  destruct (Nat.ltb_spec i n) as [Hlt|Hge].
  - rewrite substring_correct1 by done. by rewrite Nat.add_0_r.
  - by apply substring_correct2.
Qed.

Lemma map_substring f a b s :
  substring a b (PyStr.map f s) = PyStr.map f (substring a b s).
Proof.
  revert a b; induction s as [|c s IH]; intros [|a] [|b]; simpl; auto.
  by rewrite IH.
Qed.

Lemma substring_slice_to a b n s :
  a + b ≤ n → substring a b (PyStr.slice_to n s) = substring a b s.
Proof.
  unfold PyStr.slice_to.
  revert a b n; induction s as [|c s IH]; intros a b n Hle.
  - destruct n, a, b; reflexivity.
  - destruct n as [|n].
    + assert (a = 0 ∧ b = 0) as [-> ->] by lia. reflexivity.
    + destruct a as [|a]; simpl.
      * destruct b as [|b]; [reflexivity|].
        f_equal. apply (IH 0 b n). lia.
      * apply IH. lia.
Qed.

Lemma length_append s t :
  String.length (s +:+ t) = String.length s + String.length t.
Proof. induction s as [|c s IH]; simpl; auto. Qed.

Lemma prefix_append s t : String.prefix s (s +:+ t) = true.
Proof.
  induction s as [|c s IH]; simpl; [by destruct t|].
  destruct (ascii_dec c c); [done|congruence].
Qed.

Lemma prefix_same s : String.prefix s s = true.
Proof.
  induction s as [|c s IH]; simpl; [done|].
  destruct (ascii_dec c c); [done|congruence].
Qed.

Lemma substring_all t : substring 0 (String.length t) t = t.
Proof. induction t as [|c t IH]; simpl; congruence. Qed.

Lemma substring_append_r s t :
  substring (String.length s) (String.length t) (s +:+ t) = t.
Proof. induction s as [|c s IH]; simpl; [apply substring_all|done]. Qed.

End StringFacts.

(** ** Fetch and validate *)

Section FetchFacts.

Variable w : env.

Lemma write_chunks_spec chunks f n :
  write_chunks chunks f n
  = ((f ++ concat chunks)%list, n + Z.of_nat (length (concat chunks))).
Proof.
  revert f n; induction chunks as [|chunk chunks IH]; intros f n; simpl.
  - by rewrite app_nil_r, Z.add_0_r.
  - destruct chunk as [|b chunk]; [apply IH|].
    rewrite IH. f_equal.
    + by rewrite <- app_assoc.
    + rewrite !length_app. simpl. lia.
Qed.

Lemma path_exists_true p (fs : filesystem) :
  path_exists p fs = true ↔ is_Some (fs !! p).
Proof. unfold path_exists. apply bool_decide_eq_true. Qed.

Lemma path_exists_false p (fs : filesystem) :
  path_exists p fs = false ↔ fs !! p = None.
Proof.
  unfold path_exists. rewrite bool_decide_eq_false.
  by rewrite eq_None_not_Some.
Qed.

(** The [except] clause leaves nothing at the destination and touches no
    other path. *)
Lemma download_failed_spec dest (fs : filesystem) :
  ∃ fs', download_failed dest fs = (false, fs')
         ∧ fs' !! dest = None
         ∧ ∀ p, p ≠ dest → fs' !! p = fs !! p.
Proof.
  unfold download_failed, os_remove.
  destruct (path_exists dest fs) eqn:He; eexists; split; try done.
  - split; [apply lookup_delete_eq|].
    intros p Hp. by apply lookup_delete_ne.
  - apply path_exists_false in He. done.
Qed.

(** What a call of [download_file] can do: fail and leave nothing at the
    destination, or write the whole body there. *)
Lemma download_file_cases url dest (fs : filesystem) :
  (∃ fs', download_file w url dest fs = (false, fs')
          ∧ fs' !! dest = None
          ∧ ∀ p, p ≠ dest → fs' !! p = fs !! p)
  ∨ (∃ chunks, download_file w url dest fs
               = (true, <[dest := concat chunks]> fs)
               ∧ open_stream w url = HttpBody chunks StreamComplete
               ∧ can_open w dest = true
               ∧ 1024 ≤ Z.of_nat (length (concat chunks))).
Proof.
  unfold download_file.
  destruct (download_failed_spec dest fs) as (fs0 & E0 & Hd & Hf).
  destruct (open_stream w url) as [|chunks ending] eqn:Hopen.
  { left. rewrite E0. eauto. }
  destruct (can_open w dest) eqn:Hcan; [|left; rewrite E0; eauto].
  rewrite write_chunks_spec, Z.add_0_l, app_nil_l.
  set (fs1 := <[dest := concat chunks]> fs).
  destruct (download_failed_spec dest fs1) as (fs2 & E2 & Hd2 & Hf2).
  assert (∀ p, p ≠ dest → fs2 !! p = fs !! p) as Hf3.
  { intros p Hp. rewrite Hf2 by done. unfold fs1. by rewrite lookup_insert_ne. }
  rewrite E2.
  destruct ending; [|left; eauto].
  destruct (Z.ltb_spec (Z.of_nat (length (concat chunks))) 1024);
    [left; eauto|right; eauto].
Qed.

End FetchFacts.

Section ValidateFacts.

Variable repr_container : json → string.
Variable w : env.

Lemma is_valid_pdf_true p (fs : filesystem) :
  is_valid_pdf p fs = true ↔ ∃ f, fs !! p = Some f ∧ take 4 f = pdf_magic.
Proof.
  unfold is_valid_pdf. destruct (fs !! p) as [f|]; simpl.
  - rewrite bool_decide_eq_true. split; [eauto|].
    by intros (f' & [= <-] & ?).
  - split; [done|]. by intros (f & ? & _).
Qed.

(** The checks after the download: a success keeps the file system as the
    download left it, with a file of at least 1024 bytes that starts with
    the signature at the destination. *)
Lemma validate_download_true success url dest (fs fs' : filesystem) msg :
  validate_download repr_container success url dest fs = ((true, msg), fs') →
  success = true ∧ fs' = fs ∧ msg = "Saved: " +:+ dest
  ∧ ∃ f, fs !! dest = Some f ∧ take 4 f = pdf_magic
         ∧ 1024 ≤ Z.of_nat (length f).
Proof.
  unfold validate_download, getsize.
  destruct success; simpl; [|by destruct (path_exists dest fs)].
  destruct (path_exists dest fs) eqn:He; [|done].
  destruct (is_valid_pdf dest fs) eqn:Hv; simpl; [|done].
  apply is_valid_pdf_true in Hv as (f & Hf & Hmagic). rewrite Hf.
  destruct (Z.ltb_spec (Z.of_nat (length f)) 1024); [done|].
  intros [= <- <-]. eauto 10.
Qed.

(** A failure of the checks leaves nothing at the destination, provided
    the download, when it reported failure, left nothing there. *)
Lemma validate_download_false success url dest (fs fs' : filesystem) msg :
  validate_download repr_container success url dest fs = ((false, msg), fs') →
  (success = false → fs !! dest = None) →
  fs' !! dest = None ∧ ∀ p, p ≠ dest → fs' !! p = fs !! p.
Proof.
  unfold validate_download, os_remove.
  intros H Hfail.
  destruct success; simpl in H.
  - destruct (path_exists dest fs) eqn:He.
    + destruct (is_valid_pdf dest fs); simpl in H.
      * destruct (getsize dest fs <? 1024); [|done].
        simplify_eq. split; [apply lookup_delete_eq|].
        intros p Hp. by apply lookup_delete_ne.
      * simplify_eq. split; [apply lookup_delete_eq|].
        intros p Hp. by apply lookup_delete_ne.
    + apply path_exists_false in He. by simplify_eq.
  - destruct (path_exists dest fs); simpl in H; simplify_eq; auto.
Qed.

(** The fetch of one item succeeds only by writing the whole body, which
    then passes both checks. *)
Lemma fetch_and_validate_true url dest (fs fs' : filesystem) msg :
  fetch_and_validate repr_container w url dest fs = ((true, msg), fs') →
  ∃ chunks,
    open_stream w url = HttpBody chunks StreamComplete
    ∧ fs' = <[dest := concat chunks]> fs
    ∧ msg = "Saved: " +:+ dest
    ∧ take 4 (concat chunks) = pdf_magic
    ∧ 1024 ≤ Z.of_nat (length (concat chunks)).
Proof.
  unfold fetch_and_validate.
  destruct (download_file_cases w url dest fs)
    as [(fs0 & -> & _)|(chunks & -> & Hopen & _ & _)].
  - intros H. by apply validate_download_true in H as (? & _).
  - intros H. apply validate_download_true in H as (_ & -> & -> & f & Hf & ? & ?).
    rewrite lookup_insert_eq in Hf. injection Hf as <-. eauto 10.
Qed.

(** A failed fetch leaves nothing at the destination and touches no other
    path. *)
Lemma fetch_and_validate_false url dest (fs fs' : filesystem) msg :
  fetch_and_validate repr_container w url dest fs = ((false, msg), fs') →
  fs' !! dest = None ∧ ∀ p, p ≠ dest → fs' !! p = fs !! p.
Proof.
  unfold fetch_and_validate.
  destruct (download_file_cases w url dest fs)
    as [(fs0 & -> & Hd & Hf)|(chunks & -> & _)].
  - intros H. apply validate_download_false in H as [H1 H2]; [|done].
    split; [done|]. intros p Hp. rewrite H2 by done. by apply Hf.
  - intros H. apply validate_download_false in H as [H1 H2]; [|done].
    split; [done|]. intros p Hp. rewrite H2 by done. by rewrite lookup_insert_ne.
Qed.

End ValidateFacts.

(** ** The item pipeline *)

Section ItemFacts.

Variable quote_plus : string → string.
Variable repr_container : json → string.
Variable w : env.

(** The destination [process_item] computes for an item. *)
Lemma process_item_try_cases item email outdir args (fs fs' : filesystem) r :
  process_item_try quote_plus repr_container w item email outdir args fs
  = (r, fs') →
  (fs' = fs ∧ ∀ msg, r ≠ Returned (true, msg))
  ∨ ∃ i pdf_url outcome,
      read_item repr_container item = Returned i
      ∧ get_pdf_url_from_unpaywall quote_plus w (f_doi i) email = Returned pdf_url
      ∧ Py.truthy pdf_url = true
      ∧ fetch_and_validate repr_container w pdf_url
          (path_join outdir (sanitize_filename (unsanitized_name repr_container i)))
          fs = (outcome, fs')
      ∧ r = Returned outcome.
Proof.
  unfold process_item_try.
  destruct (read_item repr_container item) as [i|e]; [|intros [= <- <-]; by left].
  destruct (arg_filter_publishers args
            && Py.not_in_strs (f_publisher i) PREFERRED_PUBLISHERS);
    [intros [= <- <-]; by left|].
  destruct (Py.truthy (f_doi i)); simpl; [|intros [= <- <-]; by left].
  destruct (get_pdf_url_from_unpaywall quote_plus w (f_doi i) email)
    as [pdf_url|e] eqn:Hurl; [|intros [= <- <-]; by left].
  destruct (Py.truthy pdf_url) eqn:Ht; simpl; [|intros [= <- <-]; by left].
  destruct (fetch_and_validate _ _ _ _ _) as [outcome fs1] eqn:Hfetch.
  intros [= <- <-]. right. eauto 10.
Qed.

Lemma process_item_returns item email outdir args (fs : filesystem) :
  ∃ success msg fs',
    process_item quote_plus repr_container w item email outdir args fs
    = (Returned (success, msg), fs').
Proof.
  unfold process_item.
  destruct (process_item_try _ _ _ _ _ _ _ _) as [[[success msg]|e] fs'];
    eauto.
Qed.

Lemma process_item_true item email outdir args (fs fs' : filesystem) msg :
  process_item quote_plus repr_container w item email outdir args fs
  = (Returned (true, msg), fs') →
  process_item_try quote_plus repr_container w item email outdir args fs
  = (Returned (true, msg), fs').
Proof.
  unfold process_item.
  destruct (process_item_try _ _ _ _ _ _ _ _) as [[[success m]|e] fs1];
    by intros [= -> -> ->].
Qed.

(** A success of [process_item] is a successful fetch to the destination
    computed from the item. *)
Lemma process_item_saved item email outdir args (fs fs' : filesystem) msg :
  process_item quote_plus repr_container w item email outdir args fs
  = (Returned (true, msg), fs') →
  ∃ i chunks,
    read_item repr_container item = Returned i
    ∧ let dest := path_join outdir
                    (sanitize_filename (unsanitized_name repr_container i)) in
      msg = "Saved: " +:+ dest
      ∧ fs' = <[dest := concat chunks]> fs
      ∧ take 4 (concat chunks) = pdf_magic
      ∧ 1024 ≤ Z.of_nat (length (concat chunks)).
Proof.
  intros H%process_item_true.
  apply process_item_try_cases in H
    as [[_ Hne]|(i & url & outcome & Hread & _ & _ & Hfetch & [= <-])].
  { by destruct (Hne msg). }
  apply fetch_and_validate_true in Hfetch as (chunks & _ & -> & -> & ? & ?).
  exists i, chunks. auto.
Qed.

End ItemFacts.

(** ** Success means a valid PDF on disk *)

(** C4: whenever [process_item] returns a success, its message names the
    destination path, and at that path the file system holds a file whose
    first four bytes are the PDF signature and whose size is at least 1024
    bytes. *)
Theorem process_item_success_valid_pdf
    quote_plus repr_container w item email outdir args
    (fs fs' : filesystem) msg :
  process_item quote_plus repr_container w item email outdir args fs
  = (Returned (true, msg), fs') →
  ∃ dest_path f,
    msg = "Saved: " +:+ dest_path
    ∧ fs' !! dest_path = Some f
    ∧ take 4 f = pdf_magic
    ∧ 1024 ≤ Z.of_nat (length f).
Proof.
  intros H.
  apply process_item_saved in H as (i & chunks & _ & -> & -> & Hmagic & Hsize).
  eexists _, (concat chunks). split; [done|].
  split; [apply lookup_insert_eq|]. done.
Qed.

Lemma process_item_success_valid_pdf_witness :
  ∃ dest_path f,
    "Saved: " +:+ sample_dest = "Saved: " +:+ dest_path
    ∧ (<[sample_dest := sample_pdf]> (∅ : filesystem)) !! dest_path = Some f
    ∧ take 4 f = pdf_magic
    ∧ 1024 ≤ Z.of_nat (length f).
Proof.
  apply (process_item_success_valid_pdf (λ s, s) sample_repr
           (env_with [sample_pdf] StreamComplete) sample_item
           "reader@example.org" "out" sample_args ∅).
  vm_compute. reflexivity.
Defined.

(** ** Failures leave no file behind *)

Section CleanupFacts.

Variable quote_plus : string → string.
Variable repr_container : json → string.
Variable w : env.

Lemma process_item_false item email outdir args (fs fs' : filesystem) msg :
  process_item quote_plus repr_container w item email outdir args fs
  = (Returned (false, msg), fs') →
  fs' = fs
  ∨ ∃ i pdf_url,
      read_item repr_container item = Returned i
      ∧ fetch_and_validate repr_container w pdf_url
          (path_join outdir (sanitize_filename (unsanitized_name repr_container i)))
          fs = ((false, msg), fs').
Proof.
  unfold process_item.
  destruct (process_item_try _ _ _ _ _ _ _ _) as [r fs1] eqn:Htry.
  apply process_item_try_cases in Htry
    as [[-> _]|(i & url & outcome & Hread & _ & _ & Hfetch & ->)].
  - destruct r; intros [= _ <-]; by left.
  - intros [= -> <-]. right. eauto.
Qed.

End CleanupFacts.

(** C5: a fetch that ends in failure leaves no file at the destination
    path: this holds for [download_file] returning [False], for the download
    followed by the signature and size checks, and for [process_item], whose
    failures either never touched the file system or end with nothing at
    the destination.  A success leaves at the destination exactly the body
    that was streamed, which passed both checks. *)
Theorem failed_fetch_leaves_no_file quote_plus repr_container w :
  (∀ url dest (fs fs' : filesystem),
     download_file w url dest fs = (false, fs') → fs' !! dest = None)
  ∧ (∀ url dest (fs fs' : filesystem) msg,
       fetch_and_validate repr_container w url dest fs = ((false, msg), fs') →
       fs' !! dest = None)
  ∧ (∀ url dest (fs fs' : filesystem) msg,
       fetch_and_validate repr_container w url dest fs = ((true, msg), fs') →
       ∃ chunks,
         open_stream w url = HttpBody chunks StreamComplete
         ∧ fs' = <[dest := concat chunks]> fs
         ∧ take 4 (concat chunks) = pdf_magic
         ∧ 1024 ≤ Z.of_nat (length (concat chunks)))
  ∧ (∀ item email outdir args (fs fs' : filesystem) msg,
       process_item quote_plus repr_container w item email outdir args fs
       = (Returned (false, msg), fs') →
       fs' = fs
       ∨ ∃ i, read_item repr_container item = Returned i
              ∧ fs' !! path_join outdir
                         (sanitize_filename (unsanitized_name repr_container i))
                = None).
Proof.
  repeat split.
  - intros url dest fs fs' H.
    destruct (download_file_cases w url dest fs)
      as [(fs0 & E & Hd & _)|(chunks & E & _)]; rewrite E in H; by simplify_eq.
  - intros url dest fs fs' msg H. by apply fetch_and_validate_false in H as [? _].
  - intros url dest fs fs' msg H.
    apply fetch_and_validate_true in H as (chunks & ? & ? & _ & ? & ?). eauto.
  - intros item email outdir args fs fs' msg H.
    apply process_item_false in H as [->|(i & url & Hread & Hfetch)]; [by left|].
    right. exists i. split; [done|].
    by apply fetch_and_validate_false in Hfetch as [? _].
Qed.

(** The scenario of a 600-byte body: the fetch fails and the file is gone. *)
Lemma failed_fetch_leaves_no_file_witness :
  (∅ : filesystem) !! sample_dest = None.
Proof.
  apply (proj1 (proj2 (failed_fetch_leaves_no_file (λ s, s) sample_repr
                         (env_with [short_pdf] StreamComplete)))
           (JStr "https://example.org/paper.pdf") sample_dest ∅ ∅
           "Failed to download PDF from: https://example.org/paper.pdf").
  vm_compute. reflexivity.
Defined.

(** ** No exception leaves [process_item] *)

Section OutcomeFacts.

Variable quote_plus : string → string.
Variable repr_container : json → string.
Variable w : env.

Local Ltac in_failure_messages :=
  unfold failure_messages;
  repeat first [apply list_elem_of_here | apply list_elem_of_further].

Local Ltac failure_head :=
  first
    [ solve [eexists; split; [|apply prefix_append]; in_failure_messages]
    | solve [eexists; split; [|apply prefix_same]; in_failure_messages] ].

Lemma validate_download_message success url dest (fs fs' : filesystem) msg :
  validate_download repr_container success url dest fs = ((false, msg), fs') →
  ∃ p, p ∈ failure_messages ∧ PyStr.startswith msg p = true.
Proof.
  unfold validate_download, PyStr.startswith.
  destruct success, (path_exists dest fs); simpl;
    repeat match goal with
           | |- context [if ?b then _ else _] => destruct b; simpl
           end;
    intros [= <- <-]; failure_head.
Qed.

Lemma process_item_message item email outdir args (fs fs' : filesystem) msg :
  process_item quote_plus repr_container w item email outdir args fs
  = (Returned (false, msg), fs') →
  ∃ p, p ∈ failure_messages ∧ PyStr.startswith msg p = true.
Proof.
  unfold process_item, process_item_try, PyStr.startswith.
  destruct (read_item repr_container item) as [i|e];
    [|intros [= <- <-]; failure_head].
  destruct (arg_filter_publishers args
            && Py.not_in_strs (f_publisher i) PREFERRED_PUBLISHERS);
    [intros [= <- <-]; failure_head|].
  destruct (Py.truthy (f_doi i)); simpl; [|intros [= <- <-]; failure_head].
  destruct (get_pdf_url_from_unpaywall quote_plus w (f_doi i) email)
    as [pdf_url|e]; [|intros [= <- <-]; failure_head].
  destruct (Py.truthy pdf_url); simpl; [|intros [= <- <-]; failure_head].
  unfold fetch_and_validate.
  destruct (download_file w pdf_url _ fs) as [success fs1].
  destruct (validate_download _ _ _ _ _) as [[ok m] fs2] eqn:Hv.
  intros [= -> -> <-]. by apply validate_download_message in Hv.
Qed.

Lemma download_true_file url dest (fs fs1 : filesystem) :
  download_file w url dest fs = (true, fs1) →
  path_exists dest fs1 = true ∧ (getsize dest fs1 <? 1024) = false.
Proof.
  destruct (download_file_cases w url dest fs)
    as [(fs0 & -> & _)|(chunks & -> & _ & _ & Hsize)]; [done|].
  intros [= <-]. split.
  - apply path_exists_true. by rewrite lookup_insert_eq.
  - unfold getsize. rewrite lookup_insert_eq. by apply Z.ltb_ge.
Qed.

(** What [process_item] returns once the item is read, passes the filter
    and has a DOI, by what the resolver, the download and the check of the
    signature give. *)
Lemma process_item_stages item i email outdir args (fs : filesystem) :
  read_item repr_container item = Returned i →
  arg_filter_publishers args
  && Py.not_in_strs (f_publisher i) PREFERRED_PUBLISHERS = false →
  Py.truthy (f_doi i) = true →
  let dest :=
    path_join outdir (sanitize_filename (unsanitized_name repr_container i)) in
  process_item quote_plus repr_container w item email outdir args fs
  = match get_pdf_url_from_unpaywall quote_plus w (f_doi i) email with
    | Raised e =>
        (Returned (false, "Error processing item: " +:+ exn_str e), fs)
    | Returned u =>
        if Py.truthy u then
          match download_file w u dest fs with
          | (false, fs1) =>
              (Returned (false, "Failed to download PDF from: "
                                +:+ py_str repr_container u), fs1)
          | (true, fs1) =>
              if is_valid_pdf dest fs1
              then (Returned (true, "Saved: " +:+ dest), fs1)
              else (Returned (false, "Downloaded file is not a valid PDF from: "
                                     +:+ py_str repr_container u),
                    os_remove dest fs1)
          end
        else (Returned (false, "No OA PDF reported by Unpaywall for DOI: "
                               +:+ py_str repr_container (f_doi i)), fs)
    end.
Proof.
  intros Hread Hfilter Hdoi dest.
  unfold process_item, process_item_try. rewrite Hread, Hfilter, Hdoi.
  cbn [negb].
  destruct (get_pdf_url_from_unpaywall quote_plus w (f_doi i) email)
    as [u|e]; [|done].
  destruct (Py.truthy u); cbn [negb]; [|done].
  fold dest. unfold fetch_and_validate.
  destruct (download_file w u dest fs) as [[] fs1] eqn:Hdl.
  - apply download_true_file in Hdl as [Hex Hsize].
    unfold validate_download. rewrite Hex. cbn [andb].
    destruct (is_valid_pdf dest fs1); cbn [negb]; [|done].
    by rewrite Hsize.
  - unfold validate_download. cbn [andb]. done.
Qed.

End OutcomeFacts.

(** C7: for every item, email, output directory, arguments and file system,
    [process_item] returns a pair of a success flag and a message, and never
    raises: an exception raised anywhere in its body comes back as the
    failure [Error processing item: ...] carrying the text of the exception,
    and every failure it returns carries one of the diagnostic messages of
    the source.  An item the filter passes over and an item without DOI
    come back as failures; once the item is read, passes the filter and
    has a DOI, a resolution that raises or finds no URL, a download that
    fails and a file without the signature each come back as a failure
    with their message; and a success is returned only when the resolver
    gave a URL, the download succeeded and the file has the signature. *)
Theorem process_item_never_raises
    quote_plus repr_container w item email outdir args (fs : filesystem) :
  let result :=
    process_item quote_plus repr_container w item email outdir args fs in
  (∃ success msg fs', result = (Returned (success, msg), fs'))
  ∧ (∀ e fs',
       process_item_try quote_plus repr_container w item email outdir args fs
       = (Raised e, fs') →
       result = (Returned (false, "Error processing item: " +:+ exn_str e), fs'))
  ∧ (∀ msg fs',
       result = (Returned (false, msg), fs') →
       ∃ p, p ∈ failure_messages ∧ PyStr.startswith msg p = true)
  ∧ (∀ i,
       read_item repr_container item = Returned i →
       arg_filter_publishers args
       && Py.not_in_strs (f_publisher i) PREFERRED_PUBLISHERS = true →
       result
       = (Returned (false, "Skipping " +:+ py_str repr_container (f_doi i)
                           +:+ " - Publisher "
                           +:+ py_str repr_container (f_publisher i)
                           +:+ " not in preferred list"), fs))
  ∧ (∀ i,
       read_item repr_container item = Returned i →
       arg_filter_publishers args
       && Py.not_in_strs (f_publisher i) PREFERRED_PUBLISHERS = false →
       Py.truthy (f_doi i) = false →
       result = (Returned (false, "No DOI found"), fs))
  ∧ (∀ i,
       read_item repr_container item = Returned i →
       arg_filter_publishers args
       && Py.not_in_strs (f_publisher i) PREFERRED_PUBLISHERS = false →
       Py.truthy (f_doi i) = true →
       let dest :=
         path_join outdir
           (sanitize_filename (unsanitized_name repr_container i)) in
       let resolved :=
         get_pdf_url_from_unpaywall quote_plus w (f_doi i) email in
       (∀ e, resolved = Raised e →
             result
             = (Returned (false, "Error processing item: " +:+ exn_str e), fs))
       ∧ (∀ u, resolved = Returned u → Py.truthy u = false →
               result
               = (Returned (false, "No OA PDF reported by Unpaywall for DOI: "
                                   +:+ py_str repr_container (f_doi i)), fs))
       ∧ (∀ u fs1,
            resolved = Returned u → Py.truthy u = true →
            download_file w u dest fs = (false, fs1) →
            result
            = (Returned (false, "Failed to download PDF from: "
                                +:+ py_str repr_container u), fs1))
       ∧ (∀ u fs1,
            resolved = Returned u → Py.truthy u = true →
            download_file w u dest fs = (true, fs1) →
            is_valid_pdf dest fs1 = false →
            result
            = (Returned (false, "Downloaded file is not a valid PDF from: "
                                +:+ py_str repr_container u),
               os_remove dest fs1)))
  ∧ (∀ msg fs',
       result = (Returned (true, msg), fs') →
       ∃ i u,
         read_item repr_container item = Returned i
         ∧ get_pdf_url_from_unpaywall quote_plus w (f_doi i) email = Returned u
         ∧ Py.truthy u = true
         ∧ let dest :=
             path_join outdir
               (sanitize_filename (unsanitized_name repr_container i)) in
           download_file w u dest fs = (true, fs')
           ∧ is_valid_pdf dest fs' = true
           ∧ msg = "Saved: " +:+ dest).
Proof.
  intros result. subst result.
  split; [apply process_item_returns|].
  split; [|split; [|split; [|split; [|split]]]].
  - intros e fs' H. unfold process_item. by rewrite H.
  - intros msg fs'. apply process_item_message.
  - intros i Hread Hfilter. unfold process_item, process_item_try.
    by rewrite Hread, Hfilter.
  - intros i Hread Hfilter Hdoi. unfold process_item, process_item_try.
    by rewrite Hread, Hfilter, Hdoi.
  - intros i Hread Hfilter Hdoi dest resolved. subst dest resolved.
    rewrite (process_item_stages quote_plus repr_container w item i email
               outdir args fs Hread Hfilter Hdoi).
    split; [|split; [|split]].
    + by intros e ->.
    + by intros u -> ->.
    + by intros u fs1 -> -> ->.
    + by intros u fs1 -> -> -> ->.
  - intros msg fs' H. apply process_item_true in H.
    apply process_item_try_cases in H
      as [[_ Hno]|(i & u & outcome & Hread & Hurl & Ht & Hfetch & [= <-])];
      [by destruct (Hno msg)|].
    exists i, u. split; [done|]. split; [done|]. split; [done|].
    cbn zeta. unfold fetch_and_validate in Hfetch.
    destruct (download_file w u _ fs) as [success fs1].
    apply validate_download_true in Hfetch
      as (-> & -> & -> & f & Hf & Hmagic & _).
    split; [done|]. split; [|done].
    apply is_valid_pdf_true. eauto.
Qed.

(** An item that is no dictionary makes the body raise [AttributeError];
    [process_item] returns the failure. *)
Lemma process_item_never_raises_witness :
  process_item (λ s, s) sample_repr (env_with [sample_pdf] StreamComplete)
    malformed_item "reader@example.org" "out" sample_args ∅
  = (Returned (false, "Error processing item: 'list' object has no attribute 'get'"),
     ∅).
Proof.
  apply (proj1 (proj2 (process_item_never_raises (λ s, s) sample_repr
                         (env_with [sample_pdf] StreamComplete) malformed_item
                         "reader@example.org" "out" sample_args ∅))
           (Py.no_attribute malformed_item "get") ∅).
  vm_compute. reflexivity.
Defined.

(** ** The resolver *)

Section ResolverFacts.

Variable quote_plus : string → string.
Variable w : env.

Lemma first_available_app us vs :
  first_available (us ++ vs)
  = match first_available us with
    | Some u => Some u
    | None => first_available vs
    end.
Proof.
  induction us as [|u us IH]; simpl; [done|].
  by destruct (available u).
Qed.

Lemma first_available_truthy us u :
  first_available us = Some u → PyStr.truthy u = true.
Proof.
  induction us as [|[s|] us IH]; simpl; [done| |done].
  destruct (PyStr.truthy s) eqn:Hs; [by intros [= <-]|done].
Qed.

(** What [location_url] gives for a location read from a dictionary. *)
Lemma location_url_of_json loc l :
  location_of_json loc = Some l →
  ∃ v, location_url loc = Returned v
       ∧ match first_available (location_urls l) with
         | Some u => v = JStr u
         | None => Py.truthy v = false
         end.
Proof.
  destruct loc as [| | | | |d]; try done.
  unfold location_of_json, location_url, Py.or_else.
  cbn [Py.get mbind py_result_bind].
  destruct (Py.dict_lookup d "url_for_pdf") as [[| | |[|c s]| |]|];
    try done;
    (destruct (Py.dict_lookup d "url") as [[| | |[|c' s']| |]|]; try done);
    intros [= <-]; eexists; (split; reflexivity).
Qed.

Lemma first_location_url_of_json locs ls :
  locations_of_json locs = Some ls →
  first_location_url locs
  = Returned (json_of_url (first_available (concat (location_urls <$> ls)))).
Proof.
  revert ls. induction locs as [|loc locs IH]; intros ls.
  { by intros [= <-]. }
  cbn [locations_of_json].
  destruct (location_of_json loc) as [l|] eqn:Hl; [|done].
  destruct (locations_of_json locs) as [ls'|]; [|done].
  intros [= <-]. rewrite fmap_cons. cbn [first_location_url concat].
  destruct (location_url_of_json loc l Hl) as (v & -> & Hv).
  rewrite first_available_app. cbn [mbind py_result_bind].
  destruct (first_available (location_urls l)) as [u|] eqn:Hu.
  - subst v. cbn [Py.truthy json_of_url].
    by rewrite (first_available_truthy _ _ Hu).
  - rewrite Hv. by apply IH.
Qed.

Lemma best_location_url_of_json d loc l :
  Py.dict_lookup d "best_oa_location" = Some loc →
  location_of_json loc = Some l →
  best_location_url (JDict d)
  = Returned (JStr <$> first_available (location_urls l)).
Proof.
  intros Hd Hl. unfold best_location_url.
  cbn [Py.get Py.getitem mbind py_result_bind]. rewrite Hd.
  cbn [default from_option id].
  destruct (Py.truthy loc) eqn:Ht.
  - cbn [mbind py_result_bind].
    destruct (location_url_of_json loc l Hl) as (v & -> & Hv).
    cbn [mbind py_result_bind].
    destruct (first_available (location_urls l)) as [u|] eqn:Hu.
    + subst v. cbn [Py.truthy]. rewrite (first_available_truthy _ _ Hu).
      cbn [py_lower mbind py_result_bind].
      by destruct (PyStr.endswith (PyStr.lower u) ".pdf").
    + by rewrite Hv.
  - destruct loc as [| | | | |[|kv dl]]; try done.
    by injection Hl as <-.
Qed.

(** On any body that stands for a record, the body of the [try] returns
    what the specification says. *)
Lemma unpaywall_try_of_json url data r :
  unpaywall_get w url = Returned data →
  record_of_json data = Some r →
  unpaywall_try w url = Returned (json_of_url (resolvePdfUrl (Some r))).
Proof.
  intros H Hr. unfold unpaywall_try. rewrite H. cbn [mbind py_result_bind].
  destruct data as [| | | | |d]; try done. cbn [record_of_json] in Hr.
  assert (∀ ls, match Py.dict_lookup d "oa_locations" with
                | None => Some []
                | Some (JList l) => locations_of_json l
                | Some _ => None
                end = Some ls →
                (locs ← Py.get (JDict d) "oa_locations" (JList []);
                 locs ← Py.iter locs; first_location_url locs)
                = Returned (json_of_url
                              (first_available (concat (location_urls <$> ls)))))
    as Hloop.
  { intros ls Hls. cbn [Py.get mbind py_result_bind].
    destruct (Py.dict_lookup d "oa_locations") as [[| | | |l|]|];
      try done; cbn [default from_option id Py.iter mbind py_result_bind].
    - by apply first_location_url_of_json.
    - by injection Hls as <-. }
  assert (∀ best,
            match Py.dict_lookup d "oa_locations" with
            | None => Some []
            | Some (JList l) => locations_of_json l
            | Some _ => None
            end
            ≫= (λ locs, Some (OaRecord best locs)) = Some r →
            best_oa_location r = best
            ∧ (locs ← Py.get (JDict d) "oa_locations" (JList []);
               locs ← Py.iter locs; first_location_url locs)
              = Returned (json_of_url
                            (first_available
                               (concat (location_urls <$> oa_locations r)))))
    as Hrest.
  { intros best Hb.
    destruct (match Py.dict_lookup d "oa_locations" with
              | None => Some []
              | Some (JList l) => locations_of_json l
              | Some _ => None
              end) as [ls|] eqn:Hls; [|done].
    injection Hb as <-. split; [done|]. by apply Hloop. }
  clear Hloop. unfold resolvePdfUrl. rewrite first_available_app.
  destruct (Py.dict_lookup d "best_oa_location") as [loc|] eqn:Hbest.
  - destruct (location_of_json loc) as [l|] eqn:Hl.
    + assert (loc ≠ JNull) as Hnull by (by intros ->).
      destruct (Hrest (Some l)) as [-> Hloop].
      { destruct loc; try done; by rewrite Hl in Hr. }
      rewrite (best_location_url_of_json d loc l Hbest Hl).
      cbn [mbind py_result_bind].
      destruct (first_available (location_urls l)); [done|exact Hloop].
    + destruct loc; try (cbn in Hr; done).
      destruct (Hrest None Hr) as [-> Hloop].
      unfold best_location_url. cbn [Py.get mbind py_result_bind].
      rewrite Hbest. exact Hloop.
  - destruct (Hrest None Hr) as [-> Hloop].
    unfold best_location_url. cbn [Py.get mbind py_result_bind].
    rewrite Hbest. exact Hloop.
Qed.

(** A body built from a record stands for it. *)
Lemma location_of_json_of_location l :
  location_of_json (json_of_location l) = Some l.
Proof. by destruct l as [[?|] [?|]]. Qed.

Lemma record_of_json_of_record other r :
  record_of_json (json_of_record other r) = Some r.
Proof.
  destruct r as [best ls]. unfold json_of_record, record_of_json.
  cbn [best_oa_location oa_locations Py.dict_lookup String.eqb Ascii.eqb
       Bool.eqb].
  assert (locations_of_json (json_of_location <$> ls) = Some ls) as ->.
  { induction ls as [|l ls IH]; [done|].
    rewrite fmap_cons. cbn [locations_of_json].
    rewrite location_of_json_of_location, IH. done. }
  destruct best as [l|]; [|done].
  change (json_of_location l) with
    (JDict [("url_for_pdf", json_of_url (url_for_pdf l));
            ("url", json_of_url (url l))]).
  cbv iota. fold (json_of_location l).
  by rewrite location_of_json_of_location.
Qed.

End ResolverFacts.

(** C6: the resolver returns none when the request fails, and when
    anything else raises while the body is read;
    on every body that holds an optional best location and a list of
    locations, each a dictionary whose [url_for_pdf] and [url] are absent,
    null or a string, whatever else the body and its locations hold and in
    whatever order, it returns the URL the specification names
    ([resolvePdfUrl]): the best location's direct-PDF URL when available,
    else that location's generic URL when available, else the first
    available URL, direct-PDF before generic, among the locations listed;
    and none when no location is reported. *)
Theorem resolver_preference_order quote_plus w doi email :
  let endpoint := UNPAYWALL_API (quote_plus doi) email in
  let result := get_pdf_url_from_unpaywall quote_plus w (JStr doi) email in
  (∀ e, unpaywall_get w endpoint = Raised e → result = Returned JNull)
  ∧ (∀ data r,
       unpaywall_get w endpoint = Returned data →
       record_of_json data = Some r →
       result = Returned (json_of_url (resolvePdfUrl (Some r)))
       ∧ (∀ l u, best_oa_location r = Some l →
                 available (url_for_pdf l) = Some u →
                 result = Returned (JStr u))
       ∧ (∀ l u, best_oa_location r = Some l →
                 available (url_for_pdf l) = None →
                 available (url l) = Some u →
                 result = Returned (JStr u))
       ∧ ((best_oa_location r = None
           ∨ ∃ l, best_oa_location r = Some l
                  ∧ available (url_for_pdf l) = None
                  ∧ available (url l) = None) →
          result
          = Returned (json_of_url
                        (first_available
                           (concat (location_urls <$> oa_locations r)))))
       ∧ (best_oa_location r = None → oa_locations r = [] →
          result = Returned JNull))
  ∧ (∀ e, unpaywall_try w endpoint = Raised e → result = Returned JNull)
  ∧ (∀ other r, record_of_json (json_of_record other r) = Some r).
Proof.
  intros endpoint result.
  assert (∀ v, unpaywall_try w endpoint = v →
               result = Returned (match v with
                                  | Returned u => u
                                  | Raised _ => JNull
                                  end)) as Hres.
  { intros v <-. unfold result, get_pdf_url_from_unpaywall; cbn.
    fold endpoint. by destruct (unpaywall_try w endpoint). }
  split; [|split; [|split]].
  - intros e He. apply (Hres (Raised e)).
    unfold unpaywall_try. by rewrite He.
  - intros data r Hdata Hr.
    pose proof (Hres _ (unpaywall_try_of_json w endpoint data r Hdata Hr)) as ->.
    split; [done|]. unfold resolvePdfUrl.
    repeat split.
    + intros l u -> Hu. cbn. by rewrite Hu.
    + intros l u -> Hp Hu. cbn. by rewrite Hp, Hu.
    + intros [->|(l & -> & Hp & Hu)]; [done|].
      rewrite first_available_app. cbn. by rewrite Hp, Hu.
    + by intros -> ->.
  - intros e He. apply (Hres (Raised e) He).
  - apply record_of_json_of_record.
Qed.

(** A body with the fields Unpaywall sends, the list before the best
    location: the best location has no direct PDF, and its landing page is
    returned before the PDF of the list. *)
Lemma resolver_preference_order_witness :
  get_pdf_url_from_unpaywall (λ s, s)
    (Env (λ _, Returned full_lookup) (λ _, HttpFailed) (λ _, true))
    (JStr "10.1000/x") "reader@example.org"
  = Returned (JStr "https://publisher.example.org/x").
Proof.
  refine (proj1 (proj2 (proj2 (proj1 (proj2 (resolver_preference_order (λ s, s)
            (Env (λ _, Returned full_lookup) (λ _, HttpFailed) (λ _, true))
            "10.1000/x" "reader@example.org"))
            full_lookup
            (OaRecord
               (Some (OaLocation None (Some "https://publisher.example.org/x")))
               [OaLocation (Some "https://repo.example.org/x.pdf")
                  (Some "https://repo.example.org/x")])
            _ _)))
            (OaLocation None (Some "https://publisher.example.org/x"))
            "https://publisher.example.org/x" _ _ _);
    reflexivity.
Defined.

(** ** The scheduler *)

Section SchedulerFacts.

Variable sv : services.
Variable args : arguments.

Lemma submit_items_frame items st :
  offset (submit_items args items st).2 = offset st
  ∧ downloaded (submit_items args items st).2 = downloaded st
  ∧ searches (submit_items args items st).2 = searches st.
Proof.
  revert st; induction items as [|item items IH]; intros st; simpl; [done|].
  destruct (_ >=? _); [done|].
  destruct (Py.get item "DOI" JNull) as [doi|e]; [|done].
  destruct (Py.truthy doi); simpl; [|apply IH].
  destruct (hash_key doi) as [k|e]; [|done].
  destruct (bool_decide (k ∈ seen_dois st)); [apply IH|].
  destruct (IH (submit item doi k st)) as (-> & -> & ->). done.
Qed.

Lemma settle_frame f st :
  offset (settle sv f st) = offset st
  ∧ seen_dois (settle sv f st) = seen_dois st
  ∧ attempts (settle sv f st) = attempts st
  ∧ searches (settle sv f st) = searches st
  ∧ submitted (settle sv f st) = submitted st.
Proof. done. Qed.

Lemma collect_frame pending st :
  offset (collect sv args pending st) = offset st
  ∧ seen_dois (collect sv args pending st) = seen_dois st
  ∧ attempts (collect sv args pending st) = attempts st
  ∧ searches (collect sv args pending st) = searches st
  ∧ submitted (collect sv args pending st) = submitted st.
Proof.
  revert st; induction pending as [|[f doi] pending IH]; intros st; simpl;
    [done|].
  destruct (_ >=? _); [done|].
  destruct (IH (settle sv f st)) as (-> & -> & -> & -> & ->). done.
Qed.

Lemma dedup_invariant_frame st st' :
  seen_dois st' = seen_dois st → submitted st' = submitted st →
  dedup_invariant st → dedup_invariant st'.
Proof.
  unfold dedup_invariant, submitted_keys. by intros -> ->.
Qed.

Lemma search_invariant_frame st st' :
  offset st' = offset st → searches st' = searches st →
  search_invariant args st → search_invariant args st'.
Proof. unfold search_invariant. by intros -> ->. Qed.

Lemma submit_dedup item doi k st :
  Py.get item "DOI" JNull = Returned doi → Py.truthy doi = true →
  hash_key doi = Returned k → k ∉ seen_dois st →
  dedup_invariant st → dedup_invariant (submit item doi k st).
Proof.
  intros Hget Htruthy Hkey Hfresh (Hnd & Hseen & Hall).
  unfold dedup_invariant, submitted_keys, submit; simpl.
  rewrite Hkey. split; [|split].
  - apply NoDup_cons. split; [|done]. by rewrite <- Hseen.
  - intros k'. rewrite elem_of_union, elem_of_singleton, elem_of_cons.
    rewrite Hseen. split; [intros [->|?]; auto|intros [[= ->]|?]; auto].
  - constructor; [|done]. simpl. eauto.
Qed.

Lemma submit_items_dedup items st :
  dedup_invariant st → dedup_invariant (submit_items args items st).2.
Proof.
  revert st; induction items as [|item items IH]; intros st Hinv; simpl;
    [done|].
  destruct (_ >=? _); [done|].
  destruct (Py.get item "DOI" JNull) as [doi|e] eqn:Hget; [|done].
  destruct (Py.truthy doi) eqn:Htruthy; simpl; [|by apply IH].
  destruct (hash_key doi) as [k|e] eqn:Hkey; [|done].
  destruct (bool_decide (k ∈ seen_dois st)) eqn:Hin; [by apply IH|].
  apply bool_decide_eq_false in Hin.
  apply IH. by apply submit_dedup.
Qed.

End SchedulerFacts.

Section LoopFacts.

Variable sv : services.
Variable args : arguments.

Lemma loop_condition_true st :
  loop_condition args st = true ↔
  downloaded st < arg_max args
  ∧ attempts st < max_attempts args
  ∧ offset st < max_attempts args * 5.
Proof.
  unfold loop_condition. rewrite !andb_true_iff, !Z.ltb_lt. tauto.
Qed.

Lemma note_search_invariant st :
  loop_condition args st = true →
  search_invariant args st → search_invariant args (note_search st).
Proof.
  intros (_ & Hatt & Hoff)%loop_condition_true [Hpos Hall].
  split; [done|]. constructor; [simpl; lia|done].
Qed.

(** One turn of the loop, after the search was noted: the loop goes on
    from the state after the submissions and the collection, or it ends
    with a result. *)
Lemma while_loop_turn st :
  loop_condition args st = true →
  (∃ items, ∀ fuel,
     while_loop sv args (S fuel) st
     = while_loop sv args fuel
         (collect sv args
            (futures (next_page (submit_items args items (note_search st)).2))
            (next_page (submit_items args items (note_search st)).2)))
  ∨ ∃ r st',
      (∀ fuel, while_loop sv args (S fuel) st = Some (r, st'))
      ∧ offset st' = offset st
      ∧ searches st' = searches (note_search st)
      ∧ (dedup_invariant st → dedup_invariant st').
Proof.
  intros Hcond. cbn [while_loop]. rewrite Hcond.
  change (offset (note_search st)) with (offset st).
  set (resp := query_crossref _ _ _ _ _ _ _).
  destruct (Py.truthy resp); cbn [negb]; [|right; eauto 10].
  destruct (Py.get resp "message" (JDict [])) as [message|e];
    cbn [mbind py_result_bind]; [|right; eauto 10].
  destruct (Py.get message "items" (JList [])) as [items|e];
    cbn [mbind py_result_bind]; [|right; eauto 10].
  destruct (Py.truthy items); cbn [negb]; [|right; eauto 10].
  destruct (Py.iter items) as [l|e]; [|right; eauto 10].
  pose proof (submit_items_frame args l (note_search st)) as (Ho & _ & Hs).
  pose proof (submit_items_dedup args l (note_search st)) as Hd.
  destruct (submit_items args l (note_search st)) as [[[]|e] st1] eqn:Hsub.
  - left. exists l. intros fuel. by rewrite Hsub.
  - right. exists (Raised e), st1. simpl in *. eauto.
Qed.

End LoopFacts.

Section RunFacts.

Variable sv : services.
Variable args : arguments.

Lemma while_loop_done fuel st :
  loop_condition args st = false →
  while_loop sv args fuel st = Some (Returned (), st).
Proof. intros H. destruct fuel; cbn [while_loop]; by rewrite H. Qed.

(** The state after the submissions and the collection of one turn. *)
Lemma turn_state items st :
  let st1 := (submit_items args items (note_search st)).2 in
  let st2 := collect sv args (futures (next_page st1)) (next_page st1) in
  offset st2 = offset st + per_page
  ∧ searches st2 = searches (note_search st)
  ∧ (dedup_invariant st → dedup_invariant st2).
Proof.
  intros st1 st2.
  destruct (collect_frame sv args (futures (next_page st1)) (next_page st1))
    as (Ho & Hseen & _ & Hs & Hsub).
  destruct (submit_items_frame args items (note_search st)) as (Ho1 & _ & Hs1).
  fold st1 in Ho1, Hs1. fold st2 in Ho, Hseen, Hs, Hsub.
  split; [|split].
  - rewrite Ho. cbn. by rewrite Ho1.
  - by rewrite Hs.
  - intros Hinv. apply (dedup_invariant_frame st1); [done..|].
    by apply submit_items_dedup.
Qed.

Lemma while_loop_invariant fuel st r st' :
  while_loop sv args fuel st = Some (r, st') →
  dedup_invariant st → search_invariant args st →
  dedup_invariant st' ∧ search_invariant args st'.
Proof.
  revert st; induction fuel as [|fuel IH]; intros st Hrun Hd Hs.
  - destruct (loop_condition args st) eqn:Hcond.
    + cbn in Hrun. by rewrite Hcond in Hrun.
    + rewrite while_loop_done in Hrun by done. by simplify_eq.
  - destruct (loop_condition args st) eqn:Hcond.
    2:{ rewrite while_loop_done in Hrun by done. by simplify_eq. }
    pose proof (note_search_invariant args st Hcond Hs) as [Hpos Hall].
    destruct (while_loop_turn sv args st Hcond)
      as [[items Hnext]|(r1 & st1 & Hend & Ho & Hsr & Hinv)].
    + rewrite Hnext in Hrun.
      destruct (turn_state items st) as (Ho & Hsr & Hinv).
      apply IH in Hrun; [done|by apply Hinv|].
      split; [rewrite Ho; unfold per_page; simpl in Hpos; lia|].
      by rewrite Hsr.
    + rewrite Hend in Hrun. simplify_eq. split; [by apply Hinv|].
      split; [by rewrite Ho|by rewrite Hsr].
Qed.

(** The loop ends: as many turns of fuel as [turns_left] counts are
    enough. *)
Lemma while_loop_terminates fuel st :
  (turns_left args st ≤ fuel)%nat →
  ∃ r, while_loop sv args fuel st = Some r.
Proof.
  revert st; induction fuel as [|fuel IH]; intros st Hfuel.
  - destruct (loop_condition args st) eqn:Hcond.
    + apply loop_condition_true in Hcond as (_ & _ & Hoff).
      unfold turns_left in Hfuel. lia.
    + rewrite while_loop_done by done. eauto.
  - destruct (loop_condition args st) eqn:Hcond.
    2:{ rewrite while_loop_done by done. eauto. }
    destruct (while_loop_turn sv args st Hcond)
      as [[items ->]|(r1 & st1 & -> & _)]; [|eauto].
    apply IH. destruct (turn_state items st) as (Ho & _).
    apply loop_condition_true in Hcond as (_ & _ & Hoff).
    unfold turns_left in *. rewrite Ho. unfold per_page. lia.
Qed.

(** More fuel does not change the result. *)
Lemma while_loop_more_fuel fuel fuel' st r :
  while_loop sv args fuel st = Some r → (fuel ≤ fuel')%nat →
  while_loop sv args fuel' st = Some r.
Proof.
  revert fuel' st; induction fuel as [|fuel IH]; intros fuel' st Hrun Hle.
  - destruct (loop_condition args st) eqn:Hcond.
    + cbn in Hrun. by rewrite Hcond in Hrun.
    + rewrite while_loop_done in * by done. done.
  - destruct (loop_condition args st) eqn:Hcond.
    2:{ rewrite while_loop_done in * by done. done. }
    destruct fuel' as [|fuel']; [lia|].
    destruct (while_loop_turn sv args st Hcond)
      as [[items Hnext]|(r1 & st1 & Hend & _)].
    + rewrite Hnext in *. apply IH; [done|lia].
    + by rewrite Hend in *.
Qed.

End RunFacts.

Section MainFacts.

Variable sv : services.
Variable args : arguments.

Lemma initial_invariant : dedup_invariant initial ∧ search_invariant args initial.
Proof.
  split; [split; [constructor|split; [|constructor]]|split; [done|constructor]].
  intros k. unfold submitted_keys; simpl. set_solver.
Qed.

Lemma main_invariant fuel r st :
  main sv fuel args = Some (r, st) →
  dedup_invariant st ∧ search_invariant args st.
Proof.
  unfold main.
  destruct (_ || _); [intros [= <- <-]; apply initial_invariant|].
  destruct (os_makedirs _ _); [|intros [= <- <-]; apply initial_invariant].
  destruct (ThreadPoolExecutor _); [|intros [= <- <-]; apply initial_invariant].
  destruct (while_loop sv args fuel initial) as [[[[]|e] st1]|] eqn:Hloop;
    [| |done];
    intros [= <- <-];
    apply (while_loop_invariant _ _ _ _ _ _ Hloop); apply initial_invariant.
Qed.

(** [main] ends, whatever the services answer. *)
Lemma main_terminates :
  ∃ fuel r, ∀ fuel', (fuel ≤ fuel')%nat → main sv fuel' args = Some r.
Proof.
  destruct (while_loop_terminates sv args (turns_left args initial) initial)
    as [r Hr]; [done|].
  exists (turns_left args initial).
  unfold main.
  destruct (_ || _); [eauto|].
  destruct (os_makedirs _ _); [|eauto].
  destruct (ThreadPoolExecutor _); [|eauto].
  destruct r as [[[]|e] st]; eexists; intros fuel' Hle;
    by rewrite (while_loop_more_fuel _ _ _ _ _ _ Hr Hle).
Qed.

End MainFacts.

(** ** Bounds on searching, and termination *)

(** C2: every search request of a run is issued while attempts is below
    three times the target and the offset is not beyond three times the
    target times the page size of 20 (the loop condition is stricter: the
    offset is below fifteen times the target); and the run always ends:
    with enough fuel [main] returns, and further fuel does not change what
    it returns. *)
Theorem searches_bounded_and_run_ends sv args :
  (∀ fuel r st,
     main sv fuel args = Some (r, st) →
     Forall (λ s, s.2 < arg_max args * 3
                  ∧ s.1 ≤ arg_max args * 3 * per_page
                  ∧ s.1 < arg_max args * 3 * 5)
            (searches st))
  ∧ (∃ fuel r, ∀ fuel', (fuel ≤ fuel')%nat → main sv fuel' args = Some r).
Proof.
  split; [|apply main_terminates].
  intros fuel r st H. apply main_invariant in H as [_ [_ Hall]].
  eapply Forall_impl; [exact Hall|].
  intros [off att]; unfold max_attempts, per_page; simpl. lia.
Qed.

(** With one work repeated on every page and a target of 4, three searches
    are issued, at the offsets 0, 20 and 40, and the run ends short. *)
Lemma searches_bounded_and_run_ends_witness :
  searches (final_state stalled_run) = [(40, 1); (20, 1); (0, 0)]
  ∧ Forall (λ s, s.2 < 4 * 3 ∧ s.1 ≤ 4 * 3 * per_page ∧ s.1 < 4 * 3 * 5)
           (searches (final_state stalled_run)).
Proof.
  split; [by vm_compute|].
  apply (proj1 (searches_bounded_and_run_ends same_page_services
                  (args_with_max 4))
           10%nat (Finished 0 true) (final_state stalled_run)).
  vm_compute. reflexivity.
Defined.

(** ** Deduplication *)

(** C3: in every run, no DOI is submitted to the pool twice: the keys of
    the DOIs submitted are pairwise different, and the set [seen_dois] holds
    exactly those keys.  Every submission carries the DOI of its item, and
    that DOI is not missing.  An item whose DOI is missing, or already in
    [seen_dois], is passed over by the submission loop. *)
Theorem no_doi_submitted_twice sv args :
  (∀ fuel r st,
     main sv fuel args = Some (r, st) →
     NoDup (submitted_keys st)
     ∧ (∀ k, k ∈ seen_dois st ↔ Returned k ∈ submitted_keys st)
     ∧ (∀ f doi, (f, doi) ∈ submitted st →
                 Py.get (fut_item f) "DOI" JNull = Returned doi
                 ∧ Py.truthy doi = true))
  ∧ (∀ item rest st doi,
       Py.get item "DOI" JNull = Returned doi →
       Py.truthy doi = false
       ∨ (∃ k, hash_key doi = Returned k ∧ k ∈ seen_dois st) →
       Z.of_nat (length (futures st)) < arg_max args - downloaded st + 10 →
       submit_items args (item :: rest) st = submit_items args rest st).
Proof.
  split.
  - intros fuel r st H. apply main_invariant in H as [(Hnd & Hseen & Hall) _].
    split; [done|]. split; [done|].
    intros f doi Hin. rewrite Forall_forall in Hall.
    by destruct (Hall _ Hin) as (? & ? & _).
  - intros item rest st doi Hget Hskip Hroom. cbn [submit_items].
    destruct (Z.geb_spec (Z.of_nat (length (futures st)))
                (arg_max args - downloaded st + 10)); [lia|].
    rewrite Hget.
    destruct Hskip as [->|(k & -> & Hin)]; [done|].
    destruct (Py.truthy doi); [|done]. cbn [negb].
    by rewrite bool_decide_eq_true_2.
Qed.

(** A page that lists the work 10.1/a twice, a work without DOI and the
    work 10.1/b: two submissions. *)
Lemma no_doi_submitted_twice_witness :
  submitted_keys (final_state repeated_run)
  = [Returned (KStr "10.1/b"); Returned (KStr "10.1/a")]
  ∧ NoDup (submitted_keys (final_state repeated_run)).
Proof.
  split; [by vm_compute|].
  apply (proj1 (no_doi_submitted_twice
                  (one_page_services repeated_items (FutReturned false "Failed"))
                  (args_with_max 3))
           5%nat (Finished 0 true) (final_state repeated_run)).
  vm_compute. reflexivity.
Defined.

(** ** A target that is not positive *)



(** The same target with an output directory that cannot be made: the
    exception of [os.makedirs] leaves [main] first. *)
Example nonpositive_max_without_outdir :
  main same_page_services 10
    (Arguments "open access" "reader@example.org" 0 EmptyString
       "2024-01-01" "2025-12-31" false)
  = Some (Uncaught (Exn OSError "[Errno 2] No such file or directory: ''"),
          initial).
Proof. reflexivity. Qed.

(** ** The count reported against the target *)

(** C1, at a failing input: with a target of one and a page of two works
    that both download, the first success ends the collection, the second
    future is still in the list, the last loop counts it, and [main] reports
    two downloads. *)
Theorem overshoot_on_two_successes :
  arg_max (args_with_max 1) = 1
  ∧ ∃ st, overshoot_run = Some (Finished 2 false, st)
          ∧ downloaded st = 1
          ∧ length (futures st) = 1%nat.
Proof.
  split; [done|]. exists (final_state overshoot_run). by vm_compute.
Qed.

(** ** The targets of a job *)

Section TargetFacts.

Variable repr_container : json → string.
Variable mkdtemp : string → string.

Lemma job_topics_length description topics_keywords :
  (1 ≤ length (job_topics description topics_keywords))%nat.
Proof. destruct topics_keywords; simpl; lia. Qed.

Lemma total_target_constant (l : list arguments) per :
  Forall (λ a, arg_max a = per) l →
  total_target l = Z.of_nat (length l) * per.
Proof.
  induction 1 as [|a l Ha _ IH]; [done|].
  cbn [total_target foldr length]. fold (total_target l). rewrite IH, Ha. lia.
Qed.

Lemma job_arguments_targets description email max_pdfs topics_keywords :
  let jobs :=
    job_arguments repr_container mkdtemp description email max_pdfs
      topics_keywords in
  length jobs = length (job_topics description topics_keywords)
  ∧ Forall (λ a, arg_max a = Z.max 5 (max_pdfs / Z.of_nat (length jobs))) jobs.
Proof.
  unfold job_arguments.
  pose proof (job_topics_length description topics_keywords) as Hlen.
  set (topics := job_topics description topics_keywords) in *.
  cbv zeta. rewrite length_fmap. split; [done|].
  unfold max_pdfs_per_topic.
  destruct (Z.eqb_spec (Z.of_nat (length topics)) 0) as [?|_]; [lia|].
  apply Forall_fmap, Forall_forall. by intros [topic keywords] _.
Qed.

End TargetFacts.

(** C8, amended: every topic of a job gets the target
    max(5, floor(requested / topics)); there is at least one topic; the sum
    of the targets is the number of topics times that target, which is at
    least five times the number of topics and more than the requested total
    minus the number of topics; and the sum exceeds the requested total
    whenever the requested total is below five times the number of topics,
    in particular whenever it is below five. *)
Theorem per_topic_targets
    repr_container mkdtemp description email max_pdfs topics_keywords :
  let jobs :=
    job_arguments repr_container mkdtemp description email max_pdfs
      topics_keywords in
  let n := Z.of_nat (length jobs) in
  1 ≤ n
  ∧ Forall (λ a, arg_max a = Z.max 5 (max_pdfs / n)) jobs
  ∧ total_target jobs = n * Z.max 5 (max_pdfs / n)
  ∧ 5 * n ≤ total_target jobs
  ∧ max_pdfs - n < total_target jobs
  ∧ (max_pdfs < 5 * n → max_pdfs < total_target jobs)
  ∧ (max_pdfs < 5 → max_pdfs < total_target jobs).
Proof.
  intros jobs n.
  destruct (job_arguments_targets repr_container mkdtemp description email
              max_pdfs topics_keywords) as [Hlen Hall].
  fold jobs in Hlen, Hall. fold n in Hall.
  pose proof (job_topics_length description topics_keywords) as Hpos.
  assert (1 ≤ n) as Hn by (unfold n; lia).
  rewrite (total_target_constant _ _ Hall). fold n.
  pose proof (Z.mul_div_le max_pdfs n ltac:(lia)) as Hlo.
  pose proof (Z.mul_succ_div_gt max_pdfs n ltac:(lia)) as Hhi.
  repeat split; try done; nia.
Qed.

Lemma per_topic_targets_witness :
  4 < total_target
        (job_arguments sample_repr sample_mkdtemp (JStr "skin imaging")
           "reader@example.org" 4 two_topics).
Proof.
  refine (proj2 (proj2 (proj2 (proj2 (proj2 (proj2
            (per_topic_targets sample_repr sample_mkdtemp (JStr "skin imaging")
               "reader@example.org" 4 two_topics)))))) _).
  lia.
Defined.

(** C8 as stated fails: a request for 20 PDFs over three topics gives each
    topic the target 6, and the sum 18 is below the request; over two topics
    the sum is 20 and does not exceed the request. *)
Lemma target_sum_below_request :
  total_target
    (job_arguments sample_repr sample_mkdtemp (JStr "skin imaging")
       "reader@example.org" 20 three_topics) = 18
  ∧ ¬ (20 ≤ total_target
              (job_arguments sample_repr sample_mkdtemp (JStr "skin imaging")
                 "reader@example.org" 20 three_topics))
  ∧ ¬ (20 < total_target
              (job_arguments sample_repr sample_mkdtemp (JStr "skin imaging")
                 "reader@example.org" 20 two_topics)).
Proof.
  assert (total_target
            (job_arguments sample_repr sample_mkdtemp (JStr "skin imaging")
               "reader@example.org" 20 three_topics) = 18) as -> by (by vm_compute).
  assert (total_target
            (job_arguments sample_repr sample_mkdtemp (JStr "skin imaging")
               "reader@example.org" 20 two_topics) = 20) as -> by (by vm_compute).
  lia.
Qed.

(** ** File names *)

Section NameFacts.

Local Open Scope nat_scope.


Lemma sanitize_length s :
  String.length (sanitize_filename s) = Nat.min 200 (String.length s).
Proof.
  unfold sanitize_filename, re_sub_hostile.
  by rewrite length_slice_to, length_map.
Qed.

Lemma sanitize_get s i :
  String.get i (sanitize_filename s)
  = if i <? 200
    then (λ c, if is_hostile c then "_"%char else c) <$> String.get i s
    else None.
Proof.
  unfold sanitize_filename, re_sub_hostile.
  by rewrite get_slice_to, get_map.
Qed.

Lemma underscore_not_hostile c :
  is_hostile (if is_hostile c then "_"%char else c) = false.
Proof. by destruct (is_hostile c) eqn:H. Qed.

Lemma sanitize_clean s i c :
  String.get i (sanitize_filename s) = Some c → is_hostile c = false.
Proof.
  rewrite sanitize_get. destruct (i <? 200); [|done].
  destruct (String.get i s) as [c'|]; [|done].
  intros [= <-]. apply underscore_not_hostile.
Qed.

Lemma contains_char_get c s :
  PyStr.contains_char c s = true → ∃ i, String.get i s = Some c.
Proof.
  induction s as [|c' s IH]; simpl; [done|].
  destruct (Ascii.eqb_spec c c') as [->|_].
  - by exists 0.
  - intros [i Hi]%IH. by exists (S i).
Qed.

Lemma sanitize_no_slash s :
  PyStr.contains_char "/" (sanitize_filename s) = false.
Proof.
  destruct (PyStr.contains_char "/" (sanitize_filename s)) eqn:H; [|done].
  apply contains_char_get in H as [i Hi]. by apply sanitize_clean in Hi.
Qed.

Lemma re_sub_pdf_suffix x :
  re_sub_hostile x = ".pdf" ↔ x = ".pdf".
Proof.
  split; [|by intros ->].
  unfold re_sub_hostile.
  destruct x as [|c1 [|c2 [|c3 [|c4 [|c5 x]]]]]; try done.
  cbn [PyStr.map]. intros [= H1 H2 H3 H4].
  destruct (is_hostile c1) eqn:E1; [done|].
  destruct (is_hostile c2) eqn:E2; [done|].
  destruct (is_hostile c3) eqn:E3; [done|].
  destruct (is_hostile c4) eqn:E4; [done|].
  by subst.
Qed.

(** A name of more than 200 characters is cut to 200; what is left ends in
    [.pdf] only when the characters 197 to 200 of the name read [.pdf]. *)
Lemma sanitize_long name :
  200 < String.length name →
  String.length (sanitize_filename name) = 200
  ∧ (PyStr.endswith (sanitize_filename name) ".pdf" = true
     ↔ substring 196 4 name = ".pdf").
Proof.
  intros Hlong.
  assert (String.length (sanitize_filename name) = 200) as Hlen.
  { rewrite sanitize_length. lia. }
  split; [done|].
  unfold PyStr.endswith. rewrite Hlen. cbn [String.length Nat.leb Nat.sub].
  unfold sanitize_filename.
  rewrite substring_slice_to by lia.
  unfold re_sub_hostile at 1. rewrite map_substring.
  fold (re_sub_hostile (substring 196 4 name)).
  rewrite String.eqb_eq. apply re_sub_pdf_suffix.
Qed.

End NameFacts.

(** ** Directory listings *)

Section ListingFacts.

Lemma append_assoc (a b c : string) : (a +:+ b) +:+ c = a +:+ b +:+ c.
Proof.
  induction a as [|x a IH]; [done|].
  change (String x ((a +:+ b) +:+ c) = String x (a +:+ b +:+ c)).
  by rewrite IH.
Qed.

Lemma no_slash_not_absolute n :
  PyStr.contains_char "/" n = false → PyStr.startswith n "/" = false.
Proof.
  unfold PyStr.startswith. destruct n as [|c n]; [done|].
  cbn [PyStr.contains_char String.prefix].
  destruct (Ascii.eqb_spec "/" c) as [<-|Hne]; [done|].
  intros _. by destruct (ascii_dec "/" c).
Qed.

Lemma path_join_prefix d n :
  PyStr.contains_char "/" n = false → path_join d n = dir_prefix d +:+ n.
Proof.
  intros H. unfold path_join, dir_prefix. rewrite (no_slash_not_absolute _ H).
  destruct (negb (PyStr.truthy d) || PyStr.endswith d "/"); [done|].
  by rewrite append_assoc.
Qed.

Lemma entry_name_join d n :
  PyStr.truthy n = true → PyStr.contains_char "/" n = false →
  entry_name d (path_join d n) = Some n.
Proof.
  intros Hn Hslash. rewrite (path_join_prefix _ _ Hslash).
  unfold entry_name, PyStr.startswith. rewrite prefix_append.
  rewrite length_append.
  replace (String.length (dir_prefix d) + String.length n
           - String.length (dir_prefix d))%nat
    with (String.length n) by lia.
  rewrite substring_append_r. by rewrite Hn, Hslash.
Qed.

(** A file saved in a directory under a plain name is listed there. *)
Lemma listdir_saved d n (fs : filesystem) :
  is_Some (fs !! path_join d n) →
  PyStr.truthy n = true → PyStr.contains_char "/" n = false →
  n ∈ listdir d fs.
Proof.
  intros [f Hf] Hn Hslash. unfold listdir.
  apply list_elem_of_omap. exists (path_join d n).
  split; [|by apply entry_name_join].
  apply list_elem_of_fmap. exists (path_join d n, f).
  split; [done|]. by apply elem_of_map_to_list.
Qed.

Lemma not_pdf_not_selected n l :
  is_pdf_name n = false → n ∉ List.filter is_pdf_name l.
Proof.
  intros H Hin%list_elem_of_In%filter_In. destruct Hin as [_ Hin]. congruence.
Qed.

End ListingFacts.

(** ** Truncated names and the count of a topic *)

(** C9, amended: [sanitize_filename] returns at most 200 characters, each
    the character of the input at that place, or an underscore where the
    input has one of the nine characters of the class, so none of the nine
    is left.  A name of more than 200 characters is cut to its first 200,
    losing the [.pdf] appended by [process_item]: what is saved ends in
    [.pdf] only when the characters 197 to 200 of the unsanitized name read
    [.pdf].  When they do not, and [process_item] returned a success, the
    file is in the output directory under the cut name, which is neither
    among the files counted for the topic nor among the files moved to the
    directory of the job. *)
Theorem truncated_name_not_counted quote_plus repr_container w :
  (∀ s, (String.length (sanitize_filename s) ≤ 200)%nat
        ∧ ∀ i, String.get i (sanitize_filename s)
               = if (i <? 200)%nat
                 then (λ c, if is_hostile c then "_"%char else c)
                        <$> String.get i s
                 else None)
  ∧ (∀ s i c, String.get i (sanitize_filename s) = Some c →
              is_hostile c = false)
  ∧ (∀ name, (200 < String.length name)%nat →
       String.length (sanitize_filename name) = 200%nat
       ∧ (PyStr.endswith (sanitize_filename name) ".pdf" = true
          ↔ substring 196 4 name = ".pdf"))
  ∧ (∀ item email outdir args (fs fs' : filesystem) msg i,
       read_item repr_container item = Returned i →
       (200 < String.length (unsanitized_name repr_container i))%nat →
       substring 196 4 (unsanitized_name repr_container i) ≠ ".pdf" →
       process_item quote_plus repr_container w item email outdir args fs
       = (Returned (true, msg), fs') →
       let fn := sanitize_filename (unsanitized_name repr_container i) in
       is_Some (fs' !! path_join outdir fn)
       ∧ PyStr.endswith fn ".pdf" = false
       ∧ fn ∈ listdir outdir fs'
       ∧ (fn ∉ pdf_files outdir fs')
       ∧ (fn ∉ moved_files outdir fs')).
Proof.
  split; [|split; [|split]].
  - intros s. split; [rewrite sanitize_length; lia|apply sanitize_get].
  - apply sanitize_clean.
  - apply sanitize_long.
  - intros item email outdir args fs fs' msg i Hread Hlong Hcut Hrun fn.
    apply process_item_saved in Hrun as (i' & chunks & Hread' & _ & -> & _).
    rewrite Hread in Hread'. injection Hread' as <-.
    destruct (sanitize_long _ Hlong) as [Hlen Hends]. fold fn in Hlen, Hends.
    assert (PyStr.endswith fn ".pdf" = false) as Hnot.
    { destruct (PyStr.endswith fn ".pdf"); [|done]. destruct Hcut. by apply Hends. }
    assert (is_Some ((<[path_join outdir fn := concat chunks]> fs)
                     !! path_join outdir fn)) as Hfile.
    { rewrite lookup_insert_eq. eauto. }
    split; [done|]. split; [done|]. split.
    + apply listdir_saved; [done| |apply sanitize_no_slash].
      destruct fn; [done|done].
    + split; by apply not_pdf_not_selected.
Qed.

(** A work with a plain title of 200 characters: the file is saved under a
    name without the extension and the topic counts no PDF. *)
Lemma truncated_name_not_counted_witness :
  (saved_by long_title_item).1
  = Returned (true, "Saved: out/unknown -  - " +:+ PyStr.repeat "b" 187)
  ∧ pdf_count "out" (saved_by long_title_item).2 = 0
  ∧ (sanitize_filename (unsanitized_name sample_repr (fields_of long_title_item))
     ∉ pdf_files "out" (saved_by long_title_item).2).
Proof.
  assert ((saved_by long_title_item).1
          = Returned (true, "Saved: out/unknown -  - " +:+ PyStr.repeat "b" 187))
    as Hsaved by (by vm_compute).
  split; [done|]. split; [by vm_compute|].
  assert (saved_by long_title_item
          = (Returned (true, "Saved: out/unknown -  - " +:+ PyStr.repeat "b" 187),
             (saved_by long_title_item).2)) as Hrun.
  { rewrite <- Hsaved. by destruct (saved_by long_title_item). }
  unfold saved_by in Hrun at 1.
  assert (read_item sample_repr long_title_item
          = Returned (fields_of long_title_item)) as Hread by (by vm_compute).
  assert (200 < String.length
                  (unsanitized_name sample_repr (fields_of long_title_item)))%nat
    as Hlong by (apply Nat.ltb_lt; by vm_compute).
  assert (substring 196 4
            (unsanitized_name sample_repr (fields_of long_title_item)) ≠ ".pdf")
    as Hcut by (apply String.eqb_neq; by vm_compute).
  destruct (proj2 (proj2 (proj2
    (truncated_name_not_counted (λ s, s) sample_repr
       (env_with [sample_pdf] StreamComplete)))) _ _ _ _ _ _ _ _
    Hread Hlong Hcut Hrun) as (_ & _ & _ & Hpdf & _).
  exact Hpdf.
Defined.

(** C9 as stated fails: the name of this work has more than 200 characters,
    yet the name cut at 200 ends in [.pdf], because the title has [.pdf] at
    that place; the file is saved and counted. *)
Lemma truncated_name_ends_in_pdf :
  (200 < String.length
           (unsanitized_name sample_repr (fields_of pdf_title_item)))%nat
  ∧ PyStr.endswith
      (sanitize_filename (unsanitized_name sample_repr (fields_of pdf_title_item)))
      ".pdf" = true
  ∧ (saved_by pdf_title_item).1
    = Returned (true, "Saved: out/unknown -  - " +:+ PyStr.repeat "a" 183
                        +:+ ".pdf")
  ∧ pdf_count "out" (saved_by pdf_title_item).2 = 1.
Proof.
  split; [apply Nat.ltb_lt; by vm_compute|].
  split; [by vm_compute|]. split; by vm_compute.
Qed.

(** ** How far the count can pass the target *)

Section OvershootFacts.

Variable sv : services.
Variable args : arguments.

Lemma submit_items_room items st :
  Z.of_nat (length (futures st)) ≤ arg_max args - downloaded st + 10 →
  Z.of_nat (length (futures (submit_items args items st).2))
  ≤ arg_max args - downloaded st + 10.
Proof.
  revert st; induction items as [|item items IH]; intros st Hroom; simpl;
    [done|].
  destruct (Z.geb_spec (Z.of_nat (length (futures st)))
              (arg_max args - downloaded st + 10)); [done|].
  destruct (Py.get item "DOI" JNull) as [doi|e]; [|done].
  destruct (Py.truthy doi); simpl; [|by apply IH].
  destruct (hash_key doi) as [k|e]; [|done].
  destruct (bool_decide (k ∈ seen_dois st)); [by apply IH|].
  apply (IH (submit item doi k st)). simpl. rewrite length_app. simpl. lia.
Qed.

Lemma drain_bound remaining n :
  n ≤ drain sv remaining n ≤ n + Z.of_nat (length remaining).
Proof.
  revert n; induction remaining as [|[f doi] remaining IH]; intros n; simpl;
    [lia|].
  destruct (future_result sv f) as [[]| |];
    [specialize (IH (n + 1))|specialize (IH n)..]; lia.
Qed.

(** The collection over a copy of the list of futures: every turn takes the
    head off the list and counts at most one success. *)
Lemma collect_budget pending st :
  futures st = pending →
  (futures (collect sv args pending st) = []
   ∨ arg_max args ≤ downloaded (collect sv args pending st))
  ∧ downloaded st ≤ downloaded (collect sv args pending st)
  ∧ downloaded (collect sv args pending st)
    + Z.of_nat (length (futures (collect sv args pending st)))
    ≤ downloaded st + Z.of_nat (length (futures st)).
Proof.
  revert st; induction pending as [|[f doi] pending IH]; intros st Hf.
  { cbn [collect]. rewrite Hf. split; [by left|lia]. }
  cbn [collect].
  assert (futures (settle sv f st) = pending) as Hrest.
  { simpl. rewrite Hf. simpl. by rewrite Z.eqb_refl. }
  assert (downloaded st ≤ downloaded (settle sv f st) ≤ downloaded st + 1)
    as Hcount.
  { simpl. destruct (future_result sv f) as [[]| |]; lia. }
  set (st1 := settle sv f st) in *.
  destruct (Z.geb_spec (downloaded st1) (arg_max args)).
  - rewrite Hrest, Hf. cbn [length]. split; [by right|]. lia.
  - destruct (IH _ Hrest) as (Hend & Hle & Hsum).
    split; [done|]. rewrite Hrest in Hsum. rewrite Hf. cbn [length]. lia.
Qed.

Lemma while_loop_pending fuel st st' :
  while_loop sv args fuel st = Some (Returned (), st') →
  pending_invariant args st → pending_invariant args st'.
Proof.
  revert st; induction fuel as [|fuel IH]; intros st Hrun Hinv.
  - destruct (loop_condition args st) eqn:Hcond.
    + cbn in Hrun. by rewrite Hcond in Hrun.
    + rewrite while_loop_done in Hrun by done. by simplify_eq.
  - destruct (loop_condition args st) eqn:Hcond.
    2:{ rewrite while_loop_done in Hrun by done. by simplify_eq. }
    revert Hrun. cbn [while_loop]. rewrite Hcond.
    change (offset (note_search st)) with (offset st).
    set (resp := query_crossref _ _ _ _ _ _ _).
    destruct (Py.truthy resp); cbn [negb]; [|by intros [= <-]].
    destruct (Py.get resp "message" (JDict [])) as [message|e];
      cbn [mbind py_result_bind]; [|done].
    destruct (Py.get message "items" (JList [])) as [items|e];
      cbn [mbind py_result_bind]; [|done].
    destruct (Py.truthy items); cbn [negb]; [|by intros [= <-]].
    destruct (Py.iter items) as [l|e]; [|done].
    apply loop_condition_true in Hcond as (Hless & _ & _).
    destruct Hinv as ([Hnone|Hmet] & Hpos & Hsum); [|lia].
    pose proof (submit_items_room l (note_search st)) as Hroom.
    pose proof (submit_items_frame args l (note_search st)) as (_ & Hd & _).
    destruct (submit_items args l (note_search st)) as [[[]|e] st1]; [|done].
    simpl in Hroom, Hd. rewrite Hnone in Hroom.
    specialize (Hroom ltac:(simpl; lia)).
    intros Hrun. apply IH in Hrun; [done|].
    destruct (collect_budget (futures (next_page st1)) (next_page st1) eq_refl)
      as (Hend & Hle & Hsum').
    change (futures (next_page st1)) with (futures st1) in *.
    change (downloaded (next_page st1)) with (downloaded st1) in *.
    split; [done|]. lia.
Qed.

End OvershootFacts.

(** X1: whenever [main] ends with its summary, the count it reports is not
    negative and passes the target by at most ten, the size of the buffer
    of the submission loop. *)
Theorem reported_within_buffer sv fuel args reported warning st :
  main sv fuel args = Some (Finished reported warning, st) →
  0 ≤ reported ≤ arg_max args + 10.
Proof.
  unfold main.
  destruct (_ || _); [done|].
  destruct (os_makedirs _ _); [|done].
  unfold ThreadPoolExecutor.
  destruct (Z.leb_spec (Z.min (arg_max args) 5) 0); [done|].
  destruct (while_loop sv args fuel initial) as [[[[]|e] st1]|] eqn:Hloop;
    [|done..].
  intros [= <- _ <-].
  apply while_loop_pending in Hloop as (_ & Hpos & Hsum).
  - pose proof (drain_bound sv (futures st1) (downloaded st1)). lia.
  - split; [by left|]. simpl. lia.
Qed.

(** The bound is met: a request for one PDF and a page of twelve works that
    all download ends with eleven reported. *)
Lemma reported_within_buffer_witness :
  fst <$> flooded_run = Some (Finished 11 false)
  ∧ 0 ≤ 11 ≤ arg_max (args_with_max 1) + 10.
Proof.
  split; [by vm_compute|].
  apply (reported_within_buffer
           (one_page_services twelve_items (FutReturned true "Saved")) 5
           (args_with_max 1) 11 false (final_state flooded_run)).
  vm_compute. reflexivity.
Defined.

(** ** What one item does to the file system *)

(** X2: [process_item] changes the file system at most at the destination
    path it computes from the item: every other path keeps its file. *)
Theorem process_item_frame
    quote_plus repr_container w item email outdir args (fs fs' : filesystem) r :
  process_item quote_plus repr_container w item email outdir args fs = (r, fs') →
  fs' = fs
  ∨ ∃ i, read_item repr_container item = Returned i
         ∧ ∀ p, p ≠ path_join outdir
                      (sanitize_filename (unsanitized_name repr_container i)) →
                fs' !! p = fs !! p.
Proof.
  unfold process_item.
  destruct (process_item_try _ _ _ _ _ _ _ _) as [r1 fs1] eqn:Htry.
  intros Hrun.
  assert (fs1 = fs') as <- by (by destruct r1; simplify_eq).
  apply process_item_try_cases in Htry
    as [[-> _]|(i & url & [[] msg] & Hread & _ & _ & Hfetch & _)];
    [by left|right; exists i; split; [done|]..].
  - apply fetch_and_validate_true in Hfetch as (chunks & _ & -> & _).
    intros p Hp. by rewrite lookup_insert_ne.
  - by apply fetch_and_validate_false in Hfetch as [_ ?].
Qed.

Lemma process_item_frame_witness :
  (saved_by sample_item).2 = ∅
  ∨ ∃ i, read_item sample_repr sample_item = Returned i
         ∧ ∀ p, p ≠ path_join "out"
                      (sanitize_filename (unsanitized_name sample_repr i)) →
                (saved_by sample_item).2 !! p = (∅ : filesystem) !! p.
Proof.
  apply (process_item_frame (λ s, s) sample_repr
           (env_with [sample_pdf] StreamComplete) sample_item
           "reader@example.org" "out" sample_args ∅ (saved_by sample_item).2
           (saved_by sample_item).1).
  unfold saved_by. by destruct (process_item _ _ _ _ _ _ _ _).
Defined.

(** X3: a fetch that fails removes whatever file was at the destination
    before it, also the file an earlier work saved under the same name. *)
Theorem failed_fetch_removes_earlier_file
    repr_container w url dest (fs fs' : filesystem) earlier msg :
  fs !! dest = Some earlier →
  fetch_and_validate repr_container w url dest fs = ((false, msg), fs') →
  fs' !! dest = None ∧ fs' = delete dest fs.
Proof.
  intros Hold Hfetch.
  apply fetch_and_validate_false in Hfetch as [Hgone Hframe].
  split; [done|]. apply map_eq. intros p.
  destruct (decide (p = dest)) as [->|Hne].
  - by rewrite lookup_delete_eq.
  - rewrite lookup_delete_ne by done. by apply Hframe.
Qed.

(** A valid PDF is at the destination; a second work of the same name
    answers with 600 bytes: the earlier file is gone. *)
Lemma failed_fetch_removes_earlier_file_witness :
  (∅ : filesystem) !! sample_dest = None
  ∧ (∅ : filesystem) = delete sample_dest fs_with_earlier.
Proof.
  apply (failed_fetch_removes_earlier_file sample_repr
           (env_with [short_pdf] StreamComplete)
           (JStr "https://example.org/paper.pdf") sample_dest
           fs_with_earlier ∅ sample_pdf
           "Failed to download PDF from: https://example.org/paper.pdf").
  - by vm_compute.
  - vm_compute. reflexivity.
Defined.

(** ** Runs of the definitions *)

Example resolver_returns_landing_page :
  get_pdf_url_from_unpaywall (λ s, s) (lookup_env (Returned landing_page_lookup))
    (JStr "10.1000/x") "reader@example.org"
  = Returned (JStr "https://example.org/landing").
Proof. reflexivity. Qed.

Example resolver_falls_back_to_listed_location :
  get_pdf_url_from_unpaywall (λ s, s)
    (lookup_env (Returned second_location_lookup))
    (JStr "10.1000/x") "reader@example.org"
  = Returned (JStr "https://mirror.example.org/b.pdf").
Proof. reflexivity. Qed.

Example resolver_swallows_lookup_error :
  get_pdf_url_from_unpaywall (λ s, s)
    (lookup_env (Raised (Exn RequestException "404 Client Error")))
    (JStr "10.1000/x") "reader@example.org"
  = Returned JNull.
Proof. reflexivity. Qed.

Example resolver_swallows_malformed_body :
  get_pdf_url_from_unpaywall (λ s, s) (lookup_env (Returned (JList [JNum 1])))
    (JStr "10.1000/x") "reader@example.org"
  = Returned JNull.
Proof. reflexivity. Qed.

Example resolver_raises_on_numeric_doi :
  get_pdf_url_from_unpaywall (λ s, s) (lookup_env (Returned sample_lookup))
    (JNum 5) "reader@example.org"
  = Raised (Exn TypeError "quote_from_bytes() expected bytes").
Proof. reflexivity. Qed.

Example short_body_is_rejected :
  process_item (λ s, s) sample_repr (env_with [short_pdf] StreamComplete)
    sample_item "reader@example.org" "out" sample_args ∅
  = (Returned (false, "Failed to download PDF from: https://example.org/paper.pdf"),
     ∅).
Proof. by vm_compute. Qed.

Example html_body_is_rejected :
  process_item (λ s, s) sample_repr (env_with [sample_html] StreamComplete)
    sample_item "reader@example.org" "out" sample_args ∅
  = (Returned (false,
       "Downloaded file is not a valid PDF from: https://example.org/paper.pdf"),
     ∅).
Proof. by vm_compute. Qed.

Example numeric_doi_is_reported :
  (process_item (λ s, s) sample_repr (env_with [sample_pdf] StreamComplete)
     numeric_doi_item "reader@example.org" "out" sample_args ∅).1
  = Returned (false, "Error processing item: quote_from_bytes() expected bytes").
Proof. by vm_compute. Qed.

Example shortfall_is_reported :
  fst <$> main three_good_services 10 (args_with_max 10)
  = Some (Finished 3 true).
Proof. by vm_compute. Qed.

Example target_met_without_warning :
  fst <$> main (one_page_services two_items (FutReturned true "Saved")) 10
            (args_with_max 2)
  = Some (Finished 2 false).
Proof. by vm_compute. Qed.

Example invalid_email_returns :
  main three_good_services 10
    (Arguments "open access" "reader.example.org" 10 "out"
               "2024-01-01" "2025-12-31" false)
  = Some (InvalidEmail, initial).
Proof. reflexivity. Qed.
(** ** The error monad *)

Lemma bind_returned {A B} (m : py_result A) (k : A → py_result B) b :
  m ≫= k = Returned b → ∃ a, m = Returned a ∧ k a = Returned b.
Proof. destruct m as [a|e]; [eauto|done]. Qed.


(** ** Reasoning about the loop of [main] by a head invariant *)

Section LoopInduction.

Variable sv : services.
Variable args : arguments.

Lemma get_raises v k d e :
  Py.get v k d = Raised e → exn_class e = AttributeError.
Proof. destruct v; simpl; by intros [= <-]. Qed.

Lemma iter_raises v e :
  Py.iter v = Raised e → exn_class e = TypeError.
Proof. destruct v; simpl; by intros [= <-]. Qed.

Lemma hash_key_raises v e :
  hash_key v = Raised e → exn_class e = TypeError.
Proof. destruct v; simpl; by intros [= <-]. Qed.

Lemma submit_items_raises items st e st' :
  submit_items args items st = (Raised e, st') → lookup_error e.
Proof.
  revert st; induction items as [|item items IH]; intros st; simpl; [done|].
  destruct (_ >=? _); [done|].
  destruct (Py.get item "DOI" JNull) as [doi|e'] eqn:Hget.
  2:{ intros [= <- <-]. left. by apply get_raises in Hget. }
  destruct (Py.truthy doi); simpl; [|apply IH].
  destruct (hash_key doi) as [k|e'] eqn:Hkey.
  2:{ intros [= <- <-]. right. by apply hash_key_raises in Hkey. }
  destruct (bool_decide (k ∈ seen_dois st)); apply IH.
Qed.

(** A property [P] of the result of the loop follows from an invariant [H]
    of the head of the loop, when [P] holds where the loop is left and [H]
    holds again after the collection of a turn. *)
Lemma while_loop_ind (H : sched → Prop) (P : py_result () → sched → Prop) :
  (∀ st, H st → loop_condition args st = false → P (Returned ()) st) →
  (∀ st items, H st → loop_condition args st = true →
     (∀ r, early_exit r → P r (note_search st))
     ∧ (∀ e st1, submit_items args items (note_search st) = (Raised e, st1) →
                 P (Raised e) st1)
     ∧ (∀ st1, submit_items args items (note_search st) = (Returned (), st1) →
               H (collect sv args (futures (next_page st1)) (next_page st1)))) →
  ∀ fuel st r st',
    while_loop sv args fuel st = Some (r, st') → H st → P r st'.
Proof.
  intros Hexit Hturn. induction fuel as [|fuel IH]; intros st r st' Hrun Hst.
  - destruct (loop_condition args st) eqn:Hcond.
    + cbn in Hrun. by rewrite Hcond in Hrun.
    + rewrite while_loop_done in Hrun by done. simplify_eq. by apply Hexit.
  - destruct (loop_condition args st) eqn:Hcond.
    2:{ rewrite while_loop_done in Hrun by done. simplify_eq. by apply Hexit. }
    revert Hrun. cbn [while_loop]. rewrite Hcond.
    change (offset (note_search st)) with (offset st).
    set (resp := query_crossref _ _ _ _ _ _ _).
    assert (∀ r, early_exit r → P r (note_search st)) as Hearly.
    { intros r0. by apply (Hturn st [] Hst Hcond). }
    destruct (Py.truthy resp); cbn [negb];
      [|intros [= <- <-]; by apply Hearly].
    destruct (Py.get resp "message" (JDict [])) as [message|e] eqn:Hm;
      cbn [mbind py_result_bind].
    2:{ intros [= <- <-]. apply Hearly. left. by apply get_raises in Hm. }
    destruct (Py.get message "items" (JList [])) as [items|e] eqn:Hi;
      cbn [mbind py_result_bind].
    2:{ intros [= <- <-]. apply Hearly. left. by apply get_raises in Hi. }
    destruct (Py.truthy items); cbn [negb];
      [|intros [= <- <-]; by apply Hearly].
    destruct (Py.iter items) as [l|e] eqn:Hl.
    2:{ intros [= <- <-]. apply Hearly. right. by apply iter_raises in Hl. }
    destruct (Hturn st l Hst Hcond) as (_ & Hraise & Hnext).
    destruct (submit_items args l (note_search st)) as [[[]|e] st1] eqn:Hsub.
    + intros Hrun. apply (IH _ _ _ Hrun). by apply Hnext.
    + intros [= <- <-]. by apply Hraise.
Qed.

End LoopInduction.

Section MainCases.

Variable sv : services.
Variable args : arguments.

(** The ways [main] ends. *)
Lemma main_cases fuel r st :
  main sv fuel args = Some (r, st) →
  (r = InvalidEmail ∧ st = initial)
  ∨ (∃ e, os_makedirs sv (arg_outdir args) = Raised e
          ∧ r = Uncaught e ∧ st = initial)
  ∨ (r = Uncaught (Exn ValueError "max_workers must be greater than 0")
     ∧ st = initial ∧ arg_max args ≤ 0)
  ∨ (1 ≤ arg_max args
     ∧ ∃ lr, while_loop sv args fuel initial = Some (lr, st)
             ∧ match lr with
               | Raised e => r = Uncaught e
               | Returned _ =>
                   r = Finished (drain sv (futures st) (downloaded st))
                         (drain sv (futures st) (downloaded st) <? arg_max args)
               end).
Proof.
  unfold main, ThreadPoolExecutor.
  destruct (_ || _); [intros [= <- <-]; by left|].
  destruct (os_makedirs sv (arg_outdir args)) as [[]|e0].
  2:{ intros [= <- <-]. right; left. by exists e0. }
  destruct (Z.leb_spec (Z.min (arg_max args) 5) 0).
  { intros [= <- <-]. right; right; left. split; [done|]. split; [done|lia]. }
  destruct (while_loop sv args fuel initial) as [[lr st1]|] eqn:Hloop; [|done].
  intros Hrun. right; right; right. split; [lia|]. exists lr.
  destruct lr as [[]|e]; by simplify_eq.
Qed.

Lemma successes_app l1 l2 :
  successes sv (l1 ++ l2) = successes sv l1 + successes sv l2.
Proof. unfold successes. rewrite List.filter_app, length_app. lia. Qed.

Lemma successes_cons fd l :
  successes sv (fd :: l)
  = (if succeeded sv fd then 1 else 0) + successes sv l.
Proof.
  unfold successes. cbn [List.filter].
  destruct (succeeded sv fd); cbn [length]; lia.
Qed.

Lemma drain_successes remaining n :
  drain sv remaining n = n + successes sv remaining.
Proof.
  revert n; induction remaining as [|[f doi] remaining IH]; intros n.
  { unfold successes; simpl. lia. }
  rewrite successes_cons. unfold succeeded. cbn [drain fst].
  destruct (future_result sv f) as [[]| |]; rewrite IH; lia.
Qed.

Lemma submit_items_tally items st :
  downloaded st + successes sv (futures st) = successes sv (submitted st) →
  downloaded (submit_items args items st).2
  + successes sv (futures (submit_items args items st).2)
  = successes sv (submitted (submit_items args items st).2).
Proof.
  revert st; induction items as [|item items IH]; intros st Hst; simpl;
    [done|].
  destruct (_ >=? _); [done|].
  destruct (Py.get item "DOI" JNull) as [doi|e]; [|done].
  destruct (Py.truthy doi); simpl; [|by apply IH].
  destruct (hash_key doi) as [k|e]; [|done].
  destruct (bool_decide (k ∈ seen_dois st)); [by apply IH|].
  apply IH. cbn [submit downloaded futures submitted].
  rewrite successes_app, !successes_cons.
  change (successes sv []) with 0. lia.
Qed.

Lemma collect_tally pending st :
  futures st = pending →
  downloaded st + successes sv (futures st) = successes sv (submitted st) →
  downloaded (collect sv args pending st)
  + successes sv (futures (collect sv args pending st))
  = successes sv (submitted (collect sv args pending st)).
Proof.
  revert st; induction pending as [|[f doi] pending IH]; intros st Hf Hst;
    [done|].
  cbn [collect].
  assert (futures (settle sv f st) = pending) as Hrest.
  { simpl. rewrite Hf. simpl. by rewrite Z.eqb_refl. }
  assert (downloaded (settle sv f st) + successes sv (futures (settle sv f st))
          = successes sv (submitted (settle sv f st))) as Hnext.
  { rewrite Hrest. rewrite Hf, successes_cons in Hst.
    unfold succeeded in Hst. cbn [fst] in Hst. simpl.
    destruct (future_result sv f) as [[]| |]; lia. }
  destruct (_ >=? _); [done|]. by apply IH.
Qed.

Lemma while_loop_tally fuel r st :
  while_loop sv args fuel initial = Some (r, st) →
  downloaded st + successes sv (futures st) = successes sv (submitted st).
Proof.
  intros Hrun.
  refine (while_loop_ind sv args
            (λ st, downloaded st + successes sv (futures st)
                   = successes sv (submitted st))
            (λ _ st, downloaded st + successes sv (futures st)
                     = successes sv (submitted st))
            _ _ fuel initial r st Hrun _); [done| |done].
  intros st0 items Hst _. split; [done|].
  pose proof (submit_items_tally items (note_search st0) Hst) as Hsub.
  split.
  - intros e st1 Heq. by rewrite Heq in Hsub.
  - intros st1 Heq. rewrite Heq in Hsub. by apply collect_tally.
Qed.

End MainCases.

(** ** The count reported and the items that succeeded *)

(** X4: when [main] ends with its summary, the count it reports is the
    number of submitted items whose processing returned a success: every
    future submitted is awaited once, in the collection of its turn or in
    the last loop. *)
Theorem reported_counts_successes sv fuel args reported warning st :
  main sv fuel args = Some (Finished reported warning, st) →
  reported = successes sv (submitted st)
  ∧ warning = (successes sv (submitted st) <? arg_max args).
Proof.
  intros Hrun. apply main_cases in Hrun
    as [[? _]|[(? & _ & ? & _)|[[? _]|(_ & lr & Hloop & Hr)]]]; [done..|].
  destruct lr as [[]|e]; [|done].
  apply while_loop_tally in Hloop. rewrite drain_successes in Hr.
  rewrite Hloop in Hr. by injection Hr as -> ->.
Qed.

(** Five works submitted, three of them download: three are reported. *)
Lemma reported_counts_successes_witness :
  length (submitted (final_state (main three_good_services 10 (args_with_max 10))))
  = 5%nat
  ∧ 3 = successes three_good_services
          (submitted (final_state (main three_good_services 10 (args_with_max 10)))).
Proof.
  split; [by vm_compute|].
  apply (reported_counts_successes three_good_services 10 (args_with_max 10)
           3 true
           (final_state (main three_good_services 10 (args_with_max 10)))).
  vm_compute. reflexivity.
Defined.

(** ** Pagination *)

Section PageFacts.

Variable sv : services.
Variable args : arguments.

Lemma page_offsets_S n :
  page_offsets (S n) = per_page * Z.of_nat n :: page_offsets n.
Proof.
  unfold page_offsets. rewrite seq_S, rev_app_distr. reflexivity.
Qed.

Lemma while_loop_pages fuel r st :
  while_loop sv args fuel initial = Some (r, st) →
  (searches st).*1 = page_offsets (length (searches st)).
Proof.
  intros Hrun.
  refine (while_loop_ind sv args
            (λ st, offset st = per_page * Z.of_nat (length (searches st))
                   ∧ (searches st).*1 = page_offsets (length (searches st)))
            (λ _ st, (searches st).*1 = page_offsets (length (searches st)))
            _ _ fuel initial r st Hrun _); [by intros st0 [_ ?]| |done].
  intros st0 items [Hoff Hpages] _.
  assert ((searches (note_search st0)).*1
          = page_offsets (length (searches (note_search st0)))) as Hnoted.
  { cbn [note_search searches length fmap list_fmap fst].
    rewrite page_offsets_S. rewrite <- Hoff. f_equal. exact Hpages. }
  destruct (submit_items_frame args items (note_search st0)) as (Ho & _ & Hs).
  split; [done|]. split.
  - intros e st1 Heq. rewrite Heq in Hs. simpl in Hs. by rewrite Hs.
  - intros st1 Heq. rewrite Heq in Ho, Hs. simpl in Ho, Hs.
    destruct (collect_frame sv args (futures (next_page st1)) (next_page st1))
      as (Ho' & _ & _ & Hs' & _).
    rewrite Ho', Hs'. cbn [next_page offset searches]. rewrite Ho, Hs.
    split; [|done]. cbn [note_search searches length]. rewrite Hoff.
    unfold per_page. lia.
Qed.

End PageFacts.

(** X5: the searches of a run ask for the offsets 0, 20, 40, ... in this
    order, no page skipped and none asked twice; with a target of [max]
    there are at most (3 max + 3) / 4 of them. *)
Theorem searches_page_through sv fuel args r st :
  main sv fuel args = Some (r, st) →
  (searches st).*1 = page_offsets (length (searches st))
  ∧ (searches st = []
     ∨ 4 * Z.of_nat (length (searches st)) ≤ 3 * arg_max args + 3).
Proof.
  intros Hrun.
  pose proof (main_invariant _ _ _ _ _ Hrun) as [_ [_ Hbound]].
  assert ((searches st).*1 = page_offsets (length (searches st))) as Hpages.
  { apply main_cases in Hrun
      as [[_ ->]|[(? & _ & _ & ->)|[(_ & -> & _)|(_ & lr & Hloop & _)]]];
      [done..|].
    by apply while_loop_pages in Hloop. }
  split; [done|].
  destruct (searches st) as [|[off att] l]; [by left|right].
  cbn [length fmap list_fmap fst] in Hpages.
  rewrite page_offsets_S in Hpages. injection Hpages as Hoff _.
  apply Forall_cons in Hbound as [[[_ Hlt] _] _].
  cbn [fst length] in *. unfold max_attempts, per_page in *. lia.
Qed.

(** A run with a target of 4 that never finds a second work asks for the
    pages at 0, 20 and 40. *)
Lemma searches_page_through_witness :
  (searches (final_state stalled_run)).*1 = [40; 20; 0]
  ∧ (searches (final_state stalled_run)).*1
    = page_offsets (length (searches (final_state stalled_run))).
Proof.
  split; [by vm_compute|].
  apply (searches_page_through same_page_services 10 (args_with_max 4)
           (Finished 0 true) (final_state stalled_run)).
  vm_compute. reflexivity.
Defined.

(** ** How many items are submitted *)

Section SubmissionFacts.

Variable sv : services.
Variable args : arguments.

Lemma submit_items_count items st :
  attempts (submit_items args items st).2
  - Z.of_nat (length (futures (submit_items args items st).2))
  = attempts st - Z.of_nat (length (futures st))
  ∧ attempts (submit_items args items st).2
    - Z.of_nat (length (submitted (submit_items args items st).2))
    = attempts st - Z.of_nat (length (submitted st)).
Proof.
  revert st; induction items as [|item items IH]; intros st; simpl; [done|].
  destruct (_ >=? _); [done|].
  destruct (Py.get item "DOI" JNull) as [doi|e]; [|done].
  destruct (Py.truthy doi); simpl; [|apply IH].
  destruct (hash_key doi) as [k|e]; [|done].
  destruct (bool_decide (k ∈ seen_dois st)); [apply IH|].
  destruct (IH (submit item doi k st)) as [-> ->].
  cbn [submit attempts futures submitted]. rewrite length_app. simpl. lia.
Qed.

Lemma while_loop_submissions fuel r st :
  1 ≤ arg_max args →
  while_loop sv args fuel initial = Some (r, st) →
  attempts st = Z.of_nat (length (submitted st))
  ∧ attempts st ≤ 4 * arg_max args + 9.
Proof.
  intros Hmax Hrun.
  refine (while_loop_ind sv args
            (λ st, (attempts st = Z.of_nat (length (submitted st))
                    ∧ attempts st ≤ 4 * arg_max args + 9)
                   ∧ 0 ≤ downloaded st
                   ∧ (futures st = [] ∨ arg_max args ≤ downloaded st))
            (λ _ st, attempts st = Z.of_nat (length (submitted st))
                     ∧ attempts st ≤ 4 * arg_max args + 9)
            _ _ fuel initial r st Hrun _).
  - by intros st0 [? _].
  - intros st0 items ((Hatt & Hle) & Hpos & Hnone) Hcond.
    apply loop_condition_true in Hcond as (Hless & Hroom & _).
    destruct Hnone as [Hnone|?]; [|lia].
    split; [done|].
    destruct (submit_items_count items (note_search st0)) as [Hf Hs].
    destruct (submit_items_frame args items (note_search st0)) as (_ & Hd & _).
    pose proof (submit_items_room args items (note_search st0)) as Hbuf.
    cbn [note_search futures attempts submitted downloaded] in Hf, Hs, Hd, Hbuf.
    rewrite Hnone in Hf, Hbuf. cbn [length] in Hf, Hbuf.
    specialize (Hbuf ltac:(lia)). unfold max_attempts in Hroom.
    split.
    + intros e st1 Heq. rewrite Heq in Hf, Hs, Hbuf. simpl in Hf, Hs, Hbuf. lia.
    + intros st1 Heq. rewrite Heq in Hf, Hs, Hd, Hbuf.
      simpl in Hf, Hs, Hd, Hbuf.
      destruct (collect_frame sv args (futures (next_page st1)) (next_page st1))
        as (_ & _ & Ha & _ & Hsub).
      destruct (collect_budget sv args (futures (next_page st1)) (next_page st1)
                  eq_refl) as (Hend & Hge & _).
      rewrite Ha, Hsub.
      change (downloaded (next_page st1)) with (downloaded st1) in Hge.
      cbn [next_page attempts submitted]. split; [lia|]. split; [lia|done].
  - simpl. split; [lia|]. split; [lia|by left].
Qed.

End SubmissionFacts.

(** X6: in every run [attempts] is the number of items submitted to the
    pool, and with a target of [max] at most 4 max + 9 items are ever
    submitted: fewer than 3 max before the last turn, and in that turn at
    most the target and the buffer of ten. *)
Theorem submissions_bounded sv fuel args r st :
  main sv fuel args = Some (r, st) →
  attempts st = Z.of_nat (length (submitted st))
  ∧ (submitted st = []
     ∨ Z.of_nat (length (submitted st)) ≤ 4 * arg_max args + 9).
Proof.
  intros Hrun. apply main_cases in Hrun
    as [[_ ->]|[(? & _ & _ & ->)|[(_ & -> & _)|(Hmax & lr & Hloop & _)]]];
    [split; [done|by left]..|].
  destruct (while_loop_submissions sv args _ _ _ Hmax Hloop) as [Heq Hle].
  split; [done|]. right. lia.
Qed.

(** A target of one and a page of twelve works: eleven are submitted. *)
Lemma submissions_bounded_witness :
  attempts (final_state flooded_run) = 11
  ∧ attempts (final_state flooded_run)
    = Z.of_nat (length (submitted (final_state flooded_run))).
Proof.
  split; [by vm_compute|].
  apply (submissions_bounded
           (one_page_services twelve_items (FutReturned true "Saved")) 5
           (args_with_max 1) (Finished 11 false) (final_state flooded_run)).
  vm_compute. reflexivity.
Defined.

(** ** A search that fails, and the exceptions of a run *)

(** X7: when the output directory can be made and the first search finds
    nothing (the request to Crossref fails, its body is empty, or the page
    lists no items, as when no work matches), the run is not an error:
    [main] issues that one search, submits nothing and ends with the
    summary of zero downloads and the shortfall warning. *)
Theorem failed_search_reports_shortfall sv fuel args :
  PyStr.truthy (arg_email args) = true →
  PyStr.contains_char "@" (arg_email args) = true →
  1 ≤ arg_max args →
  os_makedirs sv (arg_outdir args) = Returned () →
  empty_page (query_crossref sv (arg_keywords args) (arg_start_date args)
                (arg_end_date args) per_page 0 (arg_filter_publishers args)) →
  main sv (S fuel) args = Some (Finished 0 true, note_search initial)
  ∧ searches (note_search initial) = [(0, 0)]
  ∧ submitted (note_search initial) = [].
Proof.
  intros Hemail Hat Hmax Hdir Hresp. split; [|done].
  unfold main, ThreadPoolExecutor. rewrite Hemail, Hat, Hdir. cbn [negb orb].
  destruct (Z.leb_spec (Z.min (arg_max args) 5) 0); [lia|].
  cbn [while_loop].
  assert (loop_condition args initial = true) as ->.
  { apply loop_condition_true. unfold max_attempts. simpl. lia. }
  change (offset (note_search initial)) with 0.
  assert (drain sv (futures (note_search initial))
            (downloaded (note_search initial)) = 0) as Hdrain by done.
  assert ((0 <? arg_max args) = true) as Hshort by (apply Z.ltb_lt; lia).
  destruct Hresp as [Hresp|(items & Hitems & Hnone)].
  - rewrite Hresp. cbn [negb]. cbv zeta. by rewrite Hdrain, Hshort.
  - destruct (Py.truthy (query_crossref _ _ _ _ _ _ _)); cbn [negb].
    + unfold page_items in Hitems. rewrite Hitems, Hnone. cbn [negb].
      cbv zeta. by rewrite Hdrain, Hshort.
    + cbv zeta. by rewrite Hdrain, Hshort.
Qed.

(** A page without items, the answer when no work matches. *)
Lemma failed_search_reports_shortfall_witness :
  main empty_page_services 1 (args_with_max 20)
  = Some (Finished 0 true, note_search initial)
  ∧ searches (note_search initial) = [(0, 0)]
  ∧ submitted (note_search initial) = [].
Proof.
  apply (failed_search_reports_shortfall empty_page_services 0
           (args_with_max 20));
    [reflexivity|reflexivity|simpl; lia|reflexivity|].
  right. exists (JList []). split; reflexivity.
Defined.

(** A request that fails ends the run the same way. *)
Example failed_request_reports_shortfall :
  main failing_services 1 (args_with_max 20)
  = Some (Finished 0 true, note_search initial).
Proof. by vm_compute. Qed.

Section UncaughtFacts.

Variable sv : services.
Variable args : arguments.

Lemma while_loop_raises fuel e st :
  while_loop sv args fuel initial = Some (Raised e, st) → lookup_error e.
Proof.
  intros Hrun.
  refine (while_loop_ind sv args (λ _, True) (λ r _, early_exit r)
            _ _ fuel initial (Raised e) st Hrun I); [done|].
  intros st0 items _ _. split; [done|]. split; [|done].
  intros e0 st1 Heq. by apply submit_items_raises in Heq.
Qed.

End UncaughtFacts.

Section RunFacts.

Variable repr_container : json → string.
Variable mkdtemp : string → py_result string.
Variable dash_value : string → bool.

Lemma parse_args_arguments keywords email max outdir a :
  parse_args dash_value keywords email max outdir = Returned a →
  a = Arguments keywords email max outdir "2024-01-01" "2025-12-31" false
  ∧ takes_value dash_value keywords = true
  ∧ takes_value dash_value email = true
  ∧ takes_value dash_value outdir = true.
Proof.
  unfold parse_args.
  destruct (takes_value dash_value keywords); [|done].
  destruct (takes_value dash_value email); [|done].
  destruct (takes_value dash_value outdir); [|done].
  by intros [= <-].
Qed.

(** A run that is started has the target of its topic, its keywords and
    email, and the directory made for it. *)
Lemma topic_run_arguments email per_topic topic keywords a :
  topic_run repr_container mkdtemp dash_value email per_topic topic keywords
  = Returned a →
  ∃ temp_dir,
    mkdtemp ("topic_" +:+ topic +:+ "_") = Returned temp_dir
    ∧ a = topic_arguments repr_container (λ _, temp_dir) email per_topic
            topic keywords.
Proof.
  unfold topic_run.
  intros (temp_dir & Hdir & (-> & _)%parse_args_arguments)%bind_returned.
  by exists temp_dir.
Qed.

Lemma job_runs_targets description email max_pdfs topics_keywords topic a :
  (topic, Returned a)
  ∈ job_runs repr_container mkdtemp dash_value description email max_pdfs
      topics_keywords →
  arg_max a
  = max_pdfs_per_topic max_pdfs (job_topics description topics_keywords)
  ∧ 5 ≤ arg_max a.
Proof.
  unfold job_runs.
  intros ([t k] & [= <- Hrun] & _)%list_elem_of_fmap.
  symmetry in Hrun. apply topic_run_arguments in Hrun as (temp_dir & _ & ->).
  cbn [topic_arguments arg_max]. split; [done|].
  unfold max_pdfs_per_topic. lia.
Qed.

End RunFacts.

(** X8: an exception that leaves [main] is that of the creation of the
    output directory; or the [ValueError] of the pool, and then the target
    is zero or below; or it is an [AttributeError] or a [TypeError] met
    while reading a body of Crossref.  Every run the topic fan-out starts
    has a target of five or more, so the pool never raises in it. *)
Theorem uncaught_exceptions_of_main sv fuel args e st :
  main sv fuel args = Some (Uncaught e, st) →
  ((os_makedirs sv (arg_outdir args) = Raised e ∧ st = initial)
   ∨ (arg_max args ≤ 0 ∧ exn_class e = ValueError ∧ st = initial)
   ∨ (1 ≤ arg_max args ∧ lookup_error e))
  ∧ ∀ repr_container mkdtemp dash_value description email max_pdfs
      topics_keywords topic,
      (topic, Returned args)
      ∈ job_runs repr_container mkdtemp dash_value description email max_pdfs
          topics_keywords →
      5 ≤ arg_max args
      ∧ (os_makedirs sv (arg_outdir args) = Raised e ∨ lookup_error e).
Proof.
  intros Hrun.
  assert (∀ repr_container mkdtemp dash_value description email max_pdfs
            topics_keywords topic,
            (topic, Returned args)
            ∈ job_runs repr_container mkdtemp dash_value description email
                max_pdfs topics_keywords → 5 ≤ arg_max args) as Hfive.
  { intros repr_container mkdtemp dash_value description email max_pdfs
      topics_keywords topic Hin.
    by apply job_runs_targets in Hin as [_ ?]. }
  apply main_cases in Hrun
    as [[? _]|[(e0 & Hdir & [= <-] & ->)
              |[([= ->] & -> & Hmax)|(Hmax & lr & Hloop & Hr)]]]; [done| | |].
  - split; [by left|].
    intros repr_container mkdtemp dash_value description email max_pdfs
      topics_keywords topic Hin.
    split; [by eapply Hfive|by left].
  - split; [by right; left|].
    intros repr_container mkdtemp dash_value description email max_pdfs
      topics_keywords topic Hin.
    specialize (Hfive _ _ _ _ _ _ _ _ Hin). lia.
  - destruct lr as [[]|e0]; [done|]. injection Hr as ->.
    apply while_loop_raises in Hloop. split; [by right; right|].
    intros repr_container mkdtemp dash_value description email max_pdfs
      topics_keywords topic Hin.
    split; [by eapply Hfive|by right].
Qed.

(** A page whose item is a string, not an object: [item.get] raises and
    nobody catches it. *)
Lemma uncaught_exceptions_of_main_witness :
  main malformed_page_services 3 (args_with_max 5)
  = Some (Uncaught (Py.no_attribute (JStr "10.1/a") "get"), note_search initial)
  ∧ ((os_makedirs malformed_page_services (arg_outdir (args_with_max 5))
      = Raised (Py.no_attribute (JStr "10.1/a") "get")
      ∧ note_search initial = initial)
     ∨ (arg_max (args_with_max 5) ≤ 0
        ∧ exn_class (Py.no_attribute (JStr "10.1/a") "get") = ValueError
        ∧ note_search initial = initial)
     ∨ (1 ≤ arg_max (args_with_max 5)
        ∧ lookup_error (Py.no_attribute (JStr "10.1/a") "get"))).
Proof.
  assert (main malformed_page_services 3 (args_with_max 5)
          = Some (Uncaught (Py.no_attribute (JStr "10.1/a") "get"),
                  note_search initial)) as Hrun by (by vm_compute).
  split; [done|].
  exact (proj1 (uncaught_exceptions_of_main _ _ _ _ _ Hrun)).
Defined.

(** An output directory that cannot be made: the exception of the call
    leaves [main] before the pool and before any search. *)
Example unwritable_outdir_raises :
  main readonly_services 3 (args_with_max 5)
  = Some (Uncaught (Exn OSError "[Errno 13] Permission denied: 'out'"), initial)
  ∧ main same_page_services 3
      (Arguments "open access" "reader@example.org" 5 EmptyString
         "2024-01-01" "2025-12-31" false)
    = Some (Uncaught (Exn OSError "[Errno 2] No such file or directory: ''"),
            initial).
Proof. split; by vm_compute. Qed.

Section SchemaFacts.

Variable sv : services.
Variable args : arguments.

Lemma submit_items_schema items st :
  forallb schema_item items = true →
  ∃ st', submit_items args items st = (Returned (), st').
Proof.
  revert st; induction items as [|item items IH]; intros st Hall; simpl;
    [eauto|].
  apply andb_true_iff in Hall as [Hitem Hall].
  destruct (_ >=? _); [eauto|].
  destruct item as [| | | | |d]; try done. cbn [Py.get].
  cbn [schema_item] in Hitem.
  destruct (default JNull (Py.dict_lookup d "DOI")) as [| | |s| |]; try done;
    cbn [Py.truthy negb hash_key]; [by apply IH|].
  destruct (PyStr.truthy s); cbn [negb]; [|by apply IH].
  destruct (bool_decide (KStr s ∈ seen_dois st)); by apply IH.
Qed.

Lemma query_crossref_schema query start_date end_date rows off filter :
  schema_services sv →
  schema_body (query_crossref sv query start_date end_date rows off filter)
  = true.
Proof.
  intros Hsv. unfold query_crossref.
  destruct (crossref_get sv _) as [body|e] eqn:Hget; [|done].
  by apply Hsv in Hget.
Qed.

Lemma while_loop_schema fuel st r st' :
  schema_services sv →
  while_loop sv args fuel st = Some (r, st') → r = Returned ().
Proof.
  intros Hsv. revert st; induction fuel as [|fuel IH]; intros st Hrun.
  - destruct (loop_condition args st) eqn:Hcond.
    + cbn in Hrun. by rewrite Hcond in Hrun.
    + rewrite while_loop_done in Hrun by done. by simplify_eq.
  - destruct (loop_condition args st) eqn:Hcond.
    2:{ rewrite while_loop_done in Hrun by done. by simplify_eq. }
    revert Hrun. cbn [while_loop]. rewrite Hcond.
    change (offset (note_search st)) with (offset st).
    pose proof (query_crossref_schema (arg_keywords args) (arg_start_date args)
                  (arg_end_date args) per_page (offset st)
                  (arg_filter_publishers args) Hsv) as Hbody.
    destruct (query_crossref _ _ _ _ _ _ _) as [| | | | |d]; try done;
      [by intros [= <- _]|].
    destruct (Py.truthy (JDict d)); cbn [negb]; [|by intros [= <- _]].
    cbn [schema_body] in Hbody. cbn [Py.get mbind py_result_bind].
    destruct (default (JDict []) (Py.dict_lookup d "message"))
      as [| | | | |m]; try done.
    cbn [Py.get mbind py_result_bind].
    destruct (default (JList []) (Py.dict_lookup m "items"))
      as [| | | |items|]; try done.
    destruct (Py.truthy (JList items)); cbn [negb]; [|by intros [= <- _]].
    cbn [Py.iter].
    destruct (submit_items_schema items (note_search st) Hbody) as [st1 ->].
    apply IH.
Qed.

End SchemaFacts.

(** X9: when every body Crossref answers with has the expected shape (an
    object with a message that lists objects whose DOI is a string or
    absent), an exception leaves [main] only when the target is zero or
    below, or when the output directory cannot be made, and then it is the
    exception of that call: otherwise the run ends with its summary, or
    with the message about the email. *)
Theorem wellformed_bodies_never_raise sv fuel args r st :
  schema_services sv →
  main sv fuel args = Some (r, st) →
  match r with
  | Uncaught e =>
      arg_max args ≤ 0 ∨ os_makedirs sv (arg_outdir args) = Raised e
  | _ => True
  end.
Proof.
  intros Hsv Hrun. destruct r as [| |e]; [done..|].
  apply main_cases in Hrun
    as [[? _]|[(e0 & Hdir & [= <-] & _)
              |[(_ & _ & ?)|(_ & lr & Hloop & Hr)]]]; [done| | |].
  - by right.
  - by left.
  - apply (while_loop_schema _ _ _ _ _ _ Hsv) in Hloop. by subst lr.
Qed.

Lemma wellformed_bodies_never_raise_witness :
  fst <$> main three_good_services 10 (args_with_max 10)
  = Some (Finished 3 true)
  ∧ match Finished 3 true with
    | Uncaught e =>
        arg_max (args_with_max 10) ≤ 0
        ∨ os_makedirs three_good_services (arg_outdir (args_with_max 10))
          = Raised e
    | _ => True
    end.
Proof.
  split; [by vm_compute|].
  apply (wellformed_bodies_never_raise three_good_services 10 (args_with_max 10)
           (Finished 3 true)
           (final_state (main three_good_services 10 (args_with_max 10)))).
  - intros p body [= <-]. by destruct (p_offset p =? 0).
  - vm_compute. reflexivity.
Defined.

(** ** More on the download and its checks *)

(** X10: the outcome of [download_file] depends on the bytes streamed, not
    on how they are cut into chunks: two streams with the same
    concatenation and the same ending give the same result and the same
    file system. *)
Theorem download_ignores_chunking
    w1 w2 url1 url2 chunks1 chunks2 ending dest (fs : filesystem) :
  open_stream w1 url1 = HttpBody chunks1 ending →
  open_stream w2 url2 = HttpBody chunks2 ending →
  concat chunks1 = concat chunks2 →
  can_open w1 dest = can_open w2 dest →
  download_file w1 url1 dest fs = download_file w2 url2 dest fs.
Proof.
  intros H1 H2 Hsame Hopen. unfold download_file.
  rewrite H1, H2, Hopen, !write_chunks_spec, Hsame. done.
Qed.

Lemma download_ignores_chunking_witness :
  download_file (env_with sample_pdf_chunks StreamComplete)
    (JStr "https://example.org/paper.pdf") sample_dest ∅
  = download_file (env_with [sample_pdf] StreamComplete)
      (JStr "https://example.org/paper.pdf") sample_dest ∅.
Proof.
  apply (download_ignores_chunking
           (env_with sample_pdf_chunks StreamComplete)
           (env_with [sample_pdf] StreamComplete)
           (JStr "https://example.org/paper.pdf")
           (JStr "https://example.org/paper.pdf")
           sample_pdf_chunks [sample_pdf] StreamComplete);
    [reflexivity|reflexivity|by vm_compute|reflexivity].
Defined.

Section AmongWorkers.

Variable repr_container : json → string.
Variable w : env.

(** A call on its own: the download, then the checks at once. *)
Lemma fetch_alone_outcomes url dest (fs : filesystem) :
  (fetch_and_validate repr_container w url dest fs).1
  ∈ [(true, "Saved: " +:+ dest);
     (false, "Downloaded file is not a valid PDF from: "
             +:+ py_str repr_container url);
     (false, "Failed to download PDF from: " +:+ py_str repr_container url)].
Proof.
  unfold fetch_and_validate.
  destruct (download_file_cases w url dest fs)
    as [(fs0 & -> & Hd & _)|(chunks & -> & _ & _ & Hsize)].
  - unfold validate_download. cbn [andb fst].
    do 2 apply list_elem_of_further. apply list_elem_of_here.
  - unfold validate_download, path_exists, is_valid_pdf, getsize.
    rewrite lookup_insert_eq. cbn [andb].
    rewrite bool_decide_eq_true_2 by eauto.
    destruct (bool_decide (take 4 (concat chunks) = pdf_magic)); cbn [negb].
    + destruct (Z.ltb_spec (Z.of_nat (length (concat chunks))) 1024); [lia|].
      apply list_elem_of_here.
    + apply list_elem_of_further, list_elem_of_here.
Qed.

(** The checks read the file system at the destination only. *)
Lemma validate_download_reads_dest success url dest (fs1 fs2 : filesystem) :
  fs1 !! dest = fs2 !! dest →
  (validate_download repr_container success url dest fs1).1
  = (validate_download repr_container success url dest fs2).1.
Proof.
  intros E. unfold validate_download, path_exists, is_valid_pdf, getsize.
  rewrite E. destruct success; cbn [andb]; [|done].
  destruct (bool_decide (is_Some (fs2 !! dest))); [|done].
  destruct (negb _); [done|]. by destruct (_ <? 1024).
Qed.

Lemma validate_download_outcomes success url dest (fs : filesystem) :
  (validate_download repr_container success url dest fs).1
  ∈ [(true, "Saved: " +:+ dest);
     (false, "Downloaded file is not a valid PDF from: "
             +:+ py_str repr_container url);
     (false, "Downloaded file is too small from: "
             +:+ py_str repr_container url);
     (false, "Download completed but file not found: "
             +:+ py_str repr_container url);
     (false, "Failed to download PDF from: " +:+ py_str repr_container url)].
Proof.
  unfold validate_download.
  destruct success, (path_exists dest fs); cbn [andb];
    [destruct (is_valid_pdf dest fs); cbn [negb];
     [destruct (getsize dest fs <? 1024)|]| |..]; cbn [fst];
    repeat first [apply list_elem_of_here | apply list_elem_of_further].
Qed.

End AmongWorkers.

(** X11: [main] runs [process_item] in several workers on one directory.
    Whatever the other workers do to the file system between the download
    of a call and its checks, the call ends with one of the five outcomes
    of the source.  When they leave its destination as the download left
    it, as in a call on its own, only three remain: the file is saved, it
    is not a valid PDF, or the download failed; the second size check and
    the case of a download that completed without a file then never apply,
    since [download_file] succeeds only with a file of at least 1024 bytes
    in place. *)
Theorem fetch_outcomes
    repr_container w others url dest (fs fs' : filesystem) outcome :
  fetch_and_validate_among repr_container w others url dest fs
  = (outcome, fs') →
  let fs1 := (download_file w url dest fs).2 in
  outcome
  ∈ [(true, "Saved: " +:+ dest);
     (false, "Downloaded file is not a valid PDF from: "
             +:+ py_str repr_container url);
     (false, "Downloaded file is too small from: "
             +:+ py_str repr_container url);
     (false, "Download completed but file not found: "
             +:+ py_str repr_container url);
     (false, "Failed to download PDF from: " +:+ py_str repr_container url)]
  ∧ (others fs1 !! dest = fs1 !! dest →
     outcome = (fetch_and_validate repr_container w url dest fs).1
     ∧ outcome
       ∈ [(true, "Saved: " +:+ dest);
          (false, "Downloaded file is not a valid PDF from: "
                  +:+ py_str repr_container url);
          (false, "Failed to download PDF from: "
                  +:+ py_str repr_container url)]).
Proof.
  unfold fetch_and_validate_among. intros Hrun. cbv zeta.
  assert (outcome
          = (validate_download repr_container (download_file w url dest fs).1
               url dest (others (download_file w url dest fs).2)).1) as ->.
  { destruct (download_file w url dest fs) as [success fs1].
    cbn [fst snd]. by rewrite Hrun. }
  split; [apply validate_download_outcomes|].
  intros Hsame.
  rewrite (validate_download_reads_dest repr_container _ _ _ _ _ Hsame).
  assert ((validate_download repr_container (download_file w url dest fs).1
             url dest (download_file w url dest fs).2).1
          = (fetch_and_validate repr_container w url dest fs).1) as ->.
  { unfold fetch_and_validate. by destruct (download_file w url dest fs). }
  split; [done|]. apply fetch_alone_outcomes.
Qed.

(** A page of HTML of 1024 bytes passes [download_file] and fails the
    signature check. *)
Lemma fetch_outcomes_witness :
  (false, "Downloaded file is not a valid PDF from: https://example.org/paper.pdf")
  ∈ [(true, "Saved: " +:+ sample_dest);
     (false, "Downloaded file is not a valid PDF from: "
             +:+ py_str sample_repr (JStr "https://example.org/paper.pdf"));
     (false, "Failed to download PDF from: "
             +:+ py_str sample_repr (JStr "https://example.org/paper.pdf"))].
Proof.
  refine (proj2 (proj2 (fetch_outcomes sample_repr
                          (env_with [sample_html] StreamComplete) (λ fs, fs)
                          (JStr "https://example.org/paper.pdf") sample_dest
                          ∅ ∅ _ _) _)).
  - vm_compute. reflexivity.
  - reflexivity.
Defined.

(** Another worker whose download to the same name fails removes the file
    between the download and the checks; one that saves a shorter file
    replaces it. *)
Example removed_by_another_worker :
  (fetch_and_validate_among sample_repr (env_with [sample_pdf] StreamComplete)
     (os_remove sample_dest) (JStr "https://example.org/paper.pdf")
     sample_dest ∅).1
  = (false, "Download completed but file not found: https://example.org/paper.pdf")
  ∧ (fetch_and_validate_among sample_repr
       (env_with [sample_pdf] StreamComplete)
       (λ fs, <[sample_dest := short_pdf]> fs)
       (JStr "https://example.org/paper.pdf") sample_dest ∅).1
    = (false, "Downloaded file is too small from: https://example.org/paper.pdf").
Proof. split; by vm_compute. Qed.

(** ** File names, again *)

Section NameFacts2.

Local Open Scope nat_scope.

Lemma re_sub_hostile_twice s : re_sub_hostile (re_sub_hostile s) = re_sub_hostile s.
Proof.
  unfold re_sub_hostile.
  induction s as [|c s IH]; cbn [PyStr.map]; [done|].
  rewrite IH. f_equal. by rewrite underscore_not_hostile.
Qed.

End NameFacts2.

(** X12: [sanitize_filename] is idempotent: a name it returned is returned
    unchanged. *)
Theorem sanitize_filename_idempotent s :
  sanitize_filename (sanitize_filename s) = sanitize_filename s.
Proof.
  unfold sanitize_filename.
  change (re_sub_hostile (PyStr.slice_to 200 (re_sub_hostile s)))
    with (PyStr.map (λ c, if is_hostile c then "_"%char else c)
            (substring 0 200 (re_sub_hostile s))).
  rewrite <- map_substring.
  fold (re_sub_hostile (re_sub_hostile s)). rewrite re_sub_hostile_twice.
  apply (substring_slice_to 0 200 200). lia.
Qed.

(** ** Where [process_item] writes *)

Section WriteFacts.

Variable quote_plus : string → string.
Variable repr_container : json → string.
Variable w : env.

Lemma unsanitized_name_truthy i :
  PyStr.truthy (sanitize_filename (unsanitized_name repr_container i)) = true.
Proof.
  assert (1 ≤ String.length
                (sanitize_filename (unsanitized_name repr_container i)))%nat
    as Hlen.
  { rewrite sanitize_length. unfold unsanitized_name.
    rewrite !length_append. cbn [String.length]. lia. }
  destruct (sanitize_filename _); [simpl in Hlen; lia|done].
Qed.

(** The file system after [process_item]: unchanged, or changed at the
    destination only. *)
Lemma process_item_touches item email outdir args (fs fs' : filesystem) r :
  process_item quote_plus repr_container w item email outdir args fs = (r, fs') →
  fs' = fs
  ∨ ∃ i, read_item repr_container item = Returned i
         ∧ ∀ p, p ≠ path_join outdir
                      (sanitize_filename (unsanitized_name repr_container i)) →
                fs' !! p = fs !! p.
Proof.
  unfold process_item.
  destruct (process_item_try _ _ _ _ _ _ _ _) as [r1 fs1] eqn:Htry.
  intros Hrun.
  assert (fs1 = fs') as <- by (by destruct r1; simplify_eq).
  apply process_item_try_cases in Htry
    as [[-> _]|(i & url & [[] msg] & Hread & _ & _ & Hfetch & _)];
    [by left|right; exists i; split; [done|]..].
  - apply fetch_and_validate_true in Hfetch as (chunks & _ & -> & _).
    intros p Hp. by rewrite lookup_insert_ne.
  - by apply fetch_and_validate_false in Hfetch as [_ ?].
Qed.

End WriteFacts.

(** X13: whatever the title, journal and date of the item, a path whose
    file [process_item] creates, replaces or removes is a file directly in
    the output directory: sanitizing leaves no separator in the name. *)
Theorem process_item_writes_in_outdir
    quote_plus repr_container w item email outdir args (fs fs' : filesystem) r p :
  process_item quote_plus repr_container w item email outdir args fs = (r, fs') →
  fs' !! p ≠ fs !! p →
  ∃ name, entry_name outdir p = Some name
          ∧ PyStr.contains_char "/" name = false.
Proof.
  intros Hrun Hchanged.
  apply process_item_touches in Hrun as [->|(i & _ & Hframe)]; [done|].
  set (fn := sanitize_filename (unsanitized_name repr_container i)) in *.
  destruct (decide (p = path_join outdir fn)) as [->|Hne].
  - exists fn. split; [|apply sanitize_no_slash].
    apply entry_name_join; [apply unsanitized_name_truthy|apply sanitize_no_slash].
  - destruct Hchanged. by apply Hframe.
Qed.

Lemma process_item_writes_in_outdir_witness :
  ∃ name, entry_name "out" sample_dest = Some name
          ∧ PyStr.contains_char "/" name = false.
Proof.
  apply (process_item_writes_in_outdir (λ s, s) sample_repr
           (env_with [sample_pdf] StreamComplete) sample_item
           "reader@example.org" "out" sample_args ∅
           (<[sample_dest := sample_pdf]> ∅)
           (Returned (true, "Saved: " +:+ sample_dest))).
  - vm_compute. reflexivity.
  - by rewrite lookup_insert_eq.
Defined.

(** X14: when two works have the same sanitized name and [process_item]
    succeeds for both, one after the other, both messages name the same
    path and the second file replaces the first: the file system holds the
    same paths after the second success as after the first. *)
Theorem same_name_overwrites
    quote_plus repr_container w item1 item2 i1 i2 email outdir args
    (fs fs1 fs2 : filesystem) msg1 msg2 :
  read_item repr_container item1 = Returned i1 →
  read_item repr_container item2 = Returned i2 →
  sanitize_filename (unsanitized_name repr_container i1)
  = sanitize_filename (unsanitized_name repr_container i2) →
  process_item quote_plus repr_container w item1 email outdir args fs
  = (Returned (true, msg1), fs1) →
  process_item quote_plus repr_container w item2 email outdir args fs1
  = (Returned (true, msg2), fs2) →
  msg1 = msg2 ∧ dom fs2 = dom fs1.
Proof.
  intros Hread1 Hread2 Hname Hrun1 Hrun2.
  apply process_item_saved in Hrun1 as (j1 & c1 & Hj1 & -> & -> & _).
  apply process_item_saved in Hrun2 as (j2 & c2 & Hj2 & -> & -> & _).
  rewrite Hread1 in Hj1. rewrite Hread2 in Hj2. simplify_eq.
  rewrite Hname. split; [done|].
  rewrite insert_insert_eq. by rewrite !dom_insert_L.
Qed.

Lemma same_name_overwrites_witness :
  "Saved: " +:+ sample_dest = "Saved: " +:+ sample_dest
  ∧ dom (<[sample_dest := sample_pdf]> (∅ : filesystem))
    = dom (<[sample_dest := sample_pdf]> (∅ : filesystem)).
Proof.
  apply (same_name_overwrites (λ s, s) sample_repr
           (env_with [sample_pdf] StreamComplete) sample_item sample_item_twin
           (fields_of sample_item) (fields_of sample_item_twin)
           "reader@example.org" "out" sample_args ∅).
  - by vm_compute.
  - by vm_compute.
  - by vm_compute.
  - vm_compute. reflexivity.
  - vm_compute. reflexivity.
Defined.

(** ** The publication date *)

Local Ltac date_steps :=
  repeat (change (Py.truthy JNull) with false; cbv iota;
          repeat match goal with
                 | H : Py.truthy _ = _ |- _ => progress rewrite H
                 end;
          cbn [Py.get mbind py_result_bind]).

(** X15: the publication date is read from the first of the fields
    [published-print], [published-online] and [created] that is present and
    truthy, and from that field alone: when it has no date parts the date
    is [unknown], whatever the later fields hold; without any of the three
    the date is [unknown] too. *)
Theorem publication_date_precedence repr_container d :
  let field k := default JNull (Py.dict_lookup d k) in
  (Py.truthy (field "published-print") = true →
   publication_date repr_container (JDict d)
   = publication_date repr_container
       (JDict [("published-print", field "published-print")]))
  ∧ (Py.truthy (field "published-print") = false →
     Py.truthy (field "published-online") = true →
     publication_date repr_container (JDict d)
     = publication_date repr_container
         (JDict [("published-online", field "published-online")]))
  ∧ (Py.truthy (field "published-print") = false →
     Py.truthy (field "published-online") = false →
     Py.truthy (field "created") = true →
     publication_date repr_container (JDict d)
     = publication_date repr_container (JDict [("created", field "created")]))
  ∧ (Py.truthy (field "published-print") = false →
     Py.truthy (field "published-online") = false →
     Py.truthy (field "created") = false →
     publication_date repr_container (JDict d) = Returned "unknown")
  ∧ (∀ k fields,
       Py.truthy (JDict fields) = true →
       Py.truthy (default JNull (Py.dict_lookup fields "date-parts")) = false →
       k ∈ ["published-print"; "published-online"; "created"] →
       publication_date repr_container (JDict [(k, JDict fields)])
       = Returned "unknown").
Proof.
  intros field. subst field. split; [|split; [|split; [|split]]].
  5:{ intros k fields Ht Hparts Hk.
      repeat (apply elem_of_cons in Hk as [->|Hk]);
        [| | |by apply elem_of_nil in Hk];
        unfold publication_date;
        cbn [Py.get Py.dict_lookup String.eqb Ascii.eqb Bool.eqb default
             from_option id mbind py_result_bind];
        unfold Py.or_else; change (Py.truthy JNull) with false; cbv iota;
        by date_steps. }
  all: unfold publication_date;
    cbn [Py.get Py.dict_lookup String.eqb Ascii.eqb Bool.eqb default
         from_option id mbind py_result_bind];
    generalize (default JNull (Py.dict_lookup d "published-print"));
    generalize (default JNull (Py.dict_lookup d "published-online"));
    generalize (default JNull (Py.dict_lookup d "created"));
    intros c o p; unfold Py.or_else.
  all: intros; by date_steps.
Qed.

(** A print date without date parts hides a complete online date. *)
Lemma publication_date_precedence_witness :
  publication_date sample_repr (JDict shadowed_date_fields)
  = Returned "unknown".
Proof.
  rewrite (proj1 (publication_date_precedence sample_repr shadowed_date_fields)
             eq_refl).
  exact (proj2 (proj2 (proj2 (proj2
           (publication_date_precedence sample_repr []))))
           "published-print"
           [("date-time", JStr "2024-05-01T00:00:00Z")] eq_refl eq_refl
           (list_elem_of_here _ _)).
Defined.

(** ** Keyword expansion *)

Section TextFacts.

Import PyText.

Lemma contains_char_append a s t :
  PyStr.contains_char a (s +:+ t)
  = PyStr.contains_char a s || PyStr.contains_char a t.
Proof.
  induction s as [|x s IH]; [done|].
  change (String x s +:+ t) with (String x (s +:+ t)).
  cbn [PyStr.contains_char]. rewrite IH. by destruct (Ascii.eqb a x).
Qed.

(** A character of the result of [re.sub] comes from the replacement, or it
    is a character of the input other than the one replaced. *)
Lemma contains_char_sub_runs a c repl b s :
  PyStr.contains_char a (sub_runs c repl b s) = true →
  PyStr.contains_char a repl = true
  ∨ (a ≠ c ∧ PyStr.contains_char a s = true).
Proof.
  revert b; induction s as [|x s IH]; intros b; cbn [sub_runs]; [done|].
  cbn [PyStr.contains_char].
  destruct (Ascii.eqb_spec x c) as [->|Hxc].
  - assert (PyStr.contains_char a (sub_runs c repl true s) = true →
            PyStr.contains_char a repl = true
            ∨ a ≠ c ∧ (if Ascii.eqb a c then true
                       else PyStr.contains_char a s) = true) as Hrest.
    { intros [?|[Hne Hin]]%IH; [by left|right]. split; [done|].
      by destruct (Ascii.eqb a c). }
    destruct b; [done|].
    rewrite contains_char_append. intros [?|?]%orb_true_iff; [by left|auto].
  - cbn [PyStr.contains_char].
    destruct (Ascii.eqb_spec a x) as [->|Hax]; [intros _; by right|].
    intros [?|[Hne Hin]]%IH; [by left|by right].
Qed.

Lemma contains_char_lstrip a strip_it s :
  PyStr.contains_char a (lstrip strip_it s) = true →
  PyStr.contains_char a s = true.
Proof.
  induction s as [|x s IH]; cbn [lstrip]; [done|].
  destruct (strip_it x); [|done].
  intros H%IH. cbn [PyStr.contains_char]. by destruct (Ascii.eqb a x).
Qed.

Lemma contains_char_rstrip a strip_it s :
  PyStr.contains_char a (rstrip strip_it s) = true →
  PyStr.contains_char a s = true.
Proof.
  induction s as [|x s IH]; cbn [rstrip]; [done|].
  cbn [PyStr.contains_char].
  destruct (rstrip strip_it s) as [|y t].
  - destruct (strip_it x); [done|]. cbn [PyStr.contains_char].
    by destruct (Ascii.eqb a x).
  - cbn [PyStr.contains_char] in *. destruct (Ascii.eqb a x); [done|]. exact IH.
Qed.

Lemma doubled_cons c x t :
  doubled c (String x t)
  = Ascii.eqb x c && bool_decide (first t = Some c) || doubled c t.
Proof.
  destruct t as [|y t]; cbn [doubled first String.get].
  - by rewrite andb_false_r.
  - destruct (Ascii.eqb_spec y c) as [->|Hne].
    + by rewrite bool_decide_eq_true_2.
    + rewrite bool_decide_eq_false_2 by congruence. done.
Qed.

(** After [re.sub] of runs of [c] by one [c], no two [c] are adjacent. *)
Lemma doubled_sub_runs c b s :
  doubled c (sub_runs c (String c EmptyString) b s) = false
  ∧ (b = true → first (sub_runs c (String c EmptyString) b s) ≠ Some c).
Proof.
  revert b; induction s as [|x s IH]; intros b; cbn [sub_runs]; [by split|].
  destruct (Ascii.eqb_spec x c) as [->|Hxc].
  - destruct (IH true) as [Hd Hf]. destruct b; [done|].
    split; [|done].
    change (String c EmptyString +:+ ?t) with (String c t).
    rewrite doubled_cons, Hd, bool_decide_eq_false_2 by auto.
    by rewrite andb_false_r.
  - destruct (IH false) as [Hd _]. split.
    + rewrite doubled_cons, Hd.
      destruct (Ascii.eqb_spec x c); [done|done].
    + intros _. cbn [first String.get]. congruence.
Qed.

Lemma first_lstrip strip_it s x :
  first (lstrip strip_it s) = Some x → strip_it x = false.
Proof.
  induction s as [|y s IH]; cbn [lstrip]; [done|].
  destruct (strip_it y) eqn:Hy; [done|]. by intros [= <-].
Qed.

Lemma doubled_lstrip c strip_it s :
  doubled c (lstrip strip_it s) = true → doubled c s = true.
Proof.
  induction s as [|x s IH]; cbn [lstrip]; [done|].
  destruct (strip_it x); [|done].
  intros H%IH. rewrite doubled_cons, H. apply orb_true_r.
Qed.

Lemma first_rstrip strip_it s x :
  first (rstrip strip_it s) = Some x → first s = Some x.
Proof.
  destruct s as [|y s]; cbn [rstrip]; [done|].
  destruct (rstrip strip_it s); [by destruct (strip_it y)|done].
Qed.

Lemma last_rstrip strip_it s x :
  last (rstrip strip_it s) = Some x → strip_it x = false.
Proof.
  induction s as [|y s IH]; cbn [rstrip]; [done|].
  destruct (rstrip strip_it s) as [|z t] eqn:Hr.
  - destruct (strip_it y) eqn:Hy; [done|]. by intros [= <-].
  - exact IH.
Qed.

Lemma doubled_rstrip c strip_it s :
  doubled c (rstrip strip_it s) = true → doubled c s = true.
Proof.
  induction s as [|x s IH]; cbn [rstrip]; [done|].
  destruct (rstrip strip_it s) as [|z t] eqn:Hr.
  - by destruct (strip_it x).
  - rewrite (doubled_cons c x (String z t)), (doubled_cons c x s).
    intros [[Hx Hf]%andb_true_iff|Hd]%orb_true_iff.
    + apply bool_decide_eq_true in Hf.
      rewrite <- Hr in Hf. apply first_rstrip in Hf.
      by rewrite Hx, bool_decide_eq_true_2.
    + rewrite (IH Hd). apply orb_true_r.
Qed.

End TextFacts.

(** X16: the keywords [generate_keywords_from_description] makes of a text
    that is no JSON hold no newline and no two commas in a row, and neither
    start nor end with a comma or a space. *)
Theorem plain_keywords_clean text :
  PyStr.contains_char PyText.newline (plain_keywords text) = false
  ∧ PyText.doubled "," (plain_keywords text) = false
  ∧ (∀ x, PyText.first (plain_keywords text) = Some x →
          PyText.comma_or_space x = false)
  ∧ (∀ x, PyText.last (plain_keywords text) = Some x →
          PyText.comma_or_space x = false).
Proof.
  unfold plain_keywords, PyText.strip, PyText.re_sub_runs.
  split; [|split; [|split]].
  - apply not_true_is_false.
    intros H%contains_char_rstrip%contains_char_lstrip%contains_char_sub_runs.
    destruct H as [H|[_ H%contains_char_sub_runs]]; [done|].
    by destruct H as [H|[H _]].
  - apply not_true_is_false. intros H%doubled_rstrip%doubled_lstrip.
    by rewrite (proj1 (doubled_sub_runs _ _ _)) in H.
  - intros x H%first_rstrip. by apply first_lstrip in H.
  - intros x H. by apply last_rstrip in H.
Qed.

Example plain_keywords_of_lines :
  plain_keywords
    ("deep learning" +:+ String PyText.newline (String PyText.newline "CNN,,")
     +:+ String PyText.newline "India, ")
  = "deep learning, CNN, India".
Proof. reflexivity. Qed.

Section ExpansionFacts.

Variable json_loads : string → loads_outcome.
Variable gemini_post : json → py_result json.

Lemma candidate_text_stripped result text :
  candidate_text result = Returned text →
  ∃ s, text = PyText.strip PyText.is_space s.
Proof.
  unfold candidate_text.
  intros (c & _ & H)%bind_returned. apply bind_returned in H as (c0 & _ & H).
  apply bind_returned in H as (ct & _ & H).
  apply bind_returned in H as (ps & _ & H).
  apply bind_returned in H as (p0 & _ & H).
  apply bind_returned in H as (t & _ & H).
  destruct t; try done. injection H as <-. eauto.
Qed.

(** A body with the text of a first candidate has candidates, and one at
    least. *)
Lemma candidate_text_candidates result text :
  candidate_text result = Returned text →
  ∃ d x l, result = JDict d
           ∧ Py.dict_lookup d "candidates" = Some (JList (x :: l)).
Proof.
  unfold candidate_text.
  intros (c & Hc & H)%bind_returned. apply bind_returned in H as (c0 & Hc0 & H).
  apply bind_returned in H as (ct & Hct & _).
  destruct result as [| | | | |d]; try done. cbn [Py.getitem] in Hc.
  destruct (Py.dict_lookup d "candidates") as [c'|] eqn:Hd; [|done].
  injection Hc as ->.
  destruct c as [| | |[|a s]|[|x l]|]; try done.
  - cbn in Hc0. injection Hc0 as <-. done.
  - by exists d, x, l.
Qed.

(** The value returned, by what the request, the body and [json.loads]
    give. *)
Lemma generate_keywords_with_text description result text :
  gemini_post description = Returned result →
  candidate_text result = Returned text →
  generate_keywords_from_description json_loads gemini_post description
  = match json_loads text with
    | Loaded topics => topics
    | JSONDecodeError =>
        if PyStr.truthy (plain_keywords text)
        then main_topic (JStr (plain_keywords text))
        else main_topic description
    | LoadsRaised _ => main_topic description
    end.
Proof.
  intros Hpost Htext.
  destruct (candidate_text_candidates result text Htext)
    as (d & x & l & -> & Hd).
  unfold generate_keywords_from_description, generate_keywords_try.
  rewrite Hpost. cbn [mbind py_result_bind py_contains Py.getitem].
  rewrite Hd. rewrite bool_decide_eq_true_2 by eauto.
  cbn [mbind py_result_bind py_len length].
  replace (0 <? Z.of_nat (S (length l))) with true
    by (symmetry; apply Z.ltb_lt; lia).
  rewrite Htext. cbn [mbind py_result_bind].
  destruct (json_loads text); [done| |done].
  by destruct (PyStr.truthy (plain_keywords text)).
Qed.

Lemma generate_keywords_without_text description result e :
  gemini_post description = Returned result →
  candidate_text result = Raised e →
  generate_keywords_from_description json_loads gemini_post description
  = main_topic description.
Proof.
  intros Hpost Htext.
  unfold generate_keywords_from_description, generate_keywords_try.
  rewrite Hpost. cbn [mbind py_result_bind].
  destruct (py_contains result "candidates") as [[]|]; cbn [mbind py_result_bind];
    [|done..].
  destruct (Py.getitem result "candidates"); cbn [mbind py_result_bind]; [|done].
  destruct (py_len _); cbn [mbind py_result_bind]; [|done].
  destruct (0 <? _); [|done]. by rewrite Htext.
Qed.

End ExpansionFacts.

(** X17: [generate_keywords_from_description] always returns a value, and
    which one is settled by the request, the body and [json.loads]: with
    the text of a first candidate in the body, it is the JSON value the
    text parses to; when the text is no JSON, the one topic [main_topic]
    with the cleaned text, or with the description when nothing is left of
    the text; and the one topic with the description when [json.loads]
    raises another exception.  It is the one topic with the description,
    too, whenever the request fails or the body lacks the text of a first
    candidate. *)
Theorem generate_keywords_outcomes json_loads gemini_post description :
  let r := generate_keywords_from_description json_loads gemini_post description in
  (∀ result text,
     gemini_post description = Returned result →
     candidate_text result = Returned text →
     match json_loads text with
     | Loaded topics => r = topics
     | JSONDecodeError =>
         r = if PyStr.truthy (plain_keywords text)
             then main_topic (JStr (plain_keywords text))
             else main_topic description
     | LoadsRaised _ => r = main_topic description
     end)
  ∧ (∀ e, gemini_post description = Raised e → r = main_topic description)
  ∧ (∀ result e,
       gemini_post description = Returned result →
       candidate_text result = Raised e →
       r = main_topic description).
Proof.
  intros r. subst r. split; [|split].
  - intros result text Hpost Htext.
    rewrite (generate_keywords_with_text json_loads gemini_post description
               result text Hpost Htext).
    by destruct (json_loads text).
  - intros e He.
    unfold generate_keywords_from_description, generate_keywords_try.
    by rewrite He.
  - intros result e. apply generate_keywords_without_text.
Qed.

(** A body whose text is no JSON: the cleaned text becomes the one
    topic. *)
Lemma generate_keywords_outcomes_witness :
  generate_keywords_from_description no_json (λ _, Returned plain_text_body)
    (JStr "rare skin disease")
  = main_topic (JStr "deep learning, CNN,India").
Proof.
  apply (proj1 (generate_keywords_outcomes no_json
                  (λ _, Returned plain_text_body) (JStr "rare skin disease"))
           plain_text_body
           ("deep learning" +:+ String PyText.newline "CNN,,India"));
    reflexivity.
Defined.

(** A text that is JSON is returned parsed; a request that fails, and a
    [json.loads] that raises something else than [JSONDecodeError], give
    the description. *)
Example parsed_failed_and_refused :
  generate_keywords_from_description
    (λ _, Loaded (JDict [("imaging", JStr "CNN, dermoscopy")]))
    (λ _, Returned plain_text_body) (JStr "rare skin disease")
  = JDict [("imaging", JStr "CNN, dermoscopy")]
  ∧ generate_keywords_from_description no_json service_down
      (JStr "rare skin disease")
    = main_topic (JStr "rare skin disease")
  ∧ generate_keywords_from_description
      (λ _, LoadsRaised (Exn ValueError "Exceeds the limit (4300 digits)"))
      (λ _, Returned plain_text_body) (JStr "rare skin disease")
    = main_topic (JStr "rare skin disease").
Proof. repeat split. Qed.

(** X18: [generate_search_keywords_from_description] returns the
    description it was given whenever the request fails or the body lacks
    the text of a first candidate; otherwise it returns that text, stripped:
    it neither starts nor ends with white space. *)
Theorem search_keywords_fallback gemini_post description :
  let r := generate_search_keywords_from_description gemini_post description in
  (∀ e, gemini_post description = Raised e → r = description)
  ∧ (∀ result e,
       gemini_post description = Returned result →
       candidate_text result = Raised e → r = description)
  ∧ (∀ result text,
       gemini_post description = Returned result →
       candidate_text result = Returned text →
       r = JStr text
       ∧ (∀ x, PyText.first text = Some x → PyText.is_space x = false)
       ∧ (∀ x, PyText.last text = Some x → PyText.is_space x = false)).
Proof.
  intros r. subst r. unfold generate_search_keywords_from_description.
  split; [|split].
  - intros e ->. done.
  - intros result e -> Htext. cbn [mbind py_result_bind]. by rewrite Htext.
  - intros result text -> Htext. cbn [mbind py_result_bind]. rewrite Htext.
    split; [done|].
    apply candidate_text_stripped in Htext as [s ->]. unfold PyText.strip.
    split.
    + intros x H%first_rstrip. by apply first_lstrip in H.
    + intros x H. by apply last_rstrip in H.
Qed.

Lemma search_keywords_fallback_witness :
  generate_search_keywords_from_description (λ _, Returned (JDict []))
    (JStr "rare skin disease")
  = JStr "rare skin disease".
Proof.
  apply (proj1 (proj2 (search_keywords_fallback (λ _, Returned (JDict []))
                         (JStr "rare skin disease")))
           (JDict []) (Exn KeyError "'candidates'")); reflexivity.
Defined.

(** ** The delivery of the topic directories *)

Section PathFacts.

Lemma prefix_split s p :
  String.prefix s p = true →
  p = s +:+ substring (String.length s) (String.length p - String.length s) p.
Proof.
  revert p. induction s as [|c s IH]; intros p H.
  - cbn [String.length]. rewrite Nat.sub_0_r. by rewrite substring_all.
  - destruct p as [|c' p]; [done|]. cbn [String.prefix] in H.
    destruct (ascii_dec c c') as [<-|]; [|done].
    change (String c s +:+ ?t) with (String c (s +:+ t)).
    cbn [String.length substring Nat.sub]. f_equal. by apply IH.
Qed.

Lemma entry_name_inv d p n :
  entry_name d p = Some n →
  p = dir_prefix d +:+ n
  ∧ PyStr.truthy n = true ∧ PyStr.contains_char "/" n = false.
Proof.
  unfold entry_name, PyStr.startswith.
  destruct (String.prefix (dir_prefix d) p) eqn:Hpre; [|done].
  apply prefix_split in Hpre.
  set (name := substring _ _ p) in *.
  destruct (PyStr.truthy name) eqn:Hn; [|done].
  destruct (PyStr.contains_char "/" name) eqn:Hs; [done|].
  intros [= <-]. done.
Qed.

Lemma endswith_last s :
  PyStr.endswith s "/" = true → PyText.last s = Some "/"%char.
Proof.
  unfold PyStr.endswith. cbn [String.length].
  induction s as [|c s IH]; [done|].
  destruct s as [|c' s].
  - cbn. destruct (Ascii.eqb_spec c "/") as [->|]; [done|].
    by destruct c as [[] [] [] [] [] [] [] []].
  - intros H. cbn [PyText.last]. apply IH. clear IH.
    cbn [String.length Nat.leb Nat.sub] in *.
    rewrite Nat.sub_0_r in *. exact H.
Qed.

Lemma last_append_char s c : PyText.last (s +:+ String c EmptyString) = Some c.
Proof.
  induction s as [|x s IH]; [done|].
  change (String x s +:+ ?t) with (String x (s +:+ t)).
  cbn [PyText.last]. destruct (s +:+ String c EmptyString) eqn:E; [|done].
  by destruct s.
Qed.

Lemma last_contains c s :
  PyText.last s = Some c → PyStr.contains_char c s = true.
Proof.
  induction s as [|x s IH]; [done|]. cbn [PyText.last PyStr.contains_char].
  destruct s as [|y s].
  - intros [= ->]. by rewrite Ascii.eqb_refl.
  - intros H. rewrite (IH H). by destruct (Ascii.eqb c x).
Qed.

(** A directory prefix is empty or ends with the separator. *)
Lemma dir_prefix_closed d :
  dir_prefix d = EmptyString ∨ PyText.last (dir_prefix d) = Some "/"%char.
Proof.
  unfold dir_prefix. destruct d as [|c d]; [by left|].
  cbn [PyStr.truthy negb orb].
  destruct (PyStr.endswith (String c d) "/") eqn:E.
  - right. by apply endswith_last.
  - right. apply last_append_char.
Qed.

Lemma closed_tail c s :
  PyText.last (String c s) = Some "/"%char →
  s = EmptyString ∨ PyText.last s = Some "/"%char.
Proof. destruct s; [by left|by right]. Qed.

Lemma no_closed_prefix s n m :
  PyText.last s = Some "/"%char →
  PyStr.contains_char "/" n = false → n ≠ s +:+ m.
Proof.
  intros Hs Hn ->. rewrite contains_char_append in Hn.
  by rewrite (last_contains _ _ Hs) in Hn.
Qed.

Lemma split_unique s1 s2 n m :
  s1 = EmptyString ∨ PyText.last s1 = Some "/"%char →
  s2 = EmptyString ∨ PyText.last s2 = Some "/"%char →
  PyStr.contains_char "/" n = false →
  PyStr.contains_char "/" m = false →
  s1 +:+ n = s2 +:+ m → s1 = s2 ∧ n = m.
Proof.
  revert s2. induction s1 as [|c s1 IH]; intros s2 H1 H2 Hn Hm E.
  - destruct H2 as [->|H2]; [done|]. by destruct (no_closed_prefix s2 n m).
  - destruct H1 as [|H1]; [done|].
    destruct s2 as [|c' s2].
    + by destruct (no_closed_prefix (String c s1) m n).
    + destruct H2 as [|H2]; [done|].
      change (String c (s1 +:+ n) = String c' (s2 +:+ m)) in E.
      injection E as <- E.
      destruct (IH s2 (closed_tail _ _ H1) (closed_tail _ _ H2) Hn Hm E)
        as [-> ->].
      done.
Qed.

Lemma joined_differ d1 d2 n m :
  dir_prefix d1 ≠ dir_prefix d2 →
  PyStr.contains_char "/" n = false →
  PyStr.contains_char "/" m = false →
  dir_prefix d1 +:+ n ≠ dir_prefix d2 +:+ m.
Proof.
  intros Hd Hn Hm E.
  by destruct (split_unique _ _ _ _ (dir_prefix_closed d1)
                 (dir_prefix_closed d2) Hn Hm E).
Qed.

Lemma joined_inj d n m :
  PyStr.contains_char "/" n = false →
  PyStr.contains_char "/" m = false →
  dir_prefix d +:+ n = dir_prefix d +:+ m → n = m.
Proof.
  intros Hn Hm E.
  by destruct (split_unique _ _ _ _ (dir_prefix_closed d)
                 (dir_prefix_closed d) Hn Hm E).
Qed.

Lemma elem_of_listdir d n (fs : filesystem) :
  n ∈ listdir d fs
  ↔ PyStr.truthy n = true ∧ PyStr.contains_char "/" n = false
    ∧ is_Some (fs !! (dir_prefix d +:+ n)).
Proof.
  split.
  - unfold listdir. intros (p & Hp & Hn)%list_elem_of_omap.
    apply entry_name_inv in Hn as (-> & Hn & Hs).
    apply list_elem_of_fmap in Hp as ([p f] & -> & Hp).
    apply elem_of_map_to_list in Hp. by eauto.
  - intros (Hn & Hs & Hf). apply listdir_saved; [|done..].
    by rewrite path_join_prefix.
Qed.

Lemma elem_of_pdf_files d n (fs : filesystem) :
  n ∈ pdf_files d fs
  ↔ is_pdf_name n = true ∧ PyStr.truthy n = true
    ∧ PyStr.contains_char "/" n = false
    ∧ is_Some (fs !! (dir_prefix d +:+ n)).
Proof.
  unfold pdf_files. rewrite list_elem_of_In, filter_In, <- list_elem_of_In.
  rewrite elem_of_listdir. tauto.
Qed.

Lemma NoDup_omap_inj {A B} (f : A → option B) l :
  (∀ x y z, f x = Some z → f y = Some z → x = y) →
  NoDup l → NoDup (omap f l).
Proof.
  intros Hinj. induction 1 as [|x l Hx Hl IH]; [constructor|].
  cbn [omap list_omap]. destruct (f x) as [z|] eqn:E; [|done].
  constructor; [|done].
  intros (y & Hy & Hz)%list_elem_of_omap.
  by rewrite (Hinj _ _ _ E Hz) in Hx.
Qed.

Lemma NoDup_pdf_files d (fs : filesystem) : NoDup (pdf_files d fs).
Proof.
  unfold pdf_files. apply NoDup_ListNoDup, List.NoDup_filter, NoDup_ListNoDup.
  unfold listdir. apply NoDup_omap_inj; [|apply NoDup_fst_map_to_list].
  intros x y z (-> & _)%entry_name_inv (-> & _)%entry_name_inv. done.
Qed.

End PathFacts.

Section MoveFacts.

Implicit Types (fs : filesystem) (l : list string).

(** A sequence of moves from sources to destinations that do not meet. *)
Lemma fold_moves (src dst : string → string) l fs :
  NoDup l →
  (∀ n m, n ∈ l → m ∈ l → src n = src m → n = m) →
  (∀ n m, n ∈ l → m ∈ l → dst n = dst m → n = m) →
  (∀ n m, n ∈ l → m ∈ l → src n ≠ dst m) →
  (∀ n, n ∈ l → is_Some (fs !! src n)) →
  let fs' := fold_left (λ fs n, shutil_move (src n) (dst n) fs) l fs in
  (∀ n, n ∈ l → fs' !! dst n = fs !! src n)
  ∧ (∀ n, n ∈ l → fs' !! src n = None)
  ∧ (∀ p, (∀ n, n ∈ l → p ≠ src n ∧ p ≠ dst n) → fs' !! p = fs !! p).
Proof.
  intros Hl. revert fs.
  induction Hl as [|x l Hx Hl IH]; intros fs Hsrc Hdst Hmeet Hfiles; cbn zeta.
  { split; [|split]; [by intros n ?%elem_of_nil..|done]. }
  cbn [fold_left].
  destruct (Hfiles x) as [f Hf]; [left|].
  assert (shutil_move (src x) (dst x) fs = <[dst x := f]> (delete (src x) fs))
    as Hmove by (unfold shutil_move; by rewrite Hf).
  rewrite Hmove. set (fs1 := <[dst x := f]> (delete (src x) fs)).
  assert (∀ p, p ≠ src x → p ≠ dst x → fs1 !! p = fs !! p) as Hframe.
  { intros p H1 H2. unfold fs1.
    by rewrite lookup_insert_ne, lookup_delete_ne. }
  assert (∀ m, m ∈ l → src m ≠ src x ∧ src m ≠ dst x
                       ∧ dst m ≠ src x ∧ dst m ≠ dst x) as Hother.
  { intros m Hm. repeat split.
    - intros E. apply Hsrc in E; [by subst|by right|left].
    - apply Hmeet; [by right|left].
    - intros E. symmetry in E. revert E. apply Hmeet; [left|by right].
    - intros E. apply Hdst in E; [by subst|by right|left]. }
  destruct (IH fs1) as (IH1 & IH2 & IH3).
  { intros n m Hn Hm. apply Hsrc; by right. }
  { intros n m Hn Hm. apply Hdst; by right. }
  { intros n m Hn Hm. apply Hmeet; by right. }
  { intros n Hn. destruct (Hother n Hn) as (? & ? & _).
    rewrite Hframe by done. apply Hfiles. by right. }
  split; [|split].
  - intros n [->|Hn]%elem_of_cons.
    + rewrite IH3.
      * unfold fs1. by rewrite lookup_insert_eq.
      * intros m Hm. destruct (Hother m Hm) as (_ & ? & _ & ?).
        split; congruence.
    + rewrite (IH1 n Hn). destruct (Hother n Hn) as (? & ? & _).
      by apply Hframe.
  - intros n [->|Hn]%elem_of_cons.
    + rewrite IH3.
      * unfold fs1. rewrite lookup_insert_ne, lookup_delete_eq; [done|].
        intros E. symmetry in E. revert E. apply Hmeet; left.
      * intros m Hm. destruct (Hother m Hm) as (? & _ & ? & _).
        split; congruence.
    + by apply IH2.
  - intros p Hp. rewrite IH3.
    + destruct (Hp x) as [? ?]; [left|]. by apply Hframe.
    + intros n Hn. apply Hp. by right.
Qed.

(** The files of [move_pdfs], path by path. *)
Lemma move_pdfs_lookup out main fs :
  dir_prefix out ≠ dir_prefix main →
  (∀ n, n ∈ pdf_files out fs →
        move_pdfs out main fs !! (dir_prefix main +:+ n)
        = fs !! (dir_prefix out +:+ n))
  ∧ (∀ n, n ∈ pdf_files out fs →
          move_pdfs out main fs !! (dir_prefix out +:+ n) = None)
  ∧ (∀ p, (∀ n, n ∈ pdf_files out fs →
                p ≠ dir_prefix out +:+ n ∧ p ≠ dir_prefix main +:+ n) →
          move_pdfs out main fs !! p = fs !! p).
Proof.
  intros Hd.
  assert (∀ n, n ∈ pdf_files out fs →
               PyStr.contains_char "/" n = false
               ∧ is_Some (fs !! (dir_prefix out +:+ n))) as Hin.
  { intros n (_ & _ & ? & ?)%elem_of_pdf_files. done. }
  assert (∀ d n, n ∈ pdf_files out fs → path_join d n = dir_prefix d +:+ n)
    as Hjoin.
  { intros d n [? _]%Hin. by apply path_join_prefix. }
  destruct (fold_moves (path_join out) (path_join main) (pdf_files out fs) fs)
    as (H1 & H2 & H3).
  - apply NoDup_pdf_files.
  - intros n m Hn Hm. rewrite !Hjoin by done.
    apply joined_inj; by apply Hin.
  - intros n m Hn Hm. rewrite !Hjoin by done.
    apply joined_inj; by apply Hin.
  - intros n m Hn Hm. rewrite !Hjoin by done.
    apply joined_differ; [done|by apply Hin..].
  - intros n Hn. rewrite Hjoin by done. by apply Hin.
  - unfold move_pdfs, moved_files. fold (pdf_files out fs).
    split; [|split].
    + intros n Hn. rewrite <- !Hjoin by done. by apply H1.
    + intros n Hn. rewrite <- !Hjoin by done. by apply H2.
    + intros p Hp. apply H3. intros n Hn. rewrite !Hjoin by done. by apply Hp.
Qed.

(** The names listed after a move: the job directory gains those of the
    topic directory, which loses them; another directory keeps its own. *)
Lemma move_pdfs_main out main fs n :
  dir_prefix out ≠ dir_prefix main →
  n ∈ pdf_files main (move_pdfs out main fs)
  ↔ n ∈ pdf_files main fs ∨ n ∈ pdf_files out fs.
Proof.
  intros Hd. destruct (move_pdfs_lookup out main fs Hd) as (H1 & H2 & H3).
  destruct (decide (n ∈ pdf_files out fs)) as [Hn|Hn].
  - split; [by right|]. intros _.
    pose proof Hn as (? & ? & ? & ?)%elem_of_pdf_files.
    apply elem_of_pdf_files. rewrite (H1 n Hn). done.
  - rewrite !elem_of_pdf_files.
    assert (PyStr.contains_char "/" n = false →
            move_pdfs out main fs !! (dir_prefix main +:+ n)
            = fs !! (dir_prefix main +:+ n)) as Hsame.
    { intros Hs. apply H3. intros m Hm.
      pose proof Hm as (_ & _ & Hms & _)%elem_of_pdf_files. split.
      - intros E. symmetry in E. revert E. by apply joined_differ.
      - intros E%joined_inj; [by subst|done..]. }
    split.
    + intros (? & ? & Hs & Hf). rewrite (Hsame Hs) in Hf. by left.
    + intros [(? & ? & Hs & Hf)|Hin]; [|by destruct Hn; apply elem_of_pdf_files].
      by rewrite (Hsame Hs).
Qed.

Lemma move_pdfs_other d out main fs n :
  dir_prefix out ≠ dir_prefix main →
  dir_prefix d ≠ dir_prefix main →
  n ∈ pdf_files d (move_pdfs out main fs)
  ↔ n ∈ pdf_files d fs ∧ dir_prefix d ≠ dir_prefix out.
Proof.
  intros Hd Hdm. destruct (move_pdfs_lookup out main fs Hd) as (H1 & H2 & H3).
  rewrite !elem_of_pdf_files.
  destruct (decide (dir_prefix d = dir_prefix out)) as [E|Hne].
  - rewrite E. split; [|by intros [_ ?]].
    intros (Hp & Ht & Hs & Hf). exfalso.
    destruct (decide (n ∈ pdf_files out fs)) as [Hn|Hn].
    + rewrite (H2 n Hn) in Hf. by destruct Hf.
    + rewrite H3 in Hf; [by apply Hn, elem_of_pdf_files|].
      intros m Hm. pose proof Hm as (_ & _ & Hms & _)%elem_of_pdf_files. split.
      * intros ->%joined_inj; [done..|]. done.
      * by apply joined_differ.
  - assert (PyStr.contains_char "/" n = false →
            move_pdfs out main fs !! (dir_prefix d +:+ n)
            = fs !! (dir_prefix d +:+ n)) as Hsame.
    { intros Hs. apply H3. intros m Hm.
      pose proof Hm as (_ & _ & Hms & _)%elem_of_pdf_files.
      split; by apply joined_differ. }
    split.
    + intros (? & ? & Hs & Hf). rewrite (Hsame Hs) in Hf. done.
    + intros [(? & ? & Hs & Hf) _]. by rewrite (Hsame Hs).
Qed.

End MoveFacts.

Section DeliverFacts.

Implicit Types (fs : filesystem) (all_results : list topic_result).

Lemma shorter_listing (l k : list string) :
  NoDup l → (∀ x, x ∈ l → x ∈ k) → (length l ≤ length k)%nat.
Proof. intros Hl Hin. by apply submseteq_length, NoDup_submseteq. Qed.

Lemma move_pdfs_main_count out main fs :
  dir_prefix out ≠ dir_prefix main →
  pdf_count main (move_pdfs out main fs)
  ≤ pdf_count main fs + pdf_count out fs.
Proof.
  intros Hd. unfold pdf_count. rewrite <- Nat2Z.inj_add, <- length_app.
  apply inj_le, shorter_listing; [apply NoDup_pdf_files|].
  intros n Hn%move_pdfs_main; [|done]. by apply elem_of_app.
Qed.

Lemma move_pdfs_other_count d out main fs :
  dir_prefix out ≠ dir_prefix main →
  dir_prefix d ≠ dir_prefix main →
  pdf_count d (move_pdfs out main fs) ≤ pdf_count d fs.
Proof.
  intros Hd Hdm. unfold pdf_count.
  apply inj_le, shorter_listing; [apply NoDup_pdf_files|].
  by intros n [Hn _]%move_pdfs_other.
Qed.

Lemma same_prefix_listed d1 d2 fs n :
  dir_prefix d1 = dir_prefix d2 →
  n ∈ pdf_files d1 fs → n ∈ pdf_files d2 fs.
Proof. intros E. rewrite !elem_of_pdf_files. by rewrite E. Qed.

Lemma total_from all_results a :
  fold_left (λ total result, total + res_pdf_count result) all_results a
  = a + total_pdf_count all_results.
Proof.
  unfold total_pdf_count. revert a.
  induction all_results as [|r l IH]; intros a; cbn [fold_left]; [lia|].
  rewrite (IH (a + res_pdf_count r)), (IH (0 + res_pdf_count r)). lia.
Qed.

Lemma total_pdf_count_cons result all_results :
  total_pdf_count (result :: all_results)
  = res_pdf_count result + total_pdf_count all_results.
Proof.
  unfold total_pdf_count at 1. cbn [fold_left]. rewrite total_from. lia.
Qed.

Lemma pdf_count_nonneg d fs : 0 ≤ pdf_count d fs.
Proof. unfold pdf_count. lia. Qed.

Lemma deliver_names all_results main fs n :
  (∀ result, result ∈ all_results →
     PyStr.truthy (res_output_dir result) = true →
     dir_prefix (res_output_dir result) ≠ dir_prefix main) →
  n ∈ pdf_files main (deliver all_results main fs)
  ↔ n ∈ pdf_files main fs
    ∨ ∃ result, result ∈ all_results
                ∧ PyStr.truthy (res_output_dir result) = true
                ∧ n ∈ pdf_files (res_output_dir result) fs.
Proof.
  revert fs. induction all_results as [|r l IH]; intros fs Hd.
  { cbn. split; [by left|]. intros [?|(? & []%elem_of_nil & _)]. done. }
  unfold deliver in *. cbn [fold_left]. cbn zeta.
  assert (∀ result, result ∈ l →
            PyStr.truthy (res_output_dir result) = true →
            dir_prefix (res_output_dir result) ≠ dir_prefix main) as Hl.
  { intros result Hin. apply Hd. by right. }
  rewrite (IH _ Hl).
  destruct (PyStr.truthy (res_output_dir r)) eqn:Hr.
  - assert (dir_prefix (res_output_dir r) ≠ dir_prefix main) as Hrm.
    { apply Hd; [left|done]. }
    rewrite move_pdfs_main by done. split.
    + intros [[?|?]|(r' & Hin & Ht & Hn)].
      * by left.
      * right. exists r. split; [left|done].
      * apply move_pdfs_other in Hn as [Hn _]; [|done|by apply Hl].
        right. exists r'. split; [by right|done].
    + intros [?|(r' & [->|Hin]%elem_of_cons & Ht & Hn)].
      * by left; left.
      * by left; right.
      * destruct (decide (dir_prefix (res_output_dir r')
                          = dir_prefix (res_output_dir r))) as [E|Hne].
        -- left; right. by apply (same_prefix_listed _ _ _ _ E).
        -- right. exists r'. split; [done|]. split; [done|].
           apply move_pdfs_other; [done|by apply Hl|done].
  - split.
    + intros [?|(r' & Hin & Ht & Hn)]; [by left|].
      right. exists r'. split; [by right|done].
    + intros [?|(r' & [->|Hin]%elem_of_cons & Ht & Hn)]; [by left|congruence|].
      right. by exists r'.
Qed.

Lemma deliver_count all_results main fs :
  (∀ result, result ∈ all_results →
     PyStr.truthy (res_output_dir result) = true →
     dir_prefix (res_output_dir result) ≠ dir_prefix main) →
  (∀ result, result ∈ all_results →
     0 ≤ res_pdf_count result
     ∧ (PyStr.truthy (res_output_dir result) = true →
        pdf_count (res_output_dir result) fs ≤ res_pdf_count result)) →
  pdf_count main (deliver all_results main fs)
  ≤ pdf_count main fs + total_pdf_count all_results.
Proof.
  revert fs. induction all_results as [|r l IH]; intros fs Hd Hc.
  { cbn. unfold total_pdf_count. cbn. lia. }
  rewrite total_pdf_count_cons.
  unfold deliver in *. cbn [fold_left]. cbn zeta.
  assert (∀ result, result ∈ l →
            PyStr.truthy (res_output_dir result) = true →
            dir_prefix (res_output_dir result) ≠ dir_prefix main) as Hl.
  { intros result Hin. apply Hd. by right. }
  destruct (Hc r) as [Hr0 Hr]; [left|].
  destruct (PyStr.truthy (res_output_dir r)) eqn:Ht.
  - assert (dir_prefix (res_output_dir r) ≠ dir_prefix main) as Hrm.
    { apply Hd; [left|done]. }
    etransitivity; [apply (IH _ Hl)|].
    + intros r' Hin. destruct (Hc r') as [H0 H1]; [by right|].
      split; [done|]. intros Ht'.
      etransitivity; [apply move_pdfs_other_count; [done|by apply Hl]|auto].
    + pose proof (move_pdfs_main_count _ _ fs Hrm).
      specialize (Hr eq_refl). lia.
  - etransitivity; [apply (IH _ Hl)|lia].
    intros r' Hin. apply Hc. by right.
Qed.

End DeliverFacts.

(** X19: [move_pdfs] between two different directories moves every PDF the
    topic directory lists to the same name in the directory of the job,
    with its content, replacing what was there; the topic directory lists
    no PDF afterwards, and no other path changes. *)
Theorem move_pdfs_moves output_dir main_temp_dir (fs : filesystem) :
  dir_prefix output_dir ≠ dir_prefix main_temp_dir →
  let fs' := move_pdfs output_dir main_temp_dir fs in
  (∀ file, file ∈ pdf_files output_dir fs →
     is_Some (fs !! path_join output_dir file)
     ∧ fs' !! path_join main_temp_dir file = fs !! path_join output_dir file
     ∧ fs' !! path_join output_dir file = None)
  ∧ pdf_files output_dir fs' = []
  ∧ (∀ p, (∀ file, file ∈ pdf_files output_dir fs →
             p ≠ path_join output_dir file
             ∧ p ≠ path_join main_temp_dir file) →
          fs' !! p = fs !! p).
Proof.
  intros Hd fs'. subst fs'.
  destruct (move_pdfs_lookup output_dir main_temp_dir fs Hd) as (H1 & H2 & H3).
  assert (∀ d file, file ∈ pdf_files output_dir fs →
                    path_join d file = dir_prefix d +:+ file) as Hjoin.
  { intros d file (_ & _ & ? & _)%elem_of_pdf_files. by apply path_join_prefix. }
  split; [|split].
  - intros file Hfile. rewrite !Hjoin by done.
    pose proof Hfile as (_ & _ & _ & ?)%elem_of_pdf_files. auto.
  - apply elem_of_nil_inv. intros n [_ Hn]%move_pdfs_other; [|done..]. done.
  - intros p Hp. apply H3. intros n Hn. rewrite <- !Hjoin by done. by apply Hp.
Qed.

Lemma move_pdfs_moves_witness :
  pdf_files "/tmp/topic_a" (move_pdfs "/tmp/topic_a" "/tmp/job_1" two_topic_files)
  = [].
Proof.
  apply (proj1 (proj2 (move_pdfs_moves "/tmp/topic_a" "/tmp/job_1"
                         two_topic_files ltac:(by vm_compute)))).
Defined.

(** X20: when every topic directory differs from the directory of the job,
    the counts of the results are those of the directories and the
    directory of the job holds no PDF yet, the PDFs it lists after the
    moves are the names listed by some topic directory, and there are at
    most as many as the job reports: a name two topics share is delivered
    once and counted twice. *)
Theorem delivered_pdfs all_results main_temp_dir (fs : filesystem) :
  (∀ result, result ∈ all_results →
     result = topic_failed
     ∨ ∃ temp_dir, result = topic_done temp_dir fs
                   ∧ dir_prefix temp_dir ≠ dir_prefix main_temp_dir) →
  pdf_files main_temp_dir fs = [] →
  let fs' := deliver all_results main_temp_dir fs in
  (∀ file, file ∈ pdf_files main_temp_dir fs'
           ↔ ∃ result, result ∈ all_results
                       ∧ PyStr.truthy (res_output_dir result) = true
                       ∧ file ∈ pdf_files (res_output_dir result) fs)
  ∧ pdf_count main_temp_dir fs' ≤ total_pdf_count all_results.
Proof.
  intros Hres Hempty fs'. subst fs'.
  assert (∀ result, result ∈ all_results →
            PyStr.truthy (res_output_dir result) = true →
            dir_prefix (res_output_dir result) ≠ dir_prefix main_temp_dir)
    as Hd.
  { intros result [->|(d & -> & Hd)]%Hres; [done|]. by intros _. }
  split.
  - intros file. rewrite (deliver_names _ _ _ _ Hd), Hempty. split.
    + by intros [?%elem_of_nil|?].
    + by right.
  - etransitivity; [apply (deliver_count _ _ _ Hd)|].
    + intros result [->|(d & -> & _)]%Hres; [done|].
      cbn. split; [apply pdf_count_nonneg|done].
    + unfold pdf_count at 1. rewrite Hempty. cbn. lia.
Qed.

Lemma delivered_pdfs_witness :
  pdf_count "/tmp/job_1"
    (deliver [topic_done "/tmp/topic_a" two_topic_files; topic_failed;
              topic_done "/tmp/topic_b" two_topic_files]
       "/tmp/job_1" two_topic_files)
  ≤ total_pdf_count [topic_done "/tmp/topic_a" two_topic_files; topic_failed;
                     topic_done "/tmp/topic_b" two_topic_files].
Proof.
  apply (proj2 (delivered_pdfs
                  [topic_done "/tmp/topic_a" two_topic_files; topic_failed;
                   topic_done "/tmp/topic_b" two_topic_files]
                  "/tmp/job_1" two_topic_files
                  ltac:(intros result Hin;
                        repeat (apply elem_of_cons in Hin as [->|Hin]);
                        [right; eexists; split; [reflexivity|by vm_compute]
                        |by left
                        |right; eexists; split; [reflexivity|by vm_compute]
                        |by apply elem_of_nil in Hin])
                  ltac:(by vm_compute))).
Defined.

(** The same paper found under two topics: two PDFs reported, one
    delivered. *)
Example shared_name_delivered_once :
  total_pdf_count [topic_done "/tmp/topic_a" two_topic_files;
                   topic_done "/tmp/topic_b" two_topic_files] = 3
  ∧ pdf_count "/tmp/job_1"
      (deliver [topic_done "/tmp/topic_a" two_topic_files;
                topic_done "/tmp/topic_b" two_topic_files]
         "/tmp/job_1" two_topic_files) = 2.
Proof. split; by vm_compute. Qed.

(** ** The job registry *)

Section RegistryFacts.

Lemma new_job_id_fresh s :
  registry_invariant s → jobs s !! new_job_id (jobs s) = None.
Proof.
  intros (Hids & _ & _). apply eq_None_not_Some. intros Hsome.
  apply Hids in Hsome as (i & Hi & E). unfold new_job_id in E.
  apply (inj pretty) in E. lia.
Qed.

Lemma registry_invariant_start s :
  registry_invariant s → registry_invariant (start_scraping s).2.
Proof.
  intros Hinv. pose proof (new_job_id_fresh s Hinv) as Hfresh.
  destruct Hinv as (Hids & Hpending & Hnodup).
  unfold registry_invariant, start_scraping. cbn [snd jobs pending].
  split; [|split].
  - intros job_id. rewrite map_size_insert_None by done.
    rewrite lookup_insert_is_Some, Hids. unfold new_job_id. split.
    + intros [<-|[_ (i & Hi & ->)]].
      * exists (size (jobs s) + 1)%nat. split; [lia|done].
      * exists i. split; [lia|done].
    + intros (i & Hi & ->).
      destruct (decide (i = size (jobs s) + 1)%nat) as [->|Hne]; [by left|].
      right. split; [intros E%(inj pretty); done|].
      exists i. split; [lia|done].
  - intros job_id. rewrite elem_of_cons, Hpending.
    destruct (decide (job_id = new_job_id (jobs s))) as [->|Hne].
    + rewrite lookup_insert_eq. split; [done|by left].
    + rewrite lookup_insert_ne by done. split; [by intros [?|?]|by right].
  - constructor; [|done]. rewrite Hpending, Hfresh. done.
Qed.

Lemma registry_invariant_end s job_id outcome :
  job_id ∈ pending s →
  registry_invariant s → registry_invariant (run_scraper_ends job_id outcome s).
Proof.
  intros Hin (Hids & Hpending & Hnodup).
  pose proof Hin as Hrun%Hpending.
  unfold registry_invariant, run_scraper_ends. cbn [jobs pending].
  split; [|split].
  - intros id. rewrite map_size_insert_Some by done.
    rewrite lookup_insert_is_Some, <- Hids.
    split; [intros [<-|[_ ?]]; [by rewrite Hrun|done]|].
    intros H. destruct (decide (job_id = id)); [by left|by right].
  - intros id. rewrite list_elem_of_filter, Hpending.
    destruct (decide (id = job_id)) as [->|Hne].
    + rewrite lookup_insert_eq. split; [by intros [? _]|done].
    + rewrite lookup_insert_ne by done. split; [by intros [_ ?]|done].
  - by apply NoDup_filter.
Qed.

Lemma registry_invariant_step s s' :
  step s s' → registry_invariant s → registry_invariant s'.
Proof.
  intros [s0|s0 job_id outcome Hin].
  - apply registry_invariant_start.
  - by apply registry_invariant_end.
Qed.

Lemma registry_invariant_steps s s' :
  rtc step s s' → registry_invariant s → registry_invariant s'.
Proof.
  induction 1 as [|s1 s2 s3 Hstep _ IH]; [done|].
  intros H. by apply IH, (registry_invariant_step s1).
Qed.

Lemma registry_invariant_reachable s : reachable s → registry_invariant s.
Proof.
  intros H. apply (registry_invariant_steps _ _ H).
  unfold registry_invariant, started. cbn [jobs pending].
  split; [|split].
  - intros job_id. rewrite lookup_empty, map_size_empty.
    split; [by intros []|]. intros (i & Hi & _). lia.
  - intros job_id. rewrite lookup_empty. split; [by intros ?%elem_of_nil|done].
  - constructor.
Qed.

(** A step keeps the outcome of a job that has ended. *)
Lemma step_keeps_outcome s s' job_id outcome :
  registry_invariant s → step s s' →
  jobs s !! job_id = Some (JobEnded outcome) →
  jobs s' !! job_id = Some (JobEnded outcome).
Proof.
  intros Hinv Hstep Hjob. pose proof (new_job_id_fresh s Hinv) as Hfresh.
  destruct Hinv as (_ & Hpending & _).
  destruct Hstep as [s|s id o Hin].
  - unfold start_scraping. cbn [snd jobs].
    rewrite lookup_insert_ne; [done|]. intros E. congruence.
  - unfold run_scraper_ends. cbn [jobs].
    apply Hpending in Hin. rewrite lookup_insert_ne; [done|].
    intros E. congruence.
Qed.

End RegistryFacts.

(** X21: in every state the server reaches, the id [start_scraping] gives
    the next job is not in use: the record of an earlier job, running or
    ended, is never replaced by that of a new one, and the new job is shown
    as running.  The ids in use are the numbers from 1 to the number of
    jobs. *)
Theorem job_ids_fresh s :
  reachable s →
  let job_id := (start_scraping s).1 in
  let s' := (start_scraping s).2 in
  get_status job_id s = None
  ∧ get_status job_id s' = Some JobRunning
  ∧ (∀ other, is_Some (get_status other s) →
              get_status other s' = get_status other s)
  ∧ (∀ other, is_Some (get_status other s)
              ↔ ∃ i : nat, (1 ≤ i ≤ size (jobs s))%nat ∧ other = pretty i).
Proof.
  intros Hinv%registry_invariant_reachable.
  pose proof (new_job_id_fresh s Hinv) as Hfresh.
  unfold start_scraping, get_status. cbn [fst snd jobs].
  split; [done|]. split; [by rewrite lookup_insert_eq|]. split.
  - intros other Hother. rewrite lookup_insert_ne; [done|].
    intros <-. rewrite Hfresh in Hother. by destruct Hother.
  - by destruct Hinv as (Hids & _).
Qed.

Lemma job_ids_fresh_witness :
  get_status "3" (run_scraper_ends "1" (JobError "timeout" EmptyString)
                    (start_scraping (start_scraping started).2).2)
  = None.
Proof.
  refine (proj1 (job_ids_fresh
                  (run_scraper_ends "1" (JobError "timeout" EmptyString)
                     (start_scraping (start_scraping started).2).2)
                  _)).
  eapply rtc_l; [apply step_start|].
  eapply rtc_l; [apply step_start|].
  apply rtc_once, step_end. vm_compute. right; left.
Defined.

(** X22: the outcome of a job that has ended is final: whatever requests
    and ends of runs follow, [get_status] keeps answering with the same
    record; and a job is shown as running exactly while its run is
    pending, of which there is one. *)
Theorem ended_jobs_final s s' :
  reachable s → rtc step s s' →
  (∀ job_id outcome,
     get_status job_id s = Some (JobEnded outcome) →
     get_status job_id s' = Some (JobEnded outcome))
  ∧ (∀ job_id, get_status job_id s' = Some JobRunning ↔ job_id ∈ pending s')
  ∧ NoDup (pending s').
Proof.
  intros Hs%registry_invariant_reachable Hsteps. unfold get_status.
  split.
  - intros job_id outcome.
    induction Hsteps as [|s1 s2 s3 Hstep _ IH]; [done|].
    intros Hjob. apply IH.
    + by apply (registry_invariant_step s1).
    + by apply (step_keeps_outcome s1).
  - destruct (registry_invariant_steps _ _ Hsteps Hs) as (_ & Hpending & ?).
    split; [|done]. intros other. by rewrite Hpending.
Qed.

Lemma ended_jobs_final_witness :
  get_status "1"
    (start_scraping
       (run_scraper_ends "1" (JobError "timeout" EmptyString)
          (start_scraping started).2)).2
  = Some (JobEnded (JobError "timeout" EmptyString)).
Proof.
  refine (proj1 (ended_jobs_final
                   (run_scraper_ends "1" (JobError "timeout" EmptyString)
                      (start_scraping started).2)
                   (start_scraping
                      (run_scraper_ends "1" (JobError "timeout" EmptyString)
                         (start_scraping started).2)).2
                   _ _)
            "1" (JobError "timeout" EmptyString) _).
  - eapply rtc_l; [apply step_start|].
    apply rtc_once, step_end. vm_compute. left.
  - apply rtc_once, step_start.
  - by vm_compute.
Defined.

(** ** From the request to the runs *)

(** X23: when the keyword service fails at every request, a job for a
    text has one topic, [main_topic], with a target of the larger of five
    and the maximum, and its keywords are not the text but the printed
    form of the dictionary [start_scraping] wrapped it in: the text is
    wrapped once by [start_scraping] and once more by [run_scraper].  The
    run of [main] for it is started when the directory of the topic is
    made and [argparse] takes the keywords, the email and the directory as
    values; an email it reads as an option, or a directory that cannot be
    made, ends the topic with that error and without a run. *)
Theorem service_down_searches_wrapped
    json_loads gemini_post repr_container mkdtemp dash_value
    text email max_pdfs :
  (∀ d, ∃ e, gemini_post d = Raised e) →
  let description := request_keywords json_loads gemini_post (JStr text) in
  let keywords := repr_container (main_topic (JStr text)) in
  let run :=
    topic_run repr_container mkdtemp dash_value email (Z.max 5 max_pdfs)
      "main_topic" (main_topic (JStr text)) in
  description = main_topic (JStr text)
  ∧ run_scraper_topics json_loads gemini_post description
    = main_topic (main_topic (JStr text))
  ∧ run_scraper_runs json_loads gemini_post repr_container mkdtemp dash_value
      description email max_pdfs
    = Returned [("main_topic", run)]
  ∧ (∀ temp_dir,
       mkdtemp "topic_main_topic_" = Returned temp_dir →
       takes_value dash_value keywords = true →
       (takes_value dash_value email = true →
        takes_value dash_value temp_dir = true →
        run = Returned (Arguments keywords email (Z.max 5 max_pdfs) temp_dir
                          "2024-01-01" "2025-12-31" false))
       ∧ (takes_value dash_value email = false →
          run = Raised (expected_one_argument "--email/-e")))
  ∧ (∀ e, mkdtemp "topic_main_topic_" = Raised e → run = Raised e).
Proof.
  intros Hdown.
  assert (∀ d, generate_keywords_from_description json_loads gemini_post d
               = main_topic d) as Hgen.
  { intros d. unfold generate_keywords_from_description, generate_keywords_try.
    destruct (Hdown d) as [e ->]. done. }
  cbn zeta. unfold request_keywords. rewrite Hgen.
  assert (run_scraper_topics json_loads gemini_post (main_topic (JStr text))
          = main_topic (main_topic (JStr text))) as Htopics.
  { unfold run_scraper_topics. by rewrite Hgen. }
  split; [done|]. split; [done|]. split; [|split].
  - unfold run_scraper_runs. rewrite Htopics.
    unfold main_topic at 1 2. cbn [py_len mbind py_result_bind].
    unfold job_runs, job_topics, max_pdfs_per_topic.
    cbn [length fmap list_fmap]. cbn [Z.of_nat Pos.of_succ_nat Z.eqb].
    rewrite Z.div_1_r. reflexivity.
  - intros temp_dir Hdir Hk. unfold topic_run.
    change ("topic_" +:+ "main_topic" +:+ "_") with "topic_main_topic_".
    rewrite Hdir. cbn [mbind py_result_bind].
    unfold parse_args, main_topic in *. cbn [py_str]. rewrite Hk.
    cbn [negb]. split.
    + by intros -> ->.
    + by intros ->.
  - intros e Hdir. unfold topic_run.
    change ("topic_" +:+ "main_topic" +:+ "_") with "topic_main_topic_".
    by rewrite Hdir.
Qed.

Lemma service_down_searches_wrapped_witness :
  run_scraper_runs no_json service_down one_entry_repr made_mkdtemp
    no_dash_value
    (request_keywords no_json service_down (JStr "rare skin disease"))
    "a@b.org" 20
  = Returned [("main_topic",
               Returned (Arguments "{'main_topic': 'rare skin disease'}"
                           "a@b.org" 20 "/tmp/topic_main_topic_"
                           "2024-01-01" "2025-12-31" false))].
Proof.
  rewrite (proj1 (proj2 (proj2 (service_down_searches_wrapped no_json
                                  service_down one_entry_repr made_mkdtemp
                                  no_dash_value "rare skin disease"
                                  "a@b.org" 20
                                  (λ _, ex_intro _
                                          (Exn RequestException "down")
                                          eq_refl))))).
  reflexivity.
Defined.

(** An email with a leading dash is read as an option: the topic ends with
    the error of [argparse], and [main] is not called. *)
Example dash_email_starts_no_run :
  run_scraper_runs no_json service_down one_entry_repr made_mkdtemp
    no_dash_value
    (request_keywords no_json service_down (JStr "rare skin disease"))
    "-a@b.org" 20
  = Returned [("main_topic", Raised (expected_one_argument "--email/-e"))].
Proof. reflexivity. Qed.

(** ** The resolver on any body *)

Section ResolverSoundness.

Variable quote_plus : string → string.
Variable w : env.

Lemma location_url_offered loc u :
  location_url loc = Returned u → offered_by loc u.
Proof.
  unfold location_url, offered_by.
  intros (a & Ha & H)%bind_returned. unfold Py.or_else in H.
  destruct (Py.truthy a); [left; congruence|by right].
Qed.

Lemma best_location_url_some data u :
  best_location_url data = Returned (Some u) →
  Py.truthy u = true
  ∧ ∃ loc, Py.getitem data "best_oa_location" = Returned loc
           ∧ location_url loc = Returned u.
Proof.
  unfold best_location_url.
  intros (best & _ & H)%bind_returned.
  destruct (Py.truthy best); [|done].
  apply bind_returned in H as (loc & Hloc & H).
  apply bind_returned in H as (pdf_url & Hurl & H).
  apply bind_returned in H as (is_pdf & His & H).
  destruct (Py.truthy pdf_url) eqn:Ht.
  - assert (u = pdf_url) as -> by (destruct is_pdf; congruence). eauto.
  - injection His as <-. done.
Qed.

Lemma first_location_url_sound locs v :
  first_location_url locs = Returned v →
  v = JNull
  ∨ (Py.truthy v = true
     ∧ ∃ loc, loc ∈ locs ∧ location_url loc = Returned v).
Proof.
  induction locs as [|loc locs IH]; cbn [first_location_url].
  { intros [= <-]. by left. }
  intros (pdf_url & Hurl & H)%bind_returned.
  destruct (Py.truthy pdf_url) eqn:Ht.
  - injection H as <-. right. split; [done|]. exists loc. split; [left|done].
  - destruct (IH H) as [->|(? & loc' & ? & ?)]; [by left|].
    right. split; [done|]. exists loc'. split; [by right|done].
Qed.

Lemma unpaywall_try_sound url v :
  unpaywall_try w url = Returned v →
  v = JNull
  ∨ (Py.truthy v = true
     ∧ ∃ data loc, unpaywall_get w url = Returned data
                   ∧ location_of data loc ∧ offered_by loc v).
Proof.
  unfold unpaywall_try.
  intros (data & Hdata & H)%bind_returned.
  apply bind_returned in H as ([u|] & Hbest & H).
  - injection H as <-.
    apply best_location_url_some in Hbest as (Ht & loc & Hloc & Hu).
    right. split; [done|]. exists data, loc.
    split; [done|]. split; [by left|by apply location_url_offered].
  - apply bind_returned in H as (l & Hl & H).
    apply bind_returned in H as (locs & Hlocs & H).
    apply first_location_url_sound in H as [->|(Ht & loc & Hin & Hu)];
      [by left|].
    right. split; [done|]. exists data, loc. split; [done|].
    split; [|by apply location_url_offered].
    right. exists locs. split; [|done]. by rewrite Hl.
Qed.

Lemma best_location_url_not_string data loc u :
  Py.getitem data "best_oa_location" = Returned loc →
  Py.truthy loc = true →
  location_url loc = Returned u →
  Py.truthy u = true →
  (∀ s, u ≠ JStr s) →
  ∃ e, best_location_url data = Raised e.
Proof.
  intros Hloc Hl Hu Ht Hns. unfold best_location_url.
  assert (Py.get data "best_oa_location" JNull = Returned loc) as ->.
  { destruct data; try done. cbn [Py.getitem Py.get] in *.
    destruct (Py.dict_lookup d "best_oa_location"); [|done].
    by injection Hloc as ->. }
  cbn [mbind py_result_bind]. rewrite Hl, Hloc.
  cbn [mbind py_result_bind]. rewrite Hu.
  cbn [mbind py_result_bind]. rewrite Ht.
  destruct u; try (by eexists). by destruct (Hns s).
Qed.

End ResolverSoundness.

(** X24: whatever body Unpaywall answers with, a value other than [None]
    that [get_pdf_url_from_unpaywall] returns is truthy and is the
    [url_for_pdf] or the [url] of a location of that body: the resolver
    makes up no URL.  And a best location that offers a value that is
    truthy and no string hides the other locations: the lookup returns
    [None]. *)
Theorem resolver_returns_offered_url quote_plus w doi email :
  let result := get_pdf_url_from_unpaywall quote_plus w doi email in
  (∀ v, result = Returned v →
        v = JNull
        ∨ (Py.truthy v = true
           ∧ ∃ safe_doi data loc,
               py_quote_plus quote_plus doi = Returned safe_doi
               ∧ unpaywall_get w (UNPAYWALL_API safe_doi email) = Returned data
               ∧ location_of data loc ∧ offered_by loc v))
  ∧ (∀ safe_doi data loc u,
       py_quote_plus quote_plus doi = Returned safe_doi →
       unpaywall_get w (UNPAYWALL_API safe_doi email) = Returned data →
       Py.getitem data "best_oa_location" = Returned loc →
       Py.truthy loc = true →
       location_url loc = Returned u →
       Py.truthy u = true →
       (∀ s, u ≠ JStr s) →
       result = Returned JNull).
Proof.
  cbn zeta. unfold get_pdf_url_from_unpaywall. split.
  - intros v (safe_doi & Hsafe & H)%bind_returned.
    destruct (unpaywall_try w (UNPAYWALL_API safe_doi email)) as [u|e] eqn:Htry.
    + injection H as <-.
      apply unpaywall_try_sound in Htry as [->|(Ht & data & loc & ? & ? & ?)];
        [by left|].
      right. split; [done|]. by exists safe_doi, data, loc.
    + injection H as <-. by left.
  - intros safe_doi data loc u -> Hdata Hloc Hl Hu Ht Hns.
    cbn [mbind py_result_bind]. unfold unpaywall_try. rewrite Hdata.
    cbn [mbind py_result_bind].
    destruct (best_location_url_not_string data loc u Hloc Hl Hu Ht Hns)
      as [e ->].
    done.
Qed.

Lemma resolver_returns_offered_url_witness :
  get_pdf_url_from_unpaywall (λ s, s)
    (Env (λ _, Returned numeric_url_lookup) (λ _, HttpFailed) (λ _, true))
    (JStr "10.1000/x") "a@b.org"
  = Returned JNull.
Proof.
  apply (proj2 (resolver_returns_offered_url (λ s, s)
                  (Env (λ _, Returned numeric_url_lookup) (λ _, HttpFailed)
                     (λ _, true))
                  (JStr "10.1000/x") "a@b.org")
           "10.1000/x" numeric_url_lookup
           (JDict [("url_for_pdf", JNum 7)]) (JNum 7));
    [reflexivity..|done].
Defined.
